(** * SlideWeaver: a shallow embedding of the slide pipeline

    The development follows the Python sources:
    - [core/agents/slide_designer.py]: HTML extraction, the validation
      checklist and the validate-and-retry loop;
    - [core/agents/slide_planner.py]: the planner's retry budget and loop;
    - [core/agents/orchestrator.py]: the design phase and the build step;
    - [backend/session_manager.py], [backend/image_handler.py]: sessions,
      catalog copies, uploads and removals, over an object store.

    Python [str] values are modelled as [string]; the character tests and
    case mappings below are exact on ASCII text, which is all that the
    literals searched for by the code contain.  Python [int] is [Z]. *)

From Stdlib Require Import ZArith Ascii String Bool Lia List DecimalString.
From stdpp Require Import base option list gmap strings.

Local Open Scope Z_scope.

(* ===================================================================== *)
(** * Python string primitives *)
(* ===================================================================== *)

Module Str.

(** The double quote and the newline, kept apart from the literals. *)
Definition dq : string := String "034"%char EmptyString.
Definition nl : string := String "010"%char EmptyString.

Definition code (c : ascii) : nat := nat_of_ascii c.

(** [str.isspace] / [\s] on ASCII: TAB..CR, FS..US and the space. *)
Definition is_space (c : ascii) : bool :=
  let n := code c in
  ((9 <=? n) && (n <=? 13) || (28 <=? n) && (n <=? 32))%nat.

Definition is_upper (c : ascii) : bool :=
  let n := code c in ((65 <=? n) && (n <=? 90))%nat.

Definition is_lower (c : ascii) : bool :=
  let n := code c in ((97 <=? n) && (n <=? 122))%nat.

Definition is_digit (c : ascii) : bool :=
  let n := code c in ((48 <=? n) && (n <=? 57))%nat.

Definition is_alpha (c : ascii) : bool := is_upper c || is_lower c.

Definition is_alnum (c : ascii) : bool := is_alpha c || is_digit c.

Definition lower_char (c : ascii) : ascii :=
  if is_upper c then ascii_of_nat (code c + 32) else c.

Definition upper_char (c : ascii) : ascii :=
  if is_lower c then ascii_of_nat (code c - 32) else c.

Fixpoint map_chars (f : ascii -> ascii) (s : string) : string :=
  match s with
  | EmptyString => EmptyString
  | String c t => String (f c) (map_chars f t)
  end.

(** [s.lower()] and [s.upper()]. *)
Definition lower (s : string) : string := map_chars lower_char s.
Definition upper (s : string) : string := map_chars upper_char s.

Definition eqb_char (a b : ascii) : bool := Ascii.eqb a b.

(** [s.startswith(p)]. *)
Fixpoint starts_with (p s : string) : bool :=
  match p, s with
  | EmptyString, _ => true
  | String a p', String b s' => eqb_char a b && starts_with p' s'
  | String _ _, EmptyString => false
  end.

(** Case-insensitive literal prefix, as [re.IGNORECASE] compares ASCII
    letters; [p] is given in lower case. *)
Fixpoint starts_with_ci (p s : string) : bool :=
  match p, s with
  | EmptyString, _ => true
  | String a p', String b s' => eqb_char a (lower_char b) && starts_with_ci p' s'
  | String _ _, EmptyString => false
  end.

(** Leftmost position at which the suffix of [s] satisfies [m]; the empty
    suffix is tried last, as [re.search] and [str.find] do. *)
Fixpoint search (m : string -> bool) (s : string) : option nat :=
  if m s then Some 0%nat
  else match s with
       | EmptyString => None
       | String _ t => S <$> search m t
       end.

(** [needle in s]. *)
Definition contains (needle s : string) : bool :=
  match search (starts_with needle) s with
  | Some _ => true
  | None => false
  end.

Fixpoint drop (n : nat) (s : string) : string :=
  match n, s with
  | O, _ => s
  | S n', String _ t => drop n' t
  | S _, EmptyString => EmptyString
  end.

Fixpoint take (n : nat) (s : string) : string :=
  match n, s with
  | O, _ => EmptyString
  | S n', String c t => String c (take n' t)
  | S _, EmptyString => EmptyString
  end.

(** [s.find(needle, start)] for [0 <= start]: the index, or [-1]. *)
Definition find (s needle : string) (start : nat) : Z :=
  if (String.length s <? start)%nat then -1
  else match search (starts_with needle) (drop start s) with
       | Some i => Z.of_nat (start + i)
       | None => -1
       end.

(** [s[a:b]] for [0 <= a] and [0 <= b]. *)
Definition slice (s : string) (a b : nat) : string := take (b - a) (drop a s).

Fixpoint lstrip (s : string) : string :=
  match s with
  | EmptyString => EmptyString
  | String c t => if is_space c then lstrip t else s
  end.

Fixpoint rstrip (s : string) : string :=
  match s with
  | EmptyString => EmptyString
  | String c t =>
      match rstrip t with
      | EmptyString => if is_space c then EmptyString else String c EmptyString
      | r => String c r
      end
  end.

(** [s.strip()]. *)
Definition strip (s : string) : string := rstrip (lstrip s).

(** [sep.join(parts)]. *)
Fixpoint join (sep : string) (parts : list string) : string :=
  match parts with
  | [] => EmptyString
  | [p] => p
  | p :: rest => p +:+ sep +:+ join sep rest
  end.

(** Skip the longest run of characters satisfying [p]. *)
Fixpoint skip_while (p : ascii -> bool) (s : string) : string :=
  match s with
  | EmptyString => EmptyString
  | String c t => if p c then skip_while p t else s
  end.

Fixpoint take_while (p : ascii -> bool) (s : string) : string :=
  match s with
  | EmptyString => EmptyString
  | String c t => if p c then String c (take_while p t) else EmptyString
  end.

End Str.

(* ===================================================================== *)
(** * The regular expressions of the designer, as matchers at a position *)
(* ===================================================================== *)

Module Re.
Import Str.

(** Leftmost match of a matcher that yields a captured group. *)
Fixpoint search_group {A} (m : string -> option A) (s : string) : option A :=
  match m s with
  | Some g => Some g
  | None => match s with
            | EmptyString => None
            | String _ t => search_group m t
            end
  end.

Definition not_char (x : ascii) (c : ascii) : bool := negb (eqb_char c x).

(** The pattern (src|href)=Q https?:// at the head of [s], where Q is a
    double or a single quote. *)
Definition external_url_at (s : string) : bool :=
  let after_name :=
    if starts_with "src" s then Some (drop 3 s)
    else if starts_with "href" s then Some (drop 4 s)
    else None in
  match after_name with
  | Some (String e (String q r)) =>
      eqb_char e "=" && (eqb_char q "034" || eqb_char q "'")
      && starts_with "http" r
      && (starts_with "s://" (drop 4 r) || starts_with "://" (drop 4 r))
  | _ => false
  end.

(** [<div[^>]*>\s*([A-Za-z][^<]{10,})] at the head of [s]: the group. *)
Definition unwrapped_at (s : string) : option string :=
  if starts_with "<div" s then
    match skip_while (not_char ">") (drop 4 s) with
    | String _ r =>
        match skip_while is_space r with
        | String c body =>
            let run := take_while (not_char "<") body in
            if is_alpha c && (10 <=? String.length run)%nat
            then Some (String c run) else None
        | EmptyString => None
        end
    | EmptyString => None
    end
  else None.

(** [.*?>]: a [>] reached without crossing a newline. *)
Definition gt_on_line (s : string) : bool :=
  match skip_while (fun c => not_char ">" c && not_char "010" c) s with
  | String c _ => eqb_char c ">"
  | EmptyString => false
  end.

(** [<!DOCTYPE\s+html.*?>] with [re.IGNORECASE] at the head of [s]. *)
Definition doctype_at (s : string) : bool :=
  if starts_with_ci "<!doctype" s then
    match drop 9 s with
    | String c r =>
        if is_space c then
          let r' := skip_while is_space r in
          starts_with_ci "html" r' && gt_on_line (drop 4 r')
        else false
    | EmptyString => false
    end
  else false.

(** [</html>] with [re.IGNORECASE] at the head of [s]. *)
Definition close_html_at (s : string) : bool := starts_with_ci "</html>" s.

End Re.

(* ===================================================================== *)
(** * Data model (core/schemas.py) *)
(* ===================================================================== *)

(** Exceptions that cross the agents and the orchestrator. *)
Inductive PyExn :=
| GeneratorError (msg : string)      (* raised inside an agent call *)
| PrepareError (msg : string)        (* raised while the prompt is built *)
| UnboundLocalError (name : string)
| ValueError (msg : string)
| OSError (msg : string).            (* raised by a file operation *)

(** [str(e)]; the text of [UnboundLocalError] is the one of Python 3.11. *)
Definition exn_str (e : PyExn) : string :=
  match e with
  | GeneratorError msg => msg
  | PrepareError msg => msg
  | UnboundLocalError name =>
      "cannot access local variable '" +:+ name
        +:+ "' where it is not associated with a value"
  | ValueError msg => msg
  | OSError msg => msg
  end.

(** [str(n)] for an [int]. *)
Definition str_of_int (n : Z) : string := NilZero.string_of_int (Z.to_int n).

(** The fields of [SlideSpec] read by the code below; the remaining ones
    (type, layout hint, content blocks, ...) only feed the prompt text. *)
Record SlideSpec := mkSlideSpec {
  slide_id : string;
  slide_index : Z;
  title : string;
  key_points : list string
}.

(** [SlidePlan]: the theme and the global rules only feed the prompt. *)
Record SlidePlan := mkSlidePlan {
  plan_title : string;
  slides : list SlideSpec
}.

Record SlideDesignResult := mkSlideDesignResult {
  result_slide_id : string;
  html_content : string;
  validation_passed : bool;
  validation_errors : list string
}.

(** An agent call: the conversation state goes in and out, and the call
    either raises or yields [str(result)]. *)
Definition AgentCall (St : Type) : Type := St -> string -> St * (PyExn + string).

(** [range(a, b)]. *)
Definition py_range (a b : Z) : list Z :=
  map (fun i => a + Z.of_nat i) (seq 0 (Z.to_nat (b - a))).

(* ===================================================================== *)
(** * core/agents/slide_designer.py *)
(* ===================================================================== *)

Module Designer.
Import Str Re.

Definition DEFAULT_MAX_RETRIES : Z := 3.

(** [__init__]: [self.max_retries = max_retries or DEFAULT_MAX_RETRIES].
    The argument is [None] or an [int]; [None] and [0] are the falsy ones. *)
Definition init_max_retries (max_retries : option Z) : Z :=
  match max_retries with
  | None => DEFAULT_MAX_RETRIES
  | Some n => if n =? 0 then DEFAULT_MAX_RETRIES else n
  end.

(** [_extract_html]. *)
Definition _extract_html (response : string) : string :=
  let response := strip response in
  let fenced_html :=
    if contains "```html" response then
      let start := find response "```html" 0 + 7 in
      let end_ := find response "```" (Z.to_nat start) in
      if start <? end_
      then Some (strip (slice response (Z.to_nat start) (Z.to_nat end_)))
      else None
    else None in
  match fenced_html with
  | Some html => html
  | None =>
  let fenced :=
    if contains "```" response then
      let start := find response "```" 0 + 3 in
      let end_ := find response "```" (Z.to_nat start) in
      if start <? end_
      then Some (strip (slice response (Z.to_nat start) (Z.to_nat end_)))
      else None
    else None in
  match fenced with
  | Some html => html
  | None =>
  match search doctype_at response with
  | Some start =>
      match search close_html_at (drop start response) with
      | Some i =>
          (* end_match.end() is i + 7 in response[start:] *)
          strip (slice response start (start + (i + 7)))
      | None => response
      end
  | None => response
  end
  end
  end.

Definition quoted (s : string) : string := dq +:+ s +:+ dq.

(** [_validate_html]: the error list, in the order the checks append. *)
Definition _validate_html (html : string) (slide : SlideSpec) : list string :=
  let e1 :=
    if negb (contains ("id=" +:+ quoted "slide-root") html)
    then ["Missing #slide-root container"] else [] in
  let e2 :=
    if negb (contains ("data-slide-id=" +:+ quoted (slide_id slide)) html)
    then ["Missing or incorrect data-slide-id (expected "
            +:+ slide_id slide +:+ ")"]
    else [] in
  let e3 :=
    if bool_decide (is_Some (search external_url_at html))
    then ["Contains external URLs (http/https)"] else [] in
  let e4 :=
    if negb (contains "<!DOCTYPE" (upper html))
    then ["Missing DOCTYPE declaration"] else [] in
  let e5 :=
    if negb (contains "<html" (lower html))
    then ["Missing <html> tag"] else [] in
  let e6 :=
    if negb (contains "<head" (lower html))
    then ["Missing <head> tag"] else [] in
  let e7 :=
    if negb (contains "<body" (lower html))
    then ["Missing <body> tag"] else [] in
  let e8 :=
    match search_group unwrapped_at html with
    | Some g =>
        ["DIV contains unwrapped text (wrap in <p> tags): '"
           +:+ take 50 g +:+ "...'"]
    | None => []
    end in
  e1 ++ e2 ++ e3 ++ e4 ++ e5 ++ e6 ++ e7 ++ e8.

(** [SLIDE_DESIGNER_RETRY_MESSAGE.format(errors=..., slide_id=...)]. *)
Definition retry_message (validation_errors : list string) (sid : string)
  : string :=
  let errors_str := join nl (map (fun e => "- " +:+ e) validation_errors) in
  "The previous HTML had validation errors:" +:+ nl
  +:+ errors_str +:+ nl +:+ nl
  +:+ "Please fix these issues and output valid HTML. Remember:" +:+ nl
  +:+ "- Include id=" +:+ quoted "slide-root"
  +:+ " with data-slide-id=" +:+ quoted sid +:+ nl
  +:+ "- No external URLs (http/https)" +:+ nl
  +:+ "- Include <!DOCTYPE html>, <html>, <head>, and <body> tags" +:+ nl +:+ nl
  +:+ "Output ONLY the HTML, no explanations.".

(** What a run of [design_slide] leaves behind: the agent's state, the
    prompts sent to it (one per call, in order) and the outcome. *)
Record Run (St : Type) := mkRun {
  run_state : St;
  run_calls : list string;
  run_outcome : PyExn + SlideDesignResult
}.
Arguments mkRun {St}.
Arguments run_state {St}.
Arguments run_calls {St}.
Arguments run_outcome {St}.

(** The [for attempt in range(1, self.max_retries + 1)] loop and the
    return after it.  [html_content] is [None] while the local variable is
    unbound; [calls] accumulates the prompts. *)
Fixpoint design_loop {St} (agent : AgentCall St) (slide : SlideSpec)
    (user_message : string) (attempts : list Z)
    (st : St) (calls : list string)
    (validation_errors : list string) (html_content : option string)
  : Run St :=
  match attempts with
  | [] =>
      match html_content with
      | Some html =>
          mkRun st calls
            (inr (mkSlideDesignResult (slide_id slide) html false
                    validation_errors))
      | None => mkRun st calls (inl (UnboundLocalError "html_content"))
      end
  | attempt :: rest =>
      let prompt :=
        if attempt =? 1 then user_message
        else retry_message validation_errors (slide_id slide) in
      let '(st', reply) := agent st prompt in
      match reply with
      | inl e => mkRun st' (calls ++ [prompt]) (inl e)
      | inr result =>
          let html := _extract_html result in
          let errs := _validate_html html slide in
          if (length errs =? 0)%nat then
            mkRun st' (calls ++ [prompt])
              (inr (mkSlideDesignResult (slide_id slide) html true []))
          else
            design_loop agent slide user_message rest st'
              (calls ++ [prompt]) errs (Some html)
      end
  end.

(** [design_slide]: [prepare] stands for lines 93-108 (artifact
    resolution, prompt formatting, agent creation), which either raise or
    give the first prompt. *)
Definition design_slide {St} (agent : AgentCall St)
    (prepare : SlideSpec -> PyExn + string) (max_retries : Z)
    (slide : SlideSpec) (st : St) : Run St :=
  match prepare slide with
  | inl e => mkRun st [] (inl e)
  | inr user_message =>
      design_loop agent slide user_message (py_range 1 (max_retries + 1))
        st [] [] None
  end.

End Designer.

(* ===================================================================== *)
(** * core/agents/slide_planner.py *)
(* ===================================================================== *)

Module Planner.
Import Str.

Definition DEFAULT_MAX_RETRIES : Z := 3.

(** [__init__]: [self.max_retries = max_retries or DEFAULT_MAX_RETRIES]. *)
Definition init_max_retries (max_retries : option Z) : Z :=
  match max_retries with
  | None => DEFAULT_MAX_RETRIES
  | Some n => if n =? 0 then DEFAULT_MAX_RETRIES else n
  end.

Record Run (St : Type) := mkRun {
  run_state : St;
  run_calls : list string;
  run_outcome : PyExn + SlidePlan
}.
Arguments mkRun {St}.
Arguments run_state {St}.
Arguments run_calls {St}.
Arguments run_outcome {St}.

(** The retry prompt, an f-string over [last_error]. *)
Definition retry_message (last_error : option PyExn) : string :=
  "The previous response had a validation error:" +:+ nl
  +:+ match last_error with Some e => exn_str e | None => "None" end
  +:+ nl +:+ nl
  +:+ "Please fix the issue and output a valid JSON Slide Plan. "
  +:+ "Output ONLY the JSON, no explanations.".

(** The loop of [plan] and the [raise] after it; [parse] is
    [_parse_slide_plan], whose JSON decoding is not modelled. *)
Fixpoint plan_loop {St} (agent : AgentCall St)
    (parse : string -> PyExn + SlidePlan) (user_message : string)
    (max_retries : Z) (attempts : list Z)
    (st : St) (calls : list string) (last_error : option PyExn) : Run St :=
  match attempts with
  | [] => mkRun st calls (inl (ValueError "Unexpected error in plan generation"))
  | attempt :: rest =>
      let prompt :=
        if attempt =? 1 then user_message else retry_message last_error in
      let '(st', reply) := agent st prompt in
      let tried :=
        match reply with
        | inl e => inl e
        | inr response_text => parse response_text
        end in
      match tried with
      | inr slide_plan => mkRun st' (calls ++ [prompt]) (inr slide_plan)
      | inl e =>
          if attempt =? max_retries then
            mkRun st' (calls ++ [prompt])
              (inl (ValueError
                 ("Failed to generate valid slide plan after "
                  +:+ str_of_int max_retries +:+ " attempts. Last error: "
                  +:+ exn_str e)))
          else
            plan_loop agent parse user_message max_retries rest st'
              (calls ++ [prompt]) (Some e)
      end
  end.

Definition plan {St} (agent : AgentCall St)
    (parse : string -> PyExn + SlidePlan) (user_message : string)
    (max_retries : Z) (st : St) : Run St :=
  plan_loop agent parse user_message max_retries
    (py_range 1 (max_retries + 1)) st [] None.

End Planner.

(* ===================================================================== *)
(** * core/agents/orchestrator.py *)
(* ===================================================================== *)

Module Orchestrator.
Import Str.

Record BuildResult := mkBuildResult {
  build_success : bool;
  build_pptx_path : option string;
  build_errors : list string
}.

Record PresentationResult := mkPresentationResult {
  success : bool;
  res_title : string;
  slide_count : Z;
  pptx_path : option string;
  output_dir : string;
  assumptions : list string;
  limitations : list string;
  errors : list string
}.

(** What happens when [_build_pptx] looks for the converter script and
    runs it as a subprocess.  [output_exists] tells whether there is a
    file under the output path once the subprocess is over. *)
Inductive ConverterRun :=
| ScriptMissing
| Exited (returncode : Z) (stderr : string) (output_exists : bool)
| TimeoutExpired (output_exists : bool)
| RunFailed (e : string) (output_exists : bool).

(** The collaborators of one orchestrator: the designer's agent, the
    prompt preparation, the file system (the exception that
    [write_text] raises for a slide file, given the files, the path and
    the text, if it raises one), the converter (given the files, the
    slides directory and the output path) with the bytes of the file it
    leaves under the output path, and configuration values. *)
Record Env (St : Type) := mkEnv {
  agent : AgentCall St;
  prepare : SlideSpec -> PyExn + string;
  write_error : gmap string string -> string -> string -> option PyExn;
  converter : gmap string string -> string -> string -> ConverterRun;
  pptx_bytes : gmap string string -> string -> string -> string;
  js_converter_script : string;
  converter_timeout : Z;
  deck_json : SlidePlan -> string
}.
Arguments mkEnv {St}.
Arguments agent {St}.
Arguments prepare {St}.
Arguments write_error {St}.
Arguments converter {St}.
Arguments pptx_bytes {St}.
Arguments js_converter_script {St}.
Arguments converter_timeout {St}.
Arguments deck_json {St}.

(** [dir / name] for a relative [name]. *)
Definition path_join (dir name : string) : string := dir +:+ "/" +:+ name.

(** The format [{n:02d}]. *)
Definition fmt_02d (n : Z) : string :=
  if (0 <=? n) && (n <? 10) then "0" +:+ str_of_int n else str_of_int n.

Definition slide_filename (slide : SlideSpec) : string :=
  fmt_02d (slide_index slide) +:+ "_" +:+ slide_id slide +:+ ".html".

(** [create_brief(...).assumptions]. *)
Definition brief_assumptions : list string :=
  [ "16:9 aspect ratio for modern displays";
    "Professional color scheme with blue primary";
    "Arial font family for broad compatibility";
    "Local assets only (no external URLs)";
    "Maximum 75 words per slide for readability" ].

(** The variables of the design loop (Step 5). *)
Record Phase (St : Type) := mkPhase {
  ph_state : St;
  ph_fs : gmap string string;
  html_files : list string;
  ph_errors : list string;
  ph_warnings : list string
}.
Arguments mkPhase {St}.
Arguments ph_state {St}.
Arguments ph_fs {St}.
Arguments html_files {St}.
Arguments ph_errors {St}.
Arguments ph_warnings {St}.

(** The designer of an orchestrator is built without [max_retries]. *)
Definition designer_max_retries : Z := Designer.init_max_retries None.

(** One iteration of [for slide in slide_plan.slides]: the [try] body and
    its [except Exception] handler.  The handler also catches what
    [write_text] raises: the warnings of the result are appended by then,
    the file is not written and its path is not appended. *)
Definition design_one {St} (env : Env St) (slides_dir : string)
    (ph : Phase St) (slide : SlideSpec) : Phase St :=
  let run :=
    Designer.design_slide (agent env) (prepare env) designer_max_retries
      slide (ph_state ph) in
  match Designer.run_outcome run with
  | inr result =>
      let warnings :=
        if negb (validation_passed result) then
          ph_warnings ph
            ++ map (fun err => "Slide " +:+ slide_id slide +:+ ": " +:+ err)
                 (validation_errors result)
        else ph_warnings ph in
      let html_path := path_join slides_dir (slide_filename slide) in
      match write_error env (ph_fs ph) html_path (html_content result) with
      | None =>
          mkPhase (Designer.run_state run)
            (<[html_path := html_content result]> (ph_fs ph))
            (html_files ph ++ [html_path])
            (ph_errors ph) warnings
      | Some e =>
          mkPhase (Designer.run_state run) (ph_fs ph) (html_files ph)
            (ph_errors ph
               ++ ["Failed to design slide " +:+ slide_id slide +:+ ": "
                     +:+ exn_str e])
            warnings
      end
  | inl e =>
      mkPhase (Designer.run_state run) (ph_fs ph) (html_files ph)
        (ph_errors ph
           ++ ["Failed to design slide " +:+ slide_id slide +:+ ": "
                 +:+ exn_str e])
        (ph_warnings ph)
  end.

Definition design_phase {St} (env : Env St) (slides_dir : string)
    (slide_plan : SlidePlan) (ph : Phase St) : Phase St :=
  fold_left (design_one env slides_dir) (slides slide_plan) ph.

Definition safe_char (c : ascii) : ascii :=
  if is_alnum c || eqb_char c " " || eqb_char c "-" || eqb_char c "_"
  then c else "_"%char.

(** [_build_pptx]. *)
Definition _build_pptx {St} (env : Env St) (fs : gmap string string)
    (slides_dir build_dir title : string) : BuildResult :=
  let safe_title := take 50 (map_chars safe_char title) in
  let output_path := path_join build_dir (safe_title +:+ ".pptx") in
  match converter env fs slides_dir output_path with
  | ScriptMissing =>
      mkBuildResult false None
        ["Converter script not found: " +:+ js_converter_script env]
  | Exited returncode stderr output_exists =>
      if negb (returncode =? 0) then
        mkBuildResult false None ["Converter failed: " +:+ stderr]
      else if negb output_exists then
        mkBuildResult false None
          ["Converter completed but PPTX file was not created"]
      else mkBuildResult true (Some output_path) []
  | TimeoutExpired _ =>
      mkBuildResult false None
        ["Converter timed out after " +:+ str_of_int (converter_timeout env)
           +:+ " seconds"]
  | RunFailed e _ => mkBuildResult false None ["Build failed: " +:+ e]
  end.

(** The files once [_build_pptx] is over.  Nothing is run when the script
    is missing; otherwise the output path holds what the converter left
    there, and the converter writes to no other path. *)
Definition files_after_build {St} (env : Env St) (fs : gmap string string)
    (slides_dir build_dir title : string) : gmap string string :=
  let safe_title := take 50 (map_chars safe_char title) in
  let output_path := path_join build_dir (safe_title +:+ ".pptx") in
  match converter env fs slides_dir output_path with
  | ScriptMissing => fs
  | Exited _ _ output_exists
  | TimeoutExpired output_exists
  | RunFailed _ output_exists =>
      if output_exists
      then <[output_path := pptx_bytes env fs slides_dir output_path]> fs
      else delete output_path fs
  end.

(** The plan is saved as deck.json and the slides are designed, starting
    from empty [html_files], [errors] and [warnings].  The runs modelled
    are those in which the directories are made and the plan file is
    written: no handler of the orchestrator catches an exception
    there. *)
Definition after_design {St} (env : Env St)
    (output_base_dir output_name : string) (slide_plan : SlidePlan)
    (st : St) (fs : gmap string string) : Phase St :=
  let output_dir := path_join output_base_dir output_name in
  let slides_dir := path_join output_dir "slides" in
  let fs1 := <[path_join output_dir "deck.json" := deck_json env slide_plan]> fs in
  design_phase env slides_dir slide_plan (mkPhase st fs1 [] [] []).

(** Steps 1-5 of [generate_presentation]: an early result, or the state
    in which the build step is entered.  [catalog] and [planned] are the
    outcomes of [load_catalog] and of [self.planner.plan]. *)
Definition design_stage {St} (env : Env St)
    (output_base_dir output_name : string)
    (catalog : PyExn + unit) (planned : PyExn + SlidePlan)
    (st : St) (fs : gmap string string)
  : PresentationResult * St * gmap string string + SlidePlan * Phase St :=
  let output_dir := path_join output_base_dir output_name in
  let slides_dir := path_join output_dir "slides" in
  match catalog with
  | inl e =>
      inl (mkPresentationResult false "" 0 None output_dir [] []
             ["Failed to load catalog: " +:+ exn_str e], st, fs)
  | inr _ =>
  match planned with
  | inl e =>
      inl (mkPresentationResult false "" 0 None output_dir [] []
             ["Slide planning failed: " +:+ exn_str e], st, fs)
  | inr slide_plan =>
      let ph := after_design env output_base_dir output_name slide_plan st fs in
      match html_files ph with
      | [] =>
          inl (mkPresentationResult false (plan_title slide_plan) 0 None
                 output_dir [] []
                 (ph_errors ph ++ ["No slides were successfully designed"]),
               ph_state ph, ph_fs ph)
      | _ :: _ => inr (slide_plan, ph)
      end
  end
  end.

(** [generate_presentation]: Step 6 on top of [design_stage]. *)
Definition generate_presentation {St} (env : Env St)
    (output_base_dir output_name : string)
    (catalog : PyExn + unit) (planned : PyExn + SlidePlan)
    (st : St) (fs : gmap string string)
  : PresentationResult * St * gmap string string :=
  let output_dir := path_join output_base_dir output_name in
  let slides_dir := path_join output_dir "slides" in
  let build_dir := path_join output_dir "build" in
  match design_stage env output_base_dir output_name catalog planned st fs with
  | inl early => early
  | inr (slide_plan, ph) =>
      let build_result :=
        _build_pptx env (ph_fs ph) slides_dir build_dir (plan_title slide_plan) in
      let errors :=
        match build_errors build_result with
        | [] => ph_errors ph
        | _ :: _ => ph_errors ph ++ build_errors build_result
        end in
      (mkPresentationResult
         (build_success build_result && (length errors =? 0)%nat)
         (plan_title slide_plan)
         (Z.of_nat (length (html_files ph)))
         (build_pptx_path build_result)
         output_dir brief_assumptions (ph_warnings ph) errors,
       ph_state ph,
       files_after_build env (ph_fs ph) slides_dir build_dir
         (plan_title slide_plan))
  end.

(** The files and the directory the converter is run on, when the build
    step is reached. *)
Definition renderer_input {St} (env : Env St)
    (output_base_dir output_name : string)
    (catalog : PyExn + unit) (planned : PyExn + SlidePlan)
    (st : St) (fs : gmap string string)
  : option (gmap string string * string) :=
  match design_stage env output_base_dir output_name catalog planned st fs with
  | inl _ => None
  | inr (_, ph) =>
      Some (ph_fs ph,
            path_join (path_join output_base_dir output_name) "slides")
  end.

(** The outcome of each [design_slide] call of the design loop, in slide
    order; the agent's state passes from one call to the next. *)
Fixpoint design_outcomes {St} (env : Env St) (slides : list SlideSpec) (st : St)
  : list (SlideSpec * (PyExn + SlideDesignResult)) :=
  match slides with
  | [] => []
  | slide :: rest =>
      let run :=
        Designer.design_slide (agent env) (prepare env) designer_max_retries
          slide st in
      (slide, Designer.run_outcome run)
        :: design_outcomes env rest (Designer.run_state run)
  end.

Definition html_path_of (slides_dir : string) (slide : SlideSpec) : string :=
  path_join slides_dir (slide_filename slide).

(** How each pass through the [try] body of the design loop ends, in
    slide order: with the exception that the handler catches, raised by
    [design_slide] or by [write_text], or with the result whose HTML was
    written.  The agent's state and the files pass from one slide to the
    next. *)
Fixpoint slide_outcomes {St} (env : Env St) (slides_dir : string)
    (slides : list SlideSpec) (st : St) (fs : gmap string string)
  : list (SlideSpec * (PyExn + SlideDesignResult)) :=
  match slides with
  | [] => []
  | slide :: rest =>
      let run :=
        Designer.design_slide (agent env) (prepare env) designer_max_retries
          slide st in
      match Designer.run_outcome run with
      | inl e =>
          (slide, inl e)
            :: slide_outcomes env slides_dir rest (Designer.run_state run) fs
      | inr result =>
          match write_error env fs (html_path_of slides_dir slide)
                  (html_content result) with
          | Some e =>
              (slide, inl e)
                :: slide_outcomes env slides_dir rest (Designer.run_state run) fs
          | None =>
              (slide, inr result)
                :: slide_outcomes env slides_dir rest (Designer.run_state run)
                     (<[html_path_of slides_dir slide := html_content result]> fs)
          end
      end
  end.

(** What the outcomes contribute to [html_files], [errors] and
    [warnings]: the first two are read off the passes through the [try]
    body, the warnings off the design calls. *)
Definition returned_paths (slides_dir : string)
    (outs : list (SlideSpec * (PyExn + SlideDesignResult))) : list string :=
  flat_map (fun so : SlideSpec * (PyExn + SlideDesignResult) =>
              match so.2 with
              | inr _ => [html_path_of slides_dir so.1]
              | inl _ => []
              end) outs.

Definition raised_messages
    (outs : list (SlideSpec * (PyExn + SlideDesignResult))) : list string :=
  flat_map (fun so : SlideSpec * (PyExn + SlideDesignResult) =>
              match so.2 with
              | inl e =>
                  ["Failed to design slide " +:+ slide_id so.1 +:+ ": "
                     +:+ exn_str e]
              | inr _ => []
              end) outs.

Definition warning_messages
    (outs : list (SlideSpec * (PyExn + SlideDesignResult))) : list string :=
  flat_map (fun so : SlideSpec * (PyExn + SlideDesignResult) =>
              match so.2 with
              | inr r =>
                  if validation_passed r then []
                  else map (fun err => "Slide " +:+ slide_id so.1 +:+ ": " +:+ err)
                         (validation_errors r)
              | inl _ => []
              end) outs.

(** [slide_outcomes] for the design loop of a run, which starts once the
    plan file is written. *)
Definition loop_outcomes {St} (env : Env St)
    (output_base_dir output_name : string) (slide_plan : SlidePlan)
    (st : St) (fs : gmap string string)
  : list (SlideSpec * (PyExn + SlideDesignResult)) :=
  let output_dir := path_join output_base_dir output_name in
  slide_outcomes env (path_join output_dir "slides") (slides slide_plan) st
    (<[path_join output_dir "deck.json" := deck_json env slide_plan]> fs).

(** Whether the build step of a run that reaches it succeeds. *)
Definition render_succeeds {St} (env : Env St)
    (output_base_dir output_name : string) (slide_plan : SlidePlan)
    (st : St) (fs : gmap string string) : bool :=
  let output_dir := path_join output_base_dir output_name in
  build_success
    (_build_pptx env
       (ph_fs (after_design env output_base_dir output_name slide_plan st fs))
       (path_join output_dir "slides") (path_join output_dir "build")
       (plan_title slide_plan)).

End Orchestrator.

(* ===================================================================== *)
(** * backend/session_manager.py and backend/image_handler.py *)
(* ===================================================================== *)

Module Backend.
Import Str.

(** Object identities.  Tag lists, artifacts, catalogs and sessions live
    in stores of their own, so a reference is always used at one type. *)
Definition ref := nat.

(** [Artifact]; [T] is the representation of the [tags] list: a reference
    for an object in the store, the list itself for JSON data. *)
Record Artifact (T : Type) := mkArtifact {
  artifact_id : string;
  artifact_type : string;
  title : string;
  description : string;
  dataset : string;
  tags : T;
  save_path : string;
  html_table : string;
  markdown_table : string
}.
Arguments mkArtifact {T}.
Arguments artifact_id {T}.
Arguments artifact_type {T}.
Arguments title {T}.
Arguments description {T}.
Arguments dataset {T}.
Arguments tags {T}.
Arguments save_path {T}.
Arguments html_table {T}.
Arguments markdown_table {T}.

(** [ArtifactCatalog]: the [artifacts] list holds references to artifact
    objects; the list object itself belongs to one catalog only. *)
Record ArtifactCatalog := mkArtifactCatalog {
  artifact_count : Z;
  artifacts : list ref
}.

(** A catalog as plain data: the JSON document, or what a catalog denotes
    once every reference is followed. *)
Definition CatalogData : Type := Z * list (Artifact (list string)).

Record Session := mkSession {
  session_id : string;
  created_at : Z;
  session_dir : string;
  catalog : ref;
  uploaded_images : list string
}.

Inductive FileData :=
| TextFile (text : string)
| BytesFile (content : list Byte.byte).

(** The object stores, the files on disk (keyed by resolved path), and
    the two fields of the process-wide [SessionManager]. *)
Record World := mkWorld {
  tag_lists : gmap ref (list string);
  artifact_objs : gmap ref (Artifact ref);
  catalog_objs : gmap ref ArtifactCatalog;
  session_objs : gmap ref Session;
  files : gmap string FileData;
  _sessions : gmap string ref;
  _base_catalog : option ref
}.

Definition empty_world : World := mkWorld ∅ ∅ ∅ ∅ ∅ ∅ None.

Definition with_tag_lists (w : World) (m : gmap ref (list string)) : World :=
  mkWorld m (artifact_objs w) (catalog_objs w) (session_objs w) (files w)
    (_sessions w) (_base_catalog w).
Definition with_artifact_objs (w : World) (m : gmap ref (Artifact ref)) : World :=
  mkWorld (tag_lists w) m (catalog_objs w) (session_objs w) (files w)
    (_sessions w) (_base_catalog w).
Definition with_catalog_objs (w : World) (m : gmap ref ArtifactCatalog) : World :=
  mkWorld (tag_lists w) (artifact_objs w) m (session_objs w) (files w)
    (_sessions w) (_base_catalog w).
Definition with_session_objs (w : World) (m : gmap ref Session) : World :=
  mkWorld (tag_lists w) (artifact_objs w) (catalog_objs w) m (files w)
    (_sessions w) (_base_catalog w).
Definition with_files (w : World) (m : gmap string FileData) : World :=
  mkWorld (tag_lists w) (artifact_objs w) (catalog_objs w) (session_objs w) m
    (_sessions w) (_base_catalog w).
Definition with_sessions (w : World) (m : gmap string ref) : World :=
  mkWorld (tag_lists w) (artifact_objs w) (catalog_objs w) (session_objs w)
    (files w) m (_base_catalog w).
Definition with_base_catalog (w : World) (c : option ref) : World :=
  mkWorld (tag_lists w) (artifact_objs w) (catalog_objs w) (session_objs w)
    (files w) (_sessions w) c.

(** Object creation: a reference not yet in the store. *)
Definition new_tag_list (w : World) (l : list string) : ref * World :=
  let r := fresh (dom (tag_lists w)) in
  (r, with_tag_lists w (<[r := l]> (tag_lists w))).
Definition new_artifact (w : World) (a : Artifact ref) : ref * World :=
  let r := fresh (dom (artifact_objs w)) in
  (r, with_artifact_objs w (<[r := a]> (artifact_objs w))).
Definition new_catalog (w : World) (c : ArtifactCatalog) : ref * World :=
  let r := fresh (dom (catalog_objs w)) in
  (r, with_catalog_objs w (<[r := c]> (catalog_objs w))).
Definition new_session (w : World) (s : Session) : ref * World :=
  let r := fresh (dom (session_objs w)) in
  (r, with_session_objs w (<[r := s]> (session_objs w))).

Definition set_tags {T U} (a : Artifact T) (t : U) : Artifact U :=
  mkArtifact (artifact_id a) (artifact_type a) (title a) (description a)
    (dataset a) t (save_path a) (html_table a) (markdown_table a).

(** Constructing an [Artifact] from field values: validation builds the
    [tags] list anew. *)
Definition construct_artifact (w : World) (d : Artifact (list string))
  : ref * World :=
  let '(t, w1) := new_tag_list w (tags d) in
  new_artifact w1 (set_tags d t).

Fixpoint construct_artifacts (w : World) (ds : list (Artifact (list string)))
  : list ref * World :=
  match ds with
  | [] => ([], w)
  | d :: rest =>
      let '(r, w1) := construct_artifact w d in
      let '(rs, w2) := construct_artifacts w1 rest in
      (r :: rs, w2)
  end.

(** [a.model_copy()]: a new object with the same field values; the copy
    is shallow, so the [tags] field refers to the same list object. *)
Definition model_copy (w : World) (a : ref) : option (ref * World) :=
  obj ← artifact_objs w !! a;
  Some (new_artifact w obj).

Fixpoint model_copy_all (w : World) (l : list ref) : option (list ref * World) :=
  match l with
  | [] => Some ([], w)
  | a :: rest =>
      '(r, w1) ← model_copy w a;
      '(rs, w2) ← model_copy_all w1 rest;
      Some (r :: rs, w2)
  end.

(** What a catalog denotes: every reference followed. *)
Definition artifact_data (w : World) (a : ref) : option (Artifact (list string)) :=
  obj ← artifact_objs w !! a;
  t ← tag_lists w !! tags obj;
  Some (set_tags obj t).

Definition catalog_data (w : World) (c : ref) : option CatalogData :=
  cat ← catalog_objs w !! c;
  ds ← mapM (artifact_data w) (artifacts cat);
  Some (artifact_count cat, ds).

(** Values from outside the program: the base catalog file (absent, or
    its decoded JSON), the configuration, [pathlib] and the serializer. *)
Record Env := mkEnv {
  base_dir : string;
  base_catalog_file : option CatalogData;
  cfg_allowed_extensions : option (list string);
  cfg_max_image_size_mb : option Z;
  path_suffix : string -> string;     (* Path(name).suffix *)
  path_stem : string -> string;       (* Path(name).stem *)
  path_resolve : string -> string;    (* str(Path(p).resolve()) *)
  model_dump_json : CatalogData -> string
}.

Definition path_join (dir name : string) : string := dir +:+ "/" +:+ name.

(** [SessionManager._load_base_catalog]. *)
Definition _load_base_catalog (env : Env) (w : World) : ref * World :=
  match _base_catalog w with
  | Some c => (c, w)
  | None =>
      let '(c, w1) :=
        match base_catalog_file env with
        | Some (count, ds) =>
            let '(rs, w1) := construct_artifacts w ds in
            new_catalog w1 (mkArtifactCatalog count rs)
        | None => new_catalog w (mkArtifactCatalog 0 [])
        end in
      (c, with_base_catalog w1 (Some c))
  end.

(** [SessionManager._create_session_catalog]. *)
Definition _create_session_catalog (env : Env) (w : World)
  : option (ref * World) :=
  let '(b, w1) := _load_base_catalog env w in
  base ← catalog_objs w1 !! b;
  '(copies, w2) ← model_copy_all w1 (artifacts base);
  Some (new_catalog w2 (mkArtifactCatalog (artifact_count base) copies)).

Definition catalog_path (s : Session) : string :=
  path_join (session_dir s) "catalog.json".
Definition uploads_dir (s : Session) : string :=
  path_join (session_dir s) "uploads".

(** [SessionManager._save_session_catalog]. *)
Definition _save_session_catalog (env : Env) (w : World) (s : Session)
  : option World :=
  d ← catalog_data w (catalog s);
  Some (with_files w
          (<[path_resolve env (catalog_path s) := TextFile (model_dump_json env d)]>
             (files w))).

(** [SessionManager.create_session]; the fresh uuid and the clock reading
    are arguments. *)
Definition create_session (env : Env) (w : World) (sid : string) (now : Z)
  : option (ref * World) :=
  '(c, w1) ← _create_session_catalog env w;
  let session := mkSession sid now (path_join (base_dir env) sid) c [] in
  let '(sr, w2) := new_session w1 session in
  w3 ← _save_session_catalog env w2 session;
  Some (sr, with_sessions w3 (<[sid := sr]> (_sessions w3))).

(** Why [validate_file] raises; the message is built from these data. *)
Inductive Rejection :=
| FileTooLarge (size max : Z)
| ExtensionNotAllowed (ext : string)
| MimeNotAllowed (mime : string).

Inductive UploadError :=
| ImageValidationError (why : Rejection).

(** The parts of a FastAPI [UploadFile] that are read, with the bytes
    that [await file.read()] returns. *)
Record UploadFile := mkUploadFile {
  filename : option string;
  content_type : option string;
  content : list Byte.byte
}.

(** Truthiness of an optional string: [None] and the empty string are
    falsy. *)
Definition truthy (o : option string) : option string :=
  match o with
  | Some (String c t) => Some (String c t)
  | _ => None
  end.

Definition str_in (x : string) (l : list string) : bool :=
  existsb (String.eqb x) l.

(** [get_allowed_image_extensions]. *)
Definition get_allowed_image_extensions (env : Env) : list string :=
  match cfg_allowed_extensions env with
  | Some (e :: es) => e :: es
  | _ => [".png"; ".jpg"; ".jpeg"; ".gif"; ".svg"; ".webp"]
  end.

(** [get_max_image_size_mb]. *)
Definition get_max_image_size_mb (env : Env) : Z :=
  match cfg_max_image_size_mb env with
  | Some n => n
  | None => 10
  end.

Definition ALLOWED_EXTENSIONS (env : Env) : list string :=
  get_allowed_image_extensions env.

Definition ALLOWED_MIME_TYPES : list string :=
  ["image/png"; "image/jpeg"; "image/gif"; "image/svg+xml"; "image/webp"].

Definition MAX_FILE_SIZE (env : Env) : Z :=
  get_max_image_size_mb env * 1024 * 1024.

(** [ImageHandler.validate_file]: [inl] when it raises. *)
Definition validate_file (env : Env) (file : UploadFile)
    (content : list Byte.byte) : UploadError + unit :=
  if MAX_FILE_SIZE env <? Z.of_nat (length content) then
    inl (ImageValidationError
           (FileTooLarge (Z.of_nat (length content)) (MAX_FILE_SIZE env)))
  else
    let ext_check :=
      match truthy (filename file) with
      | Some name =>
          let ext := lower (path_suffix env name) in
          if negb (str_in ext (ALLOWED_EXTENSIONS env))
          then Some (ExtensionNotAllowed ext) else None
      | None => None
      end in
    match ext_check with
    | Some why => inl (ImageValidationError why)
    | None =>
        match truthy (content_type file) with
        | Some mime =>
            if negb (str_in mime ALLOWED_MIME_TYPES)
            then inl (ImageValidationError (MimeNotAllowed mime))
            else inr tt
        | None => inr tt
        end
    end.

(** [ImageHandler.process_upload]; [hex8] is [uuid.uuid4().hex[:8]].
    The outer [option] is [None] only when a reference has no object. *)
Definition process_upload (env : Env) (w : World) (session : ref)
    (file : UploadFile) (title_arg : option string) (description_arg : string)
    (tags_arg : option (list string)) (hex8 : string)
  : option (World * (UploadError + ref)) :=
  let content := content file in
  match validate_file env file content with
  | inl e => Some (w, inl e)
  | inr _ =>
      let artifact_id := "user_upload_" +:+ hex8 in
      let ext :=
        match truthy (filename file) with
        | Some name => lower (path_suffix env name)
        | None => ".png"
        end in
      s ← session_objs w !! session;
      let save_path := path_join (uploads_dir s) (artifact_id +:+ ext) in
      let w1 :=
        with_files w
          (<[path_resolve env save_path := BytesFile content]> (files w)) in
      let title :=
        match truthy title_arg with
        | Some t => t
        | None =>
            match truthy (filename file) with
            | Some name => path_stem env name
            | None => artifact_id
            end
        end in
      let '(t, w2) :=
        new_tag_list w1 (default [] tags_arg ++ ["user_upload"]) in
      let '(a, w3) :=
        new_artifact w2
          (mkArtifact artifact_id "plot" title description_arg "" t
             (path_resolve env save_path) "" "") in
      cat ← catalog_objs w3 !! catalog s;
      let w4 :=
        with_catalog_objs w3
          (<[catalog s :=
               mkArtifactCatalog (artifact_count cat + 1) (artifacts cat ++ [a])]>
             (catalog_objs w3)) in
      let w5 :=
        with_session_objs w4
          (<[session :=
               mkSession (session_id s) (created_at s) (session_dir s)
                 (catalog s) (uploaded_images s ++ [artifact_id])]>
             (session_objs w4)) in
      Some (w5, inr a)
  end.

(** The [for i, artifact in enumerate(...)] scan: the first index whose
    artifact has the given id. *)
Fixpoint find_artifact (w : World) (aid : string) (refs : list ref) (i : nat)
  : option (option (nat * Artifact ref)) :=
  match refs with
  | [] => Some None
  | r :: rest =>
      a ← artifact_objs w !! r;
      if String.eqb (artifact_id a) aid then Some (Some (i, a))
      else find_artifact w aid rest (S i)
  end.

(** [list.remove(x)]: the first occurrence goes. *)
Fixpoint remove_first (x : string) (l : list string) : list string :=
  match l with
  | [] => []
  | y :: rest => if String.eqb y x then rest else y :: remove_first x rest
  end.

(** [ImageHandler.remove_artifact]. *)
Definition remove_artifact (env : Env) (w : World) (session : ref)
    (aid : string) : option (World * bool) :=
  s ← session_objs w !! session;
  if negb (str_in aid (uploaded_images s)) then Some (w, false)
  else
    cat ← catalog_objs w !! catalog s;
    found ← find_artifact w aid (artifacts cat) 0;
    match found with
    | Some (i, artifact) =>
        let w1 :=
          with_files w
            (base.delete (path_resolve env (save_path artifact)) (files w)) in
        let w2 :=
          with_catalog_objs w1
            (<[catalog s :=
                 mkArtifactCatalog (artifact_count cat - 1)
                   (base.delete i (artifacts cat))]>
               (catalog_objs w1)) in
        let w3 :=
          with_session_objs w2
            (<[session :=
                 mkSession (session_id s) (created_at s) (session_dir s)
                   (catalog s) (remove_first aid (uploaded_images s))]>
               (session_objs w2)) in
        Some (w3, true)
    | None => Some (w, false)
    end.

End Backend.

(* ===================================================================== *)
(** * Specification-side predicates *)
(* ===================================================================== *)

Module SpecSide.
Import Str Re Designer.

Definition fence : string := "```".

Fixpoint ends_with_ci (p s : string) : bool :=
  starts_with_ci p s && (String.length s =? String.length p)%nat
  || match s with
     | EmptyString => false
     | String _ t => ends_with_ci p t
     end.

(** A bare HTML document, in the words of the specification: no code
    fence, a doctype declaration in front and a closing html tag at the
    end. *)
Definition spec_bare_html_document (doc : string) : bool :=
  negb (contains fence doc) && doctype_at doc && ends_with_ci "</html>" doc.

(** The span that the best-effort scan of [_extract_html] cuts out: from
    the first doctype declaration through the first closing html tag
    after it. *)
Definition found_span (doc : string) : option (nat * nat) :=
  start ← search doctype_at doc;
  i ← search close_html_at (drop start doc);
  Some (start, (start + (i + 7))%nat).

(** The text of an element's start tag when [s] begins with one. *)
Definition tag_at (s : string) : option string :=
  match s with
  | String c t => if eqb_char c "<" then Some (take_while (not_char ">") t) else None
  | EmptyString => None
  end.

(** The root container element itself carries the slide's id: one tag
    holds both the root identifier and the data attribute. *)
Definition spec_root_carries_slide_id (html sid : string) : bool :=
  let both s :=
    match tag_at s with
    | Some tag =>
        contains ("id=" +:+ quoted "slide-root") tag
        && contains ("data-slide-id=" +:+ quoted sid) tag
    | None => false
    end in
  match search both html with
  | Some _ => true
  | None => false
  end.

(** The message of the slide-id check. *)
Definition slide_id_error (slide : SlideSpec) : string :=
  "Missing or incorrect data-slide-id (expected " +:+ slide_id slide +:+ ")".

Definition slide_id_needle (slide : SlideSpec) : string :=
  "data-slide-id=" +:+ quoted (slide_id slide).

(** The constructor argument is [None] or a non-negative [int]. *)
Definition not_negative (a : option Z) : Prop :=
  match a with
  | Some n => 0 <= n
  | None => True
  end.

(** Every object of [w] is still there, unchanged, in [w']. *)
Definition objects_kept (w w' : Backend.World) : Prop :=
  (forall a obj, Backend.artifact_objs w !! a = Some obj ->
                 Backend.artifact_objs w' !! a = Some obj)
  /\ (forall t l, Backend.tag_lists w !! t = Some l ->
                  Backend.tag_lists w' !! t = Some l).

End SpecSide.

(** [pathlib] on the plain file names used in the examples: the final
    component of a path, its suffix and its stem. *)
Module Pathlib.
Import Str.

Fixpoint name_of (p : string) (acc : string) : string :=
  match p with
  | EmptyString => acc
  | String c t => if eqb_char c "/" then name_of t EmptyString
                  else name_of t (acc +:+ String c EmptyString)
  end.

Fixpoint last_dot (s : string) (i : nat) (found : option nat) : option nat :=
  match s with
  | EmptyString => found
  | String c t => last_dot t (S i) (if eqb_char c "." then Some i else found)
  end.

Definition suffix (p : string) : string :=
  let name := name_of p EmptyString in
  match last_dot name 0 None with
  | Some i => if (0 <? i)%nat && (i <? String.length name - 1)%nat
              then drop i name else EmptyString
  | None => EmptyString
  end.

Definition stem (p : string) : string :=
  let name := name_of p EmptyString in
  match last_dot name 0 None with
  | Some i => if (0 <? i)%nat && (i <? String.length name - 1)%nat
              then take i name else name
  | None => name
  end.

End Pathlib.

(* ===================================================================== *)
(** * Example inputs *)
(* ===================================================================== *)

(** Generators used in the examples. *)
Module Generators.
Import Str.

(** Replies read off a script, one per call; the state counts the calls. *)
Definition scripted (replies : list (PyExn + string)) : AgentCall nat :=
  fun n _ => (S n, nth n replies (inl (GeneratorError "no reply left"))).

(** The same reply to every prompt. *)
Definition always (reply : string) : AgentCall unit :=
  fun st _ => (st, inr reply).

Definition example_slide : SlideSpec := mkSlideSpec "s01" 1 "Title" [].

Definition valid_document : string :=
  "<!DOCTYPE html><html><head></head><body><div id="
  +:+ Designer.quoted "slide-root" +:+ " data-slide-id="
  +:+ Designer.quoted "s01" +:+ "><p>Hi</p></div></body></html>".

Definition ready : SlideSpec -> PyExn + string := fun _ => inr "Design this slide".

(** A generator that fails once and then answers with a valid document. *)
Definition second_try : AgentCall nat :=
  scripted [inr "Sorry, here it is"; inr valid_document].

End Generators.

(** Documents used in the examples. *)
Module Documents.
Import Str.

Definition plain_document : string :=
  "  <!DOCTYPE html><html><head></head><body><p>Hi</p></body></html>" +:+ nl.

(** A complete document in which the closing tag is also written inside a
    comment. *)
Definition document_with_inner_close : string :=
  "<!DOCTYPE html><html><body><!-- </html> --><p>Hi</p></body></html>".

(** A complete document whose root container lacks the attribute, which
    sits on a paragraph inside it. *)
Definition document_with_misplaced_id : string :=
  "<!DOCTYPE html><html><head></head><body><div id=" +:+ Designer.quoted "slide-root"
  +:+ "><p data-slide-id=" +:+ Designer.quoted "s01" +:+ ">Hi</p></div></body></html>".

End Documents.

(** Runs of the orchestrator used in the examples. *)
Module Runs.
Import Orchestrator Generators.

Definition converter_ok : gmap string string -> string -> string -> ConverterRun :=
  fun _ _ _ => Exited 0 "" true.

(** Every slide file can be written. *)
Definition write_ok : gmap string string -> string -> string -> option PyExn :=
  fun _ _ _ => None.

(** The slides directory has no directory below it: a file whose name
    contains a separator cannot be opened. *)
Definition write_flat (slides_dir : string)
  : gmap string string -> string -> string -> option PyExn :=
  fun _ path _ =>
    if Str.contains "/" (Str.drop (String.length slides_dir + 1) path)
    then Some (OSError ("[Errno 2] No such file or directory: '"
                          +:+ path +:+ "'"))
    else None.

Definition pptx_of : gmap string string -> string -> string -> string :=
  fun _ _ _ => "PK".

Definition second_slide : SlideSpec := mkSlideSpec "s02" 2 "Second" [].

Definition one_slide_plan : SlidePlan := mkSlidePlan "Deck" [example_slide].

Definition two_slide_plan : SlidePlan :=
  mkSlidePlan "Deck" [example_slide; second_slide].

(** The generator never produces HTML that passes the checklist. *)
Definition failing_env : Env unit :=
  mkEnv (always "no html here") ready write_ok converter_ok pptx_of
    "js/html2pptx/cli.cjs" 120 (fun _ => "{}").

(** The generator answers the first slide with a valid document, and its
    call for the second slide raises. *)
Definition flaky_env : Env nat :=
  mkEnv (scripted [inr valid_document; inl (GeneratorError "rate limit exceeded")])
    ready write_ok converter_ok pptx_of "js/html2pptx/cli.cjs" 120
    (fun _ => "{}").

(** A slide whose id contains a path separator. *)
Definition nested_slide : SlideSpec := mkSlideSpec "a/b" 2 "Second" [].

Definition nested_plan : SlidePlan :=
  mkSlidePlan "Deck" [example_slide; nested_slide].

Definition only_nested_plan : SlidePlan := mkSlidePlan "Deck" [nested_slide].

(** The generator answers every slide, and the slides directory has no
    directory below it. *)
Definition flat_env : Env unit :=
  mkEnv (always "no html here") ready (write_flat "out/deck/slides")
    converter_ok pptx_of "js/html2pptx/cli.cjs" 120 (fun _ => "{}").

(** The same for the run of a session. *)
Definition flat_session_env : Env unit :=
  mkEnv (always "no html here") ready
    (write_flat "sessions/a/output/deck/slides")
    converter_ok pptx_of "js/html2pptx/cli.cjs" 120 (fun _ => "{}").

Definition no_files : gmap string string := ∅.

End Runs.

(** A deployment used in the examples: a base catalog of one chart, the
    default upload limits, absolute paths under /srv/app. *)
Module Deployment.
Import Str Backend.

Definition kpi_chart : Artifact (list string) :=
  mkArtifact "kpi_chart" "plot" "KPI" "Quarterly KPIs" "sales" ["kpi"; "q3"]
    "data/kpi.png" "" "".

Definition resolve (p : string) : string :=
  if starts_with "/" p then p else "/srv/app/" +:+ p.

Definition env : Env :=
  mkEnv "/srv/app/sessions" (Some (1, [kpi_chart])) None None
    Pathlib.suffix Pathlib.stem resolve (fun _ => "{}").

Definition text_file : UploadFile :=
  mkUploadFile (Some "notes.txt") (Some "text/plain") [].

Definition png_file : UploadFile :=
  mkUploadFile (Some "Chart.PNG") (Some "image/png") [].

(** The world after one session has been created: the session is object
    0, the base catalog is catalog 0 and the session's catalog is 1. *)
Definition one_session : option (ref * World) :=
  create_session env empty_world "sid-a" 0.

Definition one_session_world : World :=
  match one_session with
  | Some (_, w) => w
  | None => empty_world
  end.

(** The first session catalog made from the base catalog file. *)
Definition first_catalog_world : World :=
  match _create_session_catalog env empty_world with
  | Some (_, w) => w
  | None => empty_world
  end.

(** [artifact.tags.append(x)]: what any holder of an artifact object can
    do to the list its [tags] field refers to. *)
Definition append_tag (w : World) (a : ref) (x : string) : option World :=
  obj ← artifact_objs w !! a;
  l ← tag_lists w !! tags obj;
  Some (with_tag_lists w (<[tags obj := l ++ [x]]> (tag_lists w))).

(** A limit of zero megabytes, to reject by size. *)
Definition strict_env : Env :=
  mkEnv "/srv/app/sessions" (Some (1, [kpi_chart])) None (Some 0)
    Pathlib.suffix Pathlib.stem resolve (fun _ => "{}").

Definition one_byte_png : UploadFile :=
  mkUploadFile (Some "dot.png") (Some "image/png") [Byte.x00].

Definition session_a : Session :=
  mkSession "sid-a" 0 "/srv/app/sessions/sid-a" 1%nat [].

Definition session_a_catalog : ArtifactCatalog := mkArtifactCatalog 1 [1%nat].

(** The same world after one upload into that session. *)
Definition uploaded_world : World :=
  match process_upload env one_session_world 0%nat png_file None "" None "deadbeef" with
  | Some (w, _) => w
  | None => empty_world
  end.

Definition session_a_uploaded : Session :=
  mkSession "sid-a" 0 "/srv/app/sessions/sid-a" 1%nat ["user_upload_deadbeef"].

Definition session_a_catalog_uploaded : ArtifactCatalog :=
  mkArtifactCatalog 2 [1%nat; 2%nat].

End Deployment.

(* ===================================================================== *)
(** * The design loop against a scripted generator *)
(* ===================================================================== *)

(** Readings of one generator reply, used to state what the loop does
    with a given sequence of replies. *)
Module Protocol.
Import Designer.

(** The checklist's verdict on a reply, and the HTML taken from it. *)
Definition errors_of (slide : SlideSpec) (reply : PyExn + string) : list string :=
  match reply with
  | inr text => _validate_html (_extract_html text) slide
  | inl _ => []
  end.

Definition html_of (reply : PyExn + string) : string :=
  match reply with
  | inr text => _extract_html text
  | inl _ => EmptyString
  end.

(** How many leading replies are texts that fail the checklist. *)
Fixpoint failing_prefix (slide : SlideSpec) (replies : list (PyExn + string))
  : nat :=
  match replies with
  | inr text :: rest =>
      if (length (_validate_html (_extract_html text) slide) =? 0)%nat then 0%nat
      else S (failing_prefix slide rest)
  | _ => 0%nat
  end.

(** What a script answers once it has run out. *)
Definition no_reply : PyExn + string := inl (GeneratorError "no reply left").

End Protocol.

(** Readings of the planner's loop. *)
Module PlanProtocol.



End PlanProtocol.

(** A reply that wraps its document in an html fence. *)
Module Replies.
Import Str.

Definition fenced_body : string :=
  nl +:+ "<!DOCTYPE html><html><head></head><body><p>Hi</p></body></html>" +:+ nl.

Definition fenced_reply : string :=
  "Here is the slide:" +:+ nl +:+ "```html" +:+ fenced_body +:+ "```" +:+ nl
  +:+ "Let me know." +:+ nl.

End Replies.

(* ===================================================================== *)
(** * backend/generation_service.py: the streaming generation service *)
(* ===================================================================== *)

Module Service.
Import Str Orchestrator.

(** The payload that [make_event] is given, before it is serialised as a
    server-sent event; [DONE] is the closing line of the stream. *)
Inductive Event :=
| brief_created (status : string)
| catalog_loaded (artifact_count : Z)
| planning_started (status : string)
| planning_complete (slide_count : Z) (title : string)
| slide_designing (index total : Z) (title : string)
| slide_complete (index : Z) (slide_id : string)
| slide_error (index : Z) (error : string)
| build_started (status : string)
| generation_complete (success : bool) (title : string) (slide_count : Z)
    (download_path pptx_filename : string) (warnings : list string)
| generation_error (error : string) (errors : option (list string))
| DONE.

(** [Path(p).relative_to(base)] on normalised paths with [p] different
    from [base]; [None] stands for the [ValueError] it raises. *)
Definition relative_to (p base : string) : option string :=
  if starts_with (base +:+ "/") p
  then Some (drop (String.length base + 1) p) else None.

(** The truth value of [build_result.pptx_path]. *)
Definition path_truthy (p : option string) : bool :=
  match p with
  | Some EmptyString => false
  | Some _ => true
  | None => false
  end.

(** One iteration of [for slide in slide_plan.slides]: the variables of
    the loop and the events it yields.  [slide_complete] is yielded
    inside the [try], after the file is written; the handler yields
    [slide_error] for what [design_slide] or [write_text] raised. *)
Definition design_one_events {St} (env : Env St) (slides_dir : string)
    (total : Z) (ph : Phase St) (slide : SlideSpec) : Phase St * list Event :=
  let run :=
    Designer.design_slide (agent env) (prepare env) designer_max_retries
      slide (ph_state ph) in
  match Designer.run_outcome run with
  | inr result =>
      let warnings :=
        if negb (validation_passed result) then
          ph_warnings ph
            ++ map (fun err => "Slide " +:+ slide_id slide +:+ ": " +:+ err)
                 (validation_errors result)
        else ph_warnings ph in
      let html_path := path_join slides_dir (slide_filename slide) in
      match write_error env (ph_fs ph) html_path (html_content result) with
      | None =>
          (mkPhase (Designer.run_state run)
             (<[html_path := html_content result]> (ph_fs ph))
             (html_files ph ++ [html_path])
             (ph_errors ph) warnings,
           [slide_designing (slide_index slide) total (title slide);
            slide_complete (slide_index slide) (slide_id slide)])
      | Some e =>
          let error_msg :=
            "Failed to design slide " +:+ slide_id slide +:+ ": "
              +:+ exn_str e in
          (mkPhase (Designer.run_state run) (ph_fs ph) (html_files ph)
             (ph_errors ph ++ [error_msg]) warnings,
           [slide_designing (slide_index slide) total (title slide);
            slide_error (slide_index slide) error_msg])
      end
  | inl e =>
      let error_msg :=
        "Failed to design slide " +:+ slide_id slide +:+ ": " +:+ exn_str e in
      (mkPhase (Designer.run_state run) (ph_fs ph) (html_files ph)
         (ph_errors ph ++ [error_msg]) (ph_warnings ph),
       [slide_designing (slide_index slide) total (title slide);
        slide_error (slide_index slide) error_msg])
  end.

Fixpoint design_events {St} (env : Env St) (slides_dir : string) (total : Z)
    (sl : list SlideSpec) (ph : Phase St) : Phase St * list Event :=
  match sl with
  | [] => (ph, [])
  | slide :: rest =>
      let '(ph1, evs1) := design_one_events env slides_dir total ph slide in
      let '(ph2, evs2) := design_events env slides_dir total rest ph1 in
      (ph2, evs1 ++ evs2)
  end.

(** [GenerationService.generate_presentation_stream]: the events yielded,
    in order, with the agent's state and the files afterwards.
    [artifact_count] is that of the session's catalog, [planned] the
    outcome of [orchestrator.planner.plan], and [not_in_subpath] the text
    of the [ValueError] of [relative_to]. *)
Definition generate_presentation_stream {St} (env : Env St)
    (not_in_subpath : string -> string -> string)
    (session_dir output_name : string) (artifact_count : Z)
    (planned : PyExn + SlidePlan) (st : St) (fs : gmap string string)
  : list Event * St * gmap string string :=
  let output_dir := path_join (path_join session_dir "output") output_name in
  let slides_dir := path_join output_dir "slides" in
  let build_dir := path_join output_dir "build" in
  let started :=
    [brief_created "Creating orchestrator brief...";
     catalog_loaded artifact_count;
     planning_started "Planning slides..."] in
  match planned with
  | inl e => (started ++ [generation_error (exn_str e) None; DONE], st, fs)
  | inr slide_plan =>
      let total := Z.of_nat (length (slides slide_plan)) in
      let fs1 :=
        <[path_join output_dir "deck.json" := deck_json env slide_plan]> fs in
      let '(ph, slide_evs) :=
        design_events env slides_dir total (slides slide_plan)
          (mkPhase st fs1 [] [] []) in
      let designed :=
        started ++ [planning_complete total (plan_title slide_plan)]
          ++ slide_evs in
      match html_files ph with
      | [] =>
          (designed
             ++ [generation_error "No slides were successfully designed" None;
                 DONE],
           ph_state ph, ph_fs ph)
      | _ :: _ =>
          let build_result :=
            _build_pptx env (ph_fs ph) slides_dir build_dir
              (plan_title slide_plan) in
          let errors :=
            match build_errors build_result with
            | [] => ph_errors ph
            | _ :: _ => ph_errors ph ++ build_errors build_result
            end in
          let last_event :=
            if build_success build_result
               && path_truthy (build_pptx_path build_result)
            then
              let pptx_path := default EmptyString (build_pptx_path build_result) in
              match relative_to pptx_path session_dir with
              | Some relative_path =>
                  generation_complete true (plan_title slide_plan)
                    (Z.of_nat (length (html_files ph))) relative_path
                    (Pathlib.name_of pptx_path EmptyString) (ph_warnings ph)
              | None =>
                  generation_error (not_in_subpath pptx_path session_dir) None
              end
            else
              generation_error
                (match errors with
                 | e :: _ => e
                 | [] => "Build failed"
                 end)
                (Some errors) in
          (designed ++ [build_started "Building PowerPoint file..."; last_event; DONE],
           ph_state ph,
           files_after_build env (ph_fs ph) slides_dir build_dir
             (plan_title slide_plan))
      end
  end.

(** The events of one slide, read off how its pass through the [try]
    body ended. *)
Definition slide_events (total : Z)
    (so : SlideSpec * (PyExn + SlideDesignResult)) : list Event :=
  [slide_designing (slide_index so.1) total (title so.1);
   match so.2 with
   | inr _ => slide_complete (slide_index so.1) (slide_id so.1)
   | inl e =>
       slide_error (slide_index so.1)
         ("Failed to design slide " +:+ slide_id so.1 +:+ ": " +:+ exn_str e)
   end].

(** The two events that report how the generation ended. *)
Definition is_outcome (e : Event) : bool :=
  match e with
  | generation_complete _ _ _ _ _ _ | generation_error _ _ => true
  | _ => false
  end.

Definition is_progress (e : Event) : bool :=
  match e with
  | generation_complete _ _ _ _ _ _ | generation_error _ _ | DONE => false
  | _ => true
  end.

(** The first event of a stream that reports an outcome. *)
Definition outcome_of (events : list Event) : option Event :=
  List.find is_outcome events.

End Service.

(* ===================================================================== *)
(** * More string primitives *)
(* ===================================================================== *)

Module Text.
Import Str.

(** [s.split(sep)] for a separator of one character: the first piece and
    the pieces after it. *)
Fixpoint split_pieces (sep : ascii) (s : string) : string * list string :=
  match s with
  | EmptyString => (EmptyString, [])
  | String c t =>
      let '(p, r) := split_pieces sep t in
      if eqb_char c sep then (EmptyString, p :: r) else (String c p, r)
  end.

Definition split_char (sep : ascii) (s : string) : list string :=
  let '(p, r) := split_pieces sep s in p :: r.

(** [s.split(sep, maxsplit)] for a separator that is not empty: the first
    piece and the pieces after it.  [count] splits are still allowed, and
    the next [skip] characters belong to a separator already found. *)
Fixpoint split_from (sep : string) (count skip : nat) (s : string)
  : string * list string :=
  match s with
  | EmptyString => (EmptyString, [])
  | String c t =>
      match skip with
      | S k => split_from sep count k t
      | O =>
          match count with
          | S n =>
              if starts_with sep s then
                let '(p, r) := split_from sep n (String.length sep - 1) t in
                (EmptyString, p :: r)
              else
                let '(p, r) := split_from sep count 0 t in (String c p, r)
          | O => let '(p, r) := split_from sep O 0 t in (String c p, r)
          end
      end
  end.

Definition split_max (sep : string) (maxsplit : nat) (s : string)
  : list string :=
  let '(p, r) := split_from sep maxsplit 0 s in p :: r.

(** Rightmost position at which the suffix of [s] satisfies [m]. *)
Fixpoint search_last (m : string -> bool) (s : string) : option nat :=
  match s with
  | EmptyString => if m EmptyString then Some 0%nat else None
  | String _ t =>
      match search_last m t with
      | Some i => Some (S i)
      | None => if m s then Some 0%nat else None
      end
  end.

(** [s.rfind(needle)]: the index, or [-1]. *)
Definition rfind (s needle : string) : Z :=
  match search_last (starts_with needle) s with
  | Some i => Z.of_nat i
  | None => -1
  end.

(** The position that a slice index denotes in a string of length [n]:
    a negative index counts from the end, and the result is clamped. *)
Definition slice_index (n : nat) (i : Z) : nat :=
  Z.to_nat (Z.min (Z.of_nat n) (if i <? 0 then Z.max 0 (i + Z.of_nat n) else i)).

(** [s[a:b]] for any integers [a] and [b]. *)
Definition py_slice (s : string) (a b : Z) : string :=
  slice s (slice_index (String.length s) a) (slice_index (String.length s) b).

End Text.

(* ===================================================================== *)
(** * backend/session_manager.py: lookup and cleanup of sessions *)
(* ===================================================================== *)

Module Sessions.
Import Str Backend.

(** [SessionManager.get_session]. *)
Definition get_session (w : World) (sid : string) : option ref :=
  _sessions w !! sid.

(** [SessionManager.update_catalog]. *)
Definition update_catalog (env : Env) (w : World) (s : Session) : option World :=
  _save_session_catalog env w s.

(** A resolved path lies below a directory. *)
Definition below (dir p : string) : bool := starts_with (dir +:+ "/") p.

(** [shutil.rmtree(dir, ignore_errors=True)] on the files: every file
    below [dir] goes, and nothing is raised. *)
Definition rmtree (dir : string) (fs : gmap string FileData)
  : gmap string FileData :=
  filter (fun kv => below dir kv.1 = false) fs.

(** [SessionManager.cleanup_session]: the session leaves the registry
    first, then its directory is removed. *)
Definition cleanup_session (env : Env) (w : World) (sid : string)
  : option (World * bool) :=
  match _sessions w !! sid with
  | Some sr =>
      s ← session_objs w !! sr;
      let w1 := with_sessions w (base.delete sid (_sessions w)) in
      Some (with_files w1
              (rmtree (path_resolve env (session_dir s)) (files w1)), true)
  | None => Some (w, false)
  end.

(** The first loop of [cleanup_old_sessions]: the ids of the sessions
    whose age exceeds the limit.  [expired] is the test
    [age > max_age_hours] as a function of [created_at], for the clock
    reading taken once at the start. *)
Fixpoint old_sessions (w : World) (expired : Z -> bool)
    (items : list (string * ref)) : option (list string) :=
  match items with
  | [] => Some []
  | (sid, sr) :: rest =>
      s ← session_objs w !! sr;
      to_remove ← old_sessions w expired rest;
      Some (if expired (created_at s) then sid :: to_remove else to_remove)
  end.

(** Its second loop. *)
Fixpoint cleanup_all (env : Env) (w : World) (to_remove : list string)
    (cleaned : Z) : option (World * Z) :=
  match to_remove with
  | [] => Some (w, cleaned)
  | sid :: rest =>
      '(w1, ok) ← cleanup_session env w sid;
      cleanup_all env w1 rest (if ok : bool then cleaned + 1 else cleaned)
  end.

(** [SessionManager.cleanup_old_sessions]. *)
Definition cleanup_old_sessions (env : Env) (w : World) (expired : Z -> bool)
  : option (World * Z) :=
  to_remove ← old_sessions w expired (map_to_list (_sessions w));
  cleanup_all env w to_remove 0.

End Sessions.

(* ===================================================================== *)
(** * backend/api.py: the session and image endpoints *)
(* ===================================================================== *)

Module Api.
Import Str Text Backend Sessions.

Definition is_empty (s : string) : bool :=
  match s with
  | EmptyString => true
  | String _ _ => false
  end.

(** The tags of an upload form: the comma-separated field, each piece
    stripped, empty pieces dropped. *)
Definition parse_tags (tags : string) : list string :=
  if is_empty tags then []
  else map strip
         (List.filter (fun t => negb (is_empty (strip t))) (split_char "," tags)).

(** The [detail] of an [HTTPException]: a fixed text, or the message of
    an [ImageValidationError], which is built from the rejection. *)
Inductive Detail :=
| Text (s : string)
| Validation (why : Rejection).

Record HTTPException := mkHTTPException {
  status_code : Z;
  detail : Detail
}.

Record ImageUploadResponse := mkImageUploadResponse {
  up_artifact_id : string;
  up_title : string;
  up_save_path : string
}.

Record ImageListItem := mkImageListItem {
  item_artifact_id : string;
  item_title : string;
  item_description : string;
  item_save_path : string
}.

(** [get_session_or_404]. *)
Definition get_session_or_404 (w : World) (sid : string)
  : HTTPException + ref :=
  match get_session w sid with
  | Some sr => inr sr
  | None => inl (mkHTTPException 404 (Text "Session not found"))
  end.

(** [POST /sessions/{session_id}/images]. *)
Definition upload_image (env : Env) (w : World) (sid : string)
    (file : UploadFile) (title_arg : option string)
    (description_arg tags_arg hex8 : string)
  : option (World * (HTTPException + ImageUploadResponse)) :=
  match get_session_or_404 w sid with
  | inl e => Some (w, inl e)
  | inr session =>
      let tag_list := parse_tags tags_arg in
      '(w1, res) ← process_upload env w session file title_arg description_arg
                     (Some tag_list) hex8;
      match res with
      | inl (ImageValidationError why) =>
          Some (w1, inl (mkHTTPException 400 (Validation why)))
      | inr a =>
          s ← session_objs w1 !! session;
          w2 ← update_catalog env w1 s;
          artifact ← artifact_objs w2 !! a;
          Some (w2, inr (mkImageUploadResponse (artifact_id artifact)
                           (title artifact) (save_path artifact)))
      end
  end.

(** [GET /sessions/{session_id}/images]. *)
Definition list_images (w : World) (sid : string)
  : option (HTTPException + list ImageListItem) :=
  match get_session_or_404 w sid with
  | inl e => Some (inl e)
  | inr session =>
      s ← session_objs w !! session;
      cat ← catalog_objs w !! catalog s;
      objs ← mapM (fun a => artifact_objs w !! a) (artifacts cat);
      Some (inr (map (fun a => mkImageListItem (artifact_id a) (title a)
                                 (description a) (save_path a))
                   (List.filter
                      (fun a => str_in (artifact_id a) (uploaded_images s))
                      objs)))
  end.

(** [DELETE /sessions/{session_id}/images/{artifact_id}]; the status of
    the success response is the only thing it says. *)
Definition delete_image (env : Env) (w : World) (sid aid : string)
  : option (World * (HTTPException + string)) :=
  match get_session_or_404 w sid with
  | inl e => Some (w, inl e)
  | inr session =>
      '(w1, removed) ← remove_artifact env w session aid;
      if removed : bool then
        s ← session_objs w1 !! session;
        w2 ← update_catalog env w1 s;
        Some (w2, inr "deleted")
      else
        Some (w1, inl (mkHTTPException 404
                         (Text "Image not found or not user-uploaded")))
  end.

(** [DELETE /sessions/{session_id}]. *)
Definition delete_session (env : Env) (w : World) (sid : string)
  : option (World * (HTTPException + string)) :=
  '(w1, ok) ← cleanup_session env w sid;
  if ok : bool then Some (w1, inr "deleted")
  else Some (w1, inl (mkHTTPException 404 (Text "Session not found"))).

End Api.

(** Readings of the backend's state. *)
Module BackendSide.
Import Str Backend Sessions.

(** The catalog file of a session holds the serialisation of what the
    session's catalog denotes. *)
Definition catalog_saved (env : Env) (w : World) (session : ref) : Prop :=
  exists s d,
    session_objs w !! session = Some s
    /\ catalog_data w (catalog s) = Some d
    /\ files w !! path_resolve env (catalog_path s)
       = Some (TextFile (model_dump_json env d)).

(** Every reference that the manager can reach leads to an object: the
    cached base catalog and the catalog of every registered session
    denote data. *)
Definition well_formed (w : World) : Prop :=
  (forall b, _base_catalog w = Some b -> is_Some (catalog_data w b))
  /\ (forall sid sr, _sessions w !! sid = Some sr ->
        exists s, session_objs w !! sr = Some s
                  /\ is_Some (catalog_data w (catalog s))).

End BackendSide.

(** Readings of one upload. *)
Module UploadSide.
Import Str Backend.

Definition upload_id (hex8 : string) : string := "user_upload_" +:+ hex8.

(** The extension under which the upload is stored. *)
Definition upload_ext (env : Env) (file : UploadFile) : string :=
  match truthy (filename file) with
  | Some name => lower (path_suffix env name)
  | None => ".png"
  end.

(** The path of the stored file, as recorded in the artifact. *)
Definition upload_path (env : Env) (s : Session) (file : UploadFile)
    (hex8 : string) : string :=
  path_resolve env
    (path_join (uploads_dir s) (upload_id hex8 +:+ upload_ext env file)).

Definition upload_title (env : Env) (file : UploadFile)
    (title_arg : option string) (hex8 : string) : string :=
  match truthy title_arg with
  | Some t => t
  | None =>
      match truthy (filename file) with
      | Some name => path_stem env name
      | None => upload_id hex8
      end
  end.

(** The artifact of an upload, as data. *)
Definition upload_artifact (env : Env) (s : Session) (file : UploadFile)
    (title_arg : option string) (description_arg : string)
    (tags_arg : option (list string)) (hex8 : string)
  : Artifact (list string) :=
  mkArtifact (upload_id hex8) "plot" (upload_title env file title_arg hex8)
    description_arg "" (default [] tags_arg ++ ["user_upload"])
    (upload_path env s file hex8) "" "".

Definition add_upload (s : Session) (hex8 : string) : Session :=
  mkSession (session_id s) (created_at s) (session_dir s) (catalog s)
    (uploaded_images s ++ [upload_id hex8]).

End UploadSide.

(** Readings of the upload form. *)
Module ApiSide.
Import Str.

(** A tag as the catalog stores it: not empty, no white space at either
    end, no comma. *)
Definition clean_tag (t : string) : Prop :=
  t <> EmptyString /\ strip t = t /\ contains "," t = false.

End ApiSide.

(* ===================================================================== *)
(** * Prompt files and the planner's reply *)
(* ===================================================================== *)

Module Prompts.
Import Str Text.

(** [load_prompt]; [markdown] is the directory of prompt files, by file
    name, and [None] stands for [FileNotFoundError]. *)
Definition load_prompt (markdown : gmap string string) (prompt_name : string)
  : option string :=
  match markdown !! (prompt_name +:+ ".md") with
  | None => None
  | Some content =>
      Some (if starts_with "---" content then
              match split_max "---" 2 content with
              | _ :: _ :: body :: _ => strip body
              | _ => content
              end
            else content)
  end.

End Prompts.

Module PlanParse.
Import Str Text.

(** The first part of [_parse_slide_plan]: the text handed to
    [json.loads], or the [ValueError] raised before. *)
Definition json_str (response : string) : PyExn + string :=
  let response := strip response in
  let response :=
    if contains "```json" response then
      let start := find response "```json" 0 + 7 in
      let end_ := find response "```" (Z.to_nat start) in
      strip (py_slice response start end_)
    else if contains "```" response then
      let start := find response "```" 0 + 3 in
      let end_ := find response "```" (Z.to_nat start) in
      strip (py_slice response start end_)
    else response in
  let start_idx := find response "{" 0 in
  let end_idx := rfind response "}" + 1 in
  if (start_idx =? -1) || (end_idx =? 0) then
    inl (ValueError "No JSON object found in response")
  else inr (py_slice response start_idx end_idx).

(** What [json.loads] followed by [SlidePlan(...)] makes of a text. *)
Inductive Decoded :=
| JSONDecodeError (e : string)
| ValidationFailed (e : string)
| Validated (slide_plan : SlidePlan).

(** [SlidePlannerAgent._parse_slide_plan]. *)
Definition _parse_slide_plan (decode : string -> Decoded) (response : string)
  : PyExn + SlidePlan :=
  match json_str response with
  | inl e => inl e
  | inr text =>
      match decode text with
      | Validated slide_plan => inr slide_plan
      | JSONDecodeError e => inl (ValueError ("Failed to parse JSON: " +:+ e))
      | ValidationFailed e =>
          inl (ValueError ("Failed to validate slide plan: " +:+ e))
      end
  end.

End PlanParse.

(* ===================================================================== *)
(** * Artifacts referenced by a slide *)
(* ===================================================================== *)

Module Resolve.
Import Str Backend.

(** [ContentBlock]; [content] is a text, a list of bullet items, or
    absent. *)
Record ContentBlock := mkContentBlock {
  block_type : string;
  content : option (string + list string);
  block_artifact_id : option string;
  artifact_render_mode : option string;
  width_percent : Z
}.

(** One entry of the result of [_resolve_artifacts]. *)
Record Resolved := mkResolved {
  r_save_path : string;
  r_html_table : string;
  r_title : string;
  r_description : string
}.

(** The lookup map of the dict comprehension: a later artifact with the
    same id replaces an earlier one. *)
Definition artifact_map (artifacts : list (Artifact (list string)))
  : gmap string (Artifact (list string)) :=
  foldl (fun m a => <[artifact_id a := a]> m) ∅ artifacts.

(** [SlideDesignerAgent._resolve_artifacts]; [resolve] is
    [str(Path(p).resolve())]. *)
Definition _resolve_artifacts (resolve : string -> string)
    (content_blocks : list ContentBlock)
    (catalog : option (list (Artifact (list string))))
  : gmap string Resolved :=
  match catalog with
  | None => ∅
  | Some artifacts =>
      let artifact_map := artifact_map artifacts in
      foldl (fun resolved block =>
               match truthy (block_artifact_id block) with
               | Some k =>
                   match artifact_map !! k with
                   | Some artifact =>
                       <[k := mkResolved (resolve (save_path artifact))
                                (html_table artifact) (title artifact)
                                (description artifact)]> resolved
                   | None => resolved
                   end
               | None => resolved
               end)
        ∅ content_blocks
  end.

(** The last artifact of a list that carries a given id. *)
Definition last_with_id (k : string) (artifacts : list (Artifact (list string)))
  : option (Artifact (list string)) :=
  List.find (fun a => String.eqb (artifact_id a) k) (rev artifacts).

End Resolve.

(* ===================================================================== *)
(** * core/config.py: configuration values *)
(* ===================================================================== *)

Module Config.
Import Str Text.

(** What [yaml.safe_load] returns, for documents made of null, booleans,
    integers, strings, sequences and mappings with string keys. *)
#[warnings="-register-all"]
Inductive Yaml :=
| YNone
| YBool (b : bool)
| YInt (n : Z)
| YStr (s : string)
| YList (l : list Yaml)
| YDict (m : gmap string Yaml).

(** The truth value of a loaded document; an empty mapping is replaced by
    an empty mapping, so every mapping is kept. *)
Definition truthy (y : Yaml) : bool :=
  match y with
  | YNone => false
  | YBool b => b
  | YInt n => negb (n =? 0)
  | YStr s => negb (String.eqb s EmptyString)
  | YList l => match l with [] => false | _ :: _ => true end
  | YDict _ => true
  end.

(** [load_config]; [config_file] is the content of config.yaml when the
    file exists. *)
Definition load_config (config_file : option Yaml) : Yaml :=
  match config_file with
  | Some y => if truthy y then y else YDict ∅
  | None => YDict ∅
  end.

(** The loop of [get_config]: [None] when it returns the default from
    inside the loop. *)
Fixpoint follow (value : Yaml) (keys : list string) : option Yaml :=
  match keys with
  | [] => Some value
  | k :: rest =>
      match value with
      | YDict m => follow (default YNone (m !! k)) rest
      | _ => None
      end
  end.

(** [get_config]. *)
Definition get_config (config_file : option Yaml) (key : string)
    (default : Yaml) : Yaml :=
  let config := load_config config_file in
  let keys := split_char "." key in
  match follow config keys with
  | None => default
  | Some YNone => default
  | Some value => value
  end.

(** [get_converter_timeout] and [get_max_image_size_mb]. *)
Definition get_converter_timeout (config_file : option Yaml) : Yaml :=
  get_config config_file "timeouts.converter" (YInt 120).

Definition get_max_image_size_mb (config_file : option Yaml) : Yaml :=
  get_config config_file "uploads.max_image_size_mb" (YInt 10).

End Config.
(* ===================================================================== *)
(** * Designing a batch of slides *)
(* ===================================================================== *)

Module Batch.
Import Designer.

(** A batch: the agent's state afterwards, the prompts sent to the agent,
    in order, and the list returned or the exception that left the
    function. *)
Record BatchRun (St : Type) := mkBatchRun {
  batch_state : St;
  batch_calls : list string;
  batch_outcome : PyExn + list SlideDesignResult
}.
Arguments mkBatchRun {St}.
Arguments batch_state {St}.
Arguments batch_calls {St}.
Arguments batch_outcome {St}.

(** [design_slides_batch]: one designer, built without [max_retries],
    designs the slides in order; an exception of one slide leaves the
    function. *)
Fixpoint design_slides_batch {St} (agent : AgentCall St)
    (prepare : SlideSpec -> PyExn + string) (slides : list SlideSpec) (st : St)
  : BatchRun St :=
  match slides with
  | [] => mkBatchRun st [] (inr [])
  | slide :: rest =>
      let run := design_slide agent prepare (init_max_retries None) slide st in
      match run_outcome run with
      | inl e => mkBatchRun (run_state run) (run_calls run) (inl e)
      | inr result =>
          let tail := design_slides_batch agent prepare rest (run_state run) in
          mkBatchRun (batch_state tail) (run_calls run ++ batch_calls tail)
            (match batch_outcome tail with
             | inl e => inl e
             | inr results => inr (result :: results)
             end)
      end
  end.

(** The results of a list of outcomes, up to the first exception. *)
Fixpoint collect {E A : Type} (l : list (E + A)) : E + list A :=
  match l with
  | [] => inr []
  | inl e :: _ => inl e
  | inr a :: rest =>
      match collect rest with
      | inl e => inl e
      | inr r => inr (a :: r)
      end
  end.

(** What [design_slide] does for each slide of a list when every slide
    is tried, as in the orchestrator's loop: the agent's state passes from
    one run to the next. *)
Fixpoint design_runs {St} (agent : AgentCall St)
    (prepare : SlideSpec -> PyExn + string) (slides : list SlideSpec) (st : St)
  : list (Run St) :=
  match slides with
  | [] => []
  | slide :: rest =>
      let run := design_slide agent prepare (init_max_retries None) slide st in
      run :: design_runs agent prepare rest (run_state run)
  end.

Definition returned {St} (run : Run St) : bool :=
  match run_outcome run with
  | inr _ => true
  | inl _ => false
  end.

End Batch.

(* ===================================================================== *)
(** * Facts about the string primitives *)
(* ===================================================================== *)

Section StrFacts.
Import Str.

Lemma append_cons (c : ascii) (a b : string) :
  String c a +:+ b = String c (a +:+ b).
Proof. reflexivity. Qed.

Lemma append_assoc (a b c : string) : (a +:+ b) +:+ c = a +:+ (b +:+ c).
Proof.
  induction a as [|x a IH]; [reflexivity|].
  rewrite !append_cons. f_equal. exact IH.
Qed.

Lemma starts_with_app (p s : string) : starts_with p (p +:+ s) = true.
Proof.
  induction p as [|c p IH]; simpl; [reflexivity|].
  unfold eqb_char. rewrite Ascii.eqb_refl. exact IH.
Qed.

Lemma starts_with_inv (p s : string) :
  starts_with p s = true -> exists post, s = p +:+ post.
Proof.
  revert s. induction p as [|c p IH]; intros s H; simpl in *.
  - exists s. reflexivity.
  - destruct s as [|d s]; [discriminate|].
    apply andb_true_iff in H as [Hc Hp].
    apply Ascii.eqb_eq in Hc. subst d.
    destruct (IH _ Hp) as [post ->]. exists post. reflexivity.
Qed.

Lemma starts_with_prefix (p q s : string) :
  starts_with (p +:+ q) s = true -> starts_with p s = true.
Proof.
  revert s. induction p as [|c p IH]; intros s H; simpl in *; [reflexivity|].
  destruct s as [|d s]; [discriminate|].
  apply andb_true_iff in H as [Hc Hp]. rewrite Hc. simpl. eauto.
Qed.

Lemma drop_length_le (n : nat) (s : string) :
  (String.length (drop n s) <= String.length s)%nat.
Proof.
  revert s. induction n as [|n IH]; intros [|c s]; simpl; try lia.
  specialize (IH s). lia.
Qed.

Lemma drop_drop (n m : nat) (s : string) : drop n (drop m s) = drop (m + n) s.
Proof.
  revert s. induction m as [|m IH]; intros s; simpl; [reflexivity|].
  destruct s as [|c s]; [destruct n; reflexivity|]. apply IH.
Qed.

Lemma take_all (s : string) : take (String.length s) s = s.
Proof. induction s as [|c s IH]; simpl; congruence. Qed.

Lemma take_length_le (n : nat) (s : string) :
  (String.length (take n s) <= n)%nat.
Proof.
  revert s. induction n as [|n IH]; intros [|c s]; simpl; try lia.
  specialize (IH s). lia.
Qed.

(** What [search] returns is a match, it is the leftmost one, and it lies
    within the string. *)
Lemma search_Some (m : string -> bool) (s : string) (i : nat) :
  search m s = Some i ->
  m (drop i s) = true /\ (i <= String.length s)%nat
  /\ forall j, (j < i)%nat -> m (drop j s) = false.
Proof.
  revert i. induction s as [|c s IH]; intros i H; simpl in H.
  - destruct (m EmptyString) eqn:E; [|discriminate].
    injection H as <-. simpl. repeat split; [exact E | lia | lia].
  - destruct (m (String c s)) eqn:E.
    + injection H as <-. simpl. repeat split; [exact E | lia | lia].
    + destruct (search m s) as [k|] eqn:K; [|discriminate].
      injection H as <-. destruct (IH k eq_refl) as (H1 & H2 & H3).
      simpl. repeat split; [exact H1 | lia |].
      intros [|j] Hj; simpl; [exact E | apply H3; lia].
Qed.

Lemma search_None (m : string -> bool) (s : string) :
  search m s = None -> forall j, m (drop j s) = false.
Proof.
  induction s as [|c s IH]; intros H j; simpl in H.
  - destruct (m EmptyString) eqn:E; [discriminate|]. destruct j; exact E.
  - destruct (m (String c s)) eqn:E; [discriminate|].
    destruct (search m s) eqn:K; [discriminate|].
    destruct j as [|j]; simpl; [exact E | apply IH; reflexivity].
Qed.

Lemma search_head (m : string -> bool) (s : string) :
  m s = true -> search m s = Some 0%nat.
Proof. intros H. destruct s; simpl; rewrite H; reflexivity. Qed.

Lemma search_found (m : string -> bool) (s : string) (j : nat) :
  m (drop j s) = true -> (j <= String.length s)%nat ->
  exists i, search m s = Some i.
Proof.
  intros H Hj. destruct (search m s) eqn:E; [eauto|].
  rewrite (search_None _ _ E j) in H. discriminate.
Qed.

(** A weaker matcher finds something wherever a stronger one does. *)
Lemma search_weaken (m1 m2 : string -> bool) (s : string) :
  (forall t, m1 t = true -> m2 t = true) ->
  search m2 s = None -> search m1 s = None.
Proof.
  intros Hw H2. destruct (search m1 s) as [i|] eqn:E; [|reflexivity].
  destruct (search_Some _ _ _ E) as (H & _ & _).
  apply Hw in H. rewrite (search_None _ _ H2 i) in H. discriminate.
Qed.

Lemma drop_app_length (pre s : string) : drop (String.length pre) (pre +:+ s) = s.
Proof. induction pre as [|c pre IH]; simpl; [reflexivity | exact IH]. Qed.

Lemma take_drop (n : nat) (s : string) : take n s +:+ drop n s = s.
Proof.
  revert s. induction n as [|n IH]; intros [|c s]; simpl; try reflexivity.
  change (String c (take n s +:+ drop n s) = String c s).
  f_equal. apply IH.
Qed.

Lemma app_length (a b : string) :
  String.length (a +:+ b) = (String.length a + String.length b)%nat.
Proof. induction a as [|c a IH]; simpl; [reflexivity | lia]. Qed.

(** [needle in s] holds exactly when [s] splits around [needle]. *)
Lemma contains_spec (needle s : string) :
  contains needle s = true <-> exists pre post, s = pre +:+ needle +:+ post.
Proof.
  unfold contains. split.
  - destruct (search (starts_with needle) s) as [i|] eqn:E; [|discriminate].
    intros _. destruct (search_Some _ _ _ E) as (H & _ & _).
    apply starts_with_inv in H as [post Hpost].
    exists (take i s), post. rewrite <- Hpost. symmetry. apply take_drop.
  - intros (pre & post & ->).
    destruct (search_found (starts_with needle) (pre +:+ needle +:+ post)
                (String.length pre)) as [i ->]; [| |reflexivity].
    + rewrite drop_app_length. apply starts_with_app.
    + rewrite app_length. lia.
Qed.

Lemma lstrip_idem (s : string) : lstrip (lstrip s) = lstrip s.
Proof.
  induction s as [|c s IH]; simpl; [reflexivity|].
  destruct (is_space c) eqn:E; [exact IH|]. simpl. rewrite E. reflexivity.
Qed.

Lemma rstrip_idem (s : string) : rstrip (rstrip s) = rstrip s.
Proof.
  induction s as [|c s IH]; simpl; [reflexivity|].
  destruct (rstrip s) as [|d r] eqn:E.
  - destruct (is_space c) eqn:Ec; simpl; [reflexivity|]. rewrite Ec. reflexivity.
  - simpl in *. rewrite IH. reflexivity.
Qed.

(** [rstrip] keeps the first character of a text that does not start
    with white space, so nothing is left for [lstrip] to remove. *)
Lemma lstrip_rstrip_lstrip (s : string) :
  lstrip (rstrip (lstrip s)) = rstrip (lstrip s).
Proof.
  induction s as [|c s IH]; simpl; [reflexivity|].
  destruct (is_space c) eqn:E; [exact IH|].
  simpl. destruct (rstrip s); rewrite ?E; simpl; rewrite E; reflexivity.
Qed.

Lemma strip_idem (s : string) : strip (strip s) = strip s.
Proof.
  unfold strip. rewrite lstrip_rstrip_lstrip. apply rstrip_idem.
Qed.

End StrFacts.

(* ===================================================================== *)
(** * Extraction and the checklist *)
(* ===================================================================== *)

Section DesignerFacts.
Import Str Re Designer SpecSide Documents.

Lemma no_fence_no_html_fence (doc : string) :
  contains fence doc = false -> contains "```html" doc = false.
Proof.
  unfold contains, fence. intros H.
  destruct (search (starts_with "```") doc) eqn:E; [discriminate|].
  rewrite (search_weaken (starts_with "```html") (starts_with "```") doc);
    [reflexivity | | exact E].
  intros t. apply (starts_with_prefix "```" "html").
Qed.

(** On fence-free text the result is the stripped text, unless a span is
    found; then it is that span, stripped. *)
Lemma extract_html_no_fence (response : string) :
  contains fence (strip response) = false ->
  _extract_html response =
    match found_span (strip response) with
    | Some (a, b) => strip (slice (strip response) a b)
    | None => strip response
    end.
Proof.
  intros H. unfold _extract_html, found_span.
  rewrite (no_fence_no_html_fence _ H). unfold fence in H. rewrite H.
  destruct (search doctype_at (strip response)) as [start|]; simpl; [|reflexivity].
  destruct (search close_html_at (drop start (strip response))); reflexivity.
Qed.

(** C6 (amended).  For every response without a code fence, if the scan
    for a doctype declaration through the first closing html tag either
    finds nothing or finds the whole stripped text, [_extract_html]
    returns the response unchanged except for surrounding white space. *)
Theorem extract_html_fence_free (response : string) :
  contains fence (strip response) = false ->
  (forall a b, found_span (strip response) = Some (a, b) ->
               a = 0%nat /\ b = String.length (strip response)) ->
  _extract_html response = strip response.
Proof.
  intros Hf Hspan. rewrite (extract_html_no_fence _ Hf).
  destruct (found_span (strip response)) as [[a b]|]; [|reflexivity].
  destruct (Hspan a b eq_refl) as [-> ->].
  unfold slice. simpl. rewrite Nat.sub_0_r, take_all. apply strip_idem.
Qed.


(** A plain document with white space around it comes back stripped. *)
Lemma extract_html_fence_free_witness :
  contains fence (strip plain_document) = false
  /\ found_span (strip plain_document) = Some (0%nat, 63%nat)
  /\ _extract_html plain_document = strip plain_document.
Proof.
  split; [vm_compute; reflexivity|].
  split; [vm_compute; reflexivity|].
  apply (extract_html_fence_free plain_document).
  - vm_compute; reflexivity.
  - intros a b H. vm_compute in H. injection H as <- <-.
    split; vm_compute; reflexivity.
Defined.


(** C6 as stated fails: this fence-free bare document is cut at the first
    closing html tag. *)
Lemma extract_html_truncates_document :
  spec_bare_html_document (strip document_with_inner_close) = true
  /\ _extract_html document_with_inner_close
     = "<!DOCTYPE html><html><body><!-- </html>"
  /\ _extract_html document_with_inner_close
     <> strip document_with_inner_close.
Proof.
  split; [vm_compute; reflexivity|].
  split; [vm_compute; reflexivity|].
  vm_compute. discriminate.
Qed.

(** The slide-id check, read off [_validate_html]. *)
Lemma validate_html_slide_id (html : string) (slide : SlideSpec) :
  In (slide_id_error slide) (_validate_html html slide)
  <-> contains (slide_id_needle slide) html = false.
Proof.
  unfold _validate_html, slide_id_error, slide_id_needle.
  set (needle := "data-slide-id=" +:+ quoted (slide_id slide)).
  set (msg := "Missing or incorrect data-slide-id (expected " +:+ slide_id slide +:+ ")").
  assert (Hmsg : forall tl, msg <> String "M" (String "i" (String "s" (String "s"
                  (String "i" (String "n" (String "g" (String " " (String "#" tl))))))))).
  { intros tl. unfold msg. simpl. intros H. discriminate H. }
  assert (Hmsg2 : forall tl, msg <> String "M" (String "i" (String "s" (String "s"
                  (String "i" (String "n" (String "g" (String " " (String "D" tl))))))))).
  { intros tl. unfold msg. simpl. intros H. discriminate H. }
  assert (Hmsg3 : forall tl, msg <> String "M" (String "i" (String "s" (String "s"
                  (String "i" (String "n" (String "g" (String " " (String "<" tl))))))))).
  { intros tl. unfold msg. simpl. intros H. discriminate H. }
  assert (Hc : forall tl, msg <> String "C" tl).
  { intros tl. unfold msg. simpl. intros H. discriminate H. }
  assert (Hd : forall tl, msg <> String "D" tl).
  { intros tl. unfold msg. simpl. intros H. discriminate H. }
  split.
  - intros Hin. destruct (contains needle html) eqn:E; [|reflexivity]. exfalso.
    simpl in Hin.
    repeat (apply in_app_or in Hin as [Hin|Hin]);
      repeat match type of Hin with
             | In _ (if ?b then _ else _) => destruct b
             | In _ (match ?o with Some _ => _ | None => _ end) => destruct o
             | In _ [] => destruct Hin
             | In _ [_] => destruct Hin as [Hin|[]]
             end;
      try (symmetry in Hin; first [ apply Hmsg in Hin | apply Hmsg2 in Hin
                                  | apply Hmsg3 in Hin | apply Hc in Hin
                                  | apply Hd in Hin ]; exact Hin).
  - intros E. rewrite E. simpl.
    apply in_or_app. right. left. reflexivity.
Qed.

(** C4 (amended).  The slide-id check of [_validate_html] is a search of
    the whole text: it reports its error exactly when the text
    data-slide-id=Q id Q (Q the double quote) occurs nowhere in the HTML, and
    then validation fails; an absent or different value fails, while the
    element that carries the attribute is not examined.  A root container
    tag that carries the attribute always satisfies the check. *)
Theorem validate_html_slide_id_is_text_search (html : string) (slide : SlideSpec) :
  (In (slide_id_error slide) (_validate_html html slide)
     <-> ~ exists pre post, html = pre +:+ slide_id_needle slide +:+ post)
  /\ ((~ exists pre post, html = pre +:+ slide_id_needle slide +:+ post)
      -> _validate_html html slide <> [])
  /\ (spec_root_carries_slide_id html (slide_id slide) = true
      -> ~ In (slide_id_error slide) (_validate_html html slide)).
Proof.
  assert (Hiff : In (slide_id_error slide) (_validate_html html slide)
     <-> ~ exists pre post, html = pre +:+ slide_id_needle slide +:+ post).
  { rewrite validate_html_slide_id, <- contains_spec.
    destruct (contains (slide_id_needle slide) html); split; intros H;
      try reflexivity; try discriminate; try (intros H'; discriminate).
    exfalso; apply H; reflexivity. }
  split; [exact Hiff|]. split.
  - intros H. apply Hiff in H. intros E. rewrite E in H. exact H.
  - intros Hroot Hin. apply Hiff in Hin. apply Hin. clear Hin Hiff.
    unfold spec_root_carries_slide_id in Hroot.
    match type of Hroot with
    | match search ?m html with _ => _ end = true =>
        destruct (search m html) as [i|] eqn:E; [|discriminate];
        destruct (search_Some _ _ _ E) as (Hm & _ & _)
    end.
    cbv beta in Hm. unfold tag_at in Hm.
    destruct (drop i html) as [|c t] eqn:Ed; [discriminate|].
    destruct (eqb_char c "<"); [|discriminate].
    apply andb_true_iff in Hm as [_ Hm].
    apply contains_spec in Hm as (pre & post & Hm).
    fold (slide_id_needle slide) in Hm.
    assert (Ht : exists rest, t = take_while (not_char ">") t +:+ rest).
    { clear. induction t as [|d t [rest IH]]; simpl.
      - exists EmptyString. reflexivity.
      - destruct (not_char ">" d).
        + exists rest. rewrite append_cons. f_equal. exact IH.
        + exists (String d t). reflexivity. }
    destruct Ht as [rest Ht].
    exists (take i html +:+ String c pre), (post +:+ rest).
    rewrite <- (take_drop i html) at 1. rewrite Ed, Ht, Hm.
    rewrite ?append_assoc, ?append_cons, ?append_assoc. reflexivity.
Qed.


(** C4 as stated fails: the attribute is not on the root container
    element, and the document passes the whole checklist. *)
Lemma validate_html_accepts_misplaced_id :
  spec_root_carries_slide_id document_with_misplaced_id "s01" = false
  /\ _validate_html document_with_misplaced_id (mkSlideSpec "s01" 1 "Title" [])
     = [].
Proof. split; vm_compute; reflexivity. Qed.

End DesignerFacts.

(* ===================================================================== *)
(** * The validate-and-retry loop *)
(* ===================================================================== *)


Section LoopFacts.
Import Str Designer Generators.
Context {St : Type} (agent : AgentCall St) (slide : SlideSpec)
  (user_message : string).

Lemma py_range_length (a b : Z) : length (py_range a b) = Z.to_nat (b - a).
Proof. unfold py_range. rewrite length_map, length_seq. reflexivity. Qed.

Lemma design_loop_passed attempts st calls errs html r :
  run_outcome (design_loop agent slide user_message attempts st calls errs html)
    = inr r ->
  validation_passed r = true ->
  _validate_html (html_content r) slide = [] /\ validation_errors r = [].
Proof.
  revert st calls errs html.
  induction attempts as [|attempt rest IH]; intros st calls errs html; simpl.
  - destruct html; simpl; intros H Hp; [|discriminate].
    injection H as <-. discriminate Hp.
  - destruct (agent st _) as [st' [e|result]]; simpl; [discriminate|].
    destruct (length (_validate_html (_extract_html result) slide) =? 0)%nat eqn:E.
    + simpl. intros H _. injection H as <-. simpl. split; [|reflexivity].
      apply Nat.eqb_eq in E. destruct (_validate_html _ slide); [reflexivity|discriminate].
    + apply IH.
Qed.




End LoopFacts.

Section DesignSlideFacts.
Import Str Designer Generators.

(** C1.  Whatever the slide and the generator's replies, a result of
    [design_slide] with [validation_passed = true] carries HTML on which
    [_validate_html] finds no error for that slide, and its own
    [validation_errors] list is empty. *)
Theorem design_slide_passed_sound {St : Type} (agent : AgentCall St)
    (prepare : SlideSpec -> PyExn + string) (max_retries : Z)
    (slide : SlideSpec) (st : St) (r : SlideDesignResult) :
  run_outcome (design_slide agent prepare max_retries slide st) = inr r ->
  validation_passed r = true ->
  _validate_html (html_content r) slide = [] /\ validation_errors r = [].
Proof.
  unfold design_slide. destruct (prepare slide) as [e|user_message]; simpl.
  - discriminate.
  - apply design_loop_passed.
Qed.


(** The second reply passes: the result is marked passed and its HTML
    validates. *)
Lemma design_slide_passed_sound_witness :
  run_outcome (design_slide second_try ready 3 example_slide 0%nat)
    = inr (mkSlideDesignResult "s01" valid_document true [])
  /\ _validate_html valid_document example_slide = [].
Proof.
  split; [vm_compute; reflexivity|].
  apply (design_slide_passed_sound second_try ready 3 example_slide 0%nat
           (mkSlideDesignResult "s01" valid_document true [])).
  - vm_compute; reflexivity.
  - reflexivity.
Defined.




End DesignSlideFacts.

(* ===================================================================== *)
(** * The retry budget set by the constructors *)
(* ===================================================================== *)

Section BudgetFacts.
Import Str Generators SpecSide.


Lemma py_range_nonempty (m : Z) : 1 <= m -> py_range 1 (m + 1) <> [].
Proof.
  intros H E. apply (f_equal (@length Z)) in E.
  rewrite py_range_length in E. simpl in E. lia.
Qed.

Lemma design_loop_calls_mono {St : Type} (agent : AgentCall St)
    (slide : SlideSpec) (user_message : string) attempts st calls errs html :
  (length calls
   <= length (Designer.run_calls
                (Designer.design_loop agent slide user_message attempts st calls
                   errs html)))%nat.
Proof.
  revert st calls errs html.
  induction attempts as [|attempt rest IH]; intros st calls errs html; simpl.
  - destruct html; simpl; lia.
  - destruct (agent st _) as [st' [e|result]]; simpl.
    + rewrite length_app. simpl. lia.
    + destruct (length _ =? 0)%nat; simpl.
      * rewrite length_app. simpl. lia.
      * etransitivity; [|apply IH]. rewrite length_app. simpl. lia.
Qed.

Lemma design_loop_first_call {St : Type} (agent : AgentCall St)
    (slide : SlideSpec) (user_message : string) attempts st calls errs html :
  attempts <> [] ->
  (length calls
   < length (Designer.run_calls
               (Designer.design_loop agent slide user_message attempts st calls
                  errs html)))%nat.
Proof.
  destruct attempts as [|attempt rest]; [contradiction|]. intros _. simpl.
  destruct (agent st _) as [st' [e|result]]; simpl.
  - rewrite length_app. simpl. lia.
  - destruct (length _ =? 0)%nat; simpl.
    + rewrite length_app. simpl. lia.
    + eapply Nat.lt_le_trans; [|apply design_loop_calls_mono].
      rewrite length_app. simpl. lia.
Qed.

Lemma plan_loop_calls_mono {St : Type} (agent : AgentCall St)
    (parse : string -> PyExn + SlidePlan) (user_message : string)
    (max_retries : Z) attempts st calls last_error :
  (length calls
   <= length (Planner.run_calls
                (Planner.plan_loop agent parse user_message max_retries attempts
                   st calls last_error)))%nat.
Proof.
  revert st calls last_error.
  induction attempts as [|attempt rest IH]; intros st calls last_error; simpl.
  - lia.
  - destruct (agent st _) as [st' reply].
    destruct (match reply with inl e => inl e | inr t => parse t end) as [e|p].
    + destruct (attempt =? max_retries).
      * simpl. rewrite length_app. simpl. lia.
      * etransitivity; [|apply IH]. rewrite length_app. simpl. lia.
    + simpl. rewrite length_app. simpl. lia.
Qed.

Lemma plan_loop_first_call {St : Type} (agent : AgentCall St)
    (parse : string -> PyExn + SlidePlan) (user_message : string)
    (max_retries : Z) attempts st calls last_error :
  attempts <> [] ->
  (length calls
   < length (Planner.run_calls
               (Planner.plan_loop agent parse user_message max_retries attempts
                  st calls last_error)))%nat.
Proof.
  destruct attempts as [|attempt rest]; [contradiction|]. intros _. simpl.
  destruct (agent st _) as [st' reply].
  destruct (match reply with inl e => inl e | inr t => parse t end) as [e|p].
  - destruct (attempt =? max_retries).
    + simpl. rewrite length_app. simpl. lia.
    + eapply Nat.lt_le_trans; [|apply plan_loop_calls_mono].
      rewrite length_app. simpl. lia.
  - simpl. rewrite length_app. simpl. lia.
Qed.

(** Both constructors replace a falsy [max_retries] ([None] or [0]) by the
    default 3 and keep every other value.  For an argument that is [None]
    or not negative the budget is at least 1, so both loops call their
    agent at least once. *)
Lemma init_max_retries_falsy_default :
  (Designer.init_max_retries None = 3
   /\ Designer.init_max_retries (Some 0) = 3
   /\ Planner.init_max_retries None = 3
   /\ Planner.init_max_retries (Some 0) = 3)
  /\ (forall n, n <> 0 ->
        Designer.init_max_retries (Some n) = n
        /\ Planner.init_max_retries (Some n) = n)
  /\ (forall a, not_negative a ->
        1 <= Designer.init_max_retries a /\ 1 <= Planner.init_max_retries a)
  /\ (forall (St : Type) (agent : AgentCall St) prepare slide st user_message a,
        not_negative a ->
        prepare slide = inr user_message ->
        Designer.run_calls
          (Designer.design_slide agent prepare (Designer.init_max_retries a)
             slide st) <> [])
  /\ (forall (St : Type) (agent : AgentCall St) parse user_message st a,
        not_negative a ->
        Planner.run_calls
          (Planner.plan agent parse user_message (Planner.init_max_retries a) st)
          <> []).
Proof.
  assert (Hge : forall a, not_negative a ->
            1 <= Designer.init_max_retries a /\ 1 <= Planner.init_max_retries a).
  { intros [n|] H; simpl in *;
      unfold Designer.DEFAULT_MAX_RETRIES, Planner.DEFAULT_MAX_RETRIES; [|lia].
    destruct (n =? 0) eqn:E; simpl; [lia|]. apply Z.eqb_neq in E. lia. }
  split; [repeat split|]. split; [|split; [exact Hge|split]].
  - intros n Hn. simpl. apply Z.eqb_neq in Hn. rewrite Hn. split; reflexivity.
  - intros St agent prepare slide st user_message a Ha Hprep E.
    unfold Designer.design_slide in E. rewrite Hprep in E.
    pose proof (design_loop_first_call agent slide user_message
                  (py_range 1 (Designer.init_max_retries a + 1)) st [] [] None
                  (py_range_nonempty _ (proj1 (Hge a Ha)))) as H.
    rewrite E in H. simpl in H. lia.
  - intros St agent parse user_message st a Ha E.
    unfold Planner.plan in E.
    pose proof (plan_loop_first_call agent parse user_message
                  (Planner.init_max_retries a)
                  (py_range 1 (Planner.init_max_retries a + 1)) st [] None
                  (py_range_nonempty _ (proj2 (Hge a Ha)))) as H.
    rewrite E in H. simpl in H. lia.
Qed.

Lemma py_range_negative (n : Z) : n < 0 -> py_range 1 (n + 1) = [].
Proof.
  intros H. unfold py_range.
  replace (Z.to_nat (n + 1 - 1)) with 0%nat by lia. reflexivity.
Qed.

(** C9.  The constructors replace [None] and [0] by the default 3, but a
    zero-attempt loop can be configured through them: a negative
    [max_retries] is truthy and is kept, [range(1, max_retries + 1)] is
    then empty, and neither loop calls its agent.  [design_slide] fails
    on the local variable that only an attempt binds, and [plan] reaches
    the [raise] after its loop. *)
Theorem negative_budget_gives_zero_attempts {St : Type} (agent : AgentCall St)
    (prepare : SlideSpec -> PyExn + string)
    (parse : string -> PyExn + SlidePlan) (slide : SlideSpec)
    (user_message brief_message : string) (st : St) (n : Z) :
  n < 0 ->
  prepare slide = inr user_message ->
  (Designer.init_max_retries None = 3
   /\ Designer.init_max_retries (Some 0) = 3
   /\ Planner.init_max_retries None = 3
   /\ Planner.init_max_retries (Some 0) = 3)
  /\ Designer.init_max_retries (Some n) = n
  /\ Planner.init_max_retries (Some n) = n
  /\ py_range 1 (n + 1) = []
  /\ Designer.design_slide agent prepare (Designer.init_max_retries (Some n))
       slide st
     = Designer.mkRun st [] (inl (UnboundLocalError "html_content"))
  /\ Planner.plan agent parse brief_message
       (Planner.init_max_retries (Some n)) st
     = Planner.mkRun st []
         (inl (ValueError "Unexpected error in plan generation")).
Proof.
  intros Hn Hprep.
  assert (Hd : Designer.init_max_retries (Some n) = n).
  { cbn. destruct (n =? 0) eqn:E; [apply Z.eqb_eq in E; lia|reflexivity]. }
  assert (Hp : Planner.init_max_retries (Some n) = n).
  { cbn. destruct (n =? 0) eqn:E; [apply Z.eqb_eq in E; lia|reflexivity]. }
  split; [repeat split|]. split; [exact Hd|]. split; [exact Hp|].
  split; [apply py_range_negative; exact Hn|]. split.
  - unfold Designer.design_slide. rewrite Hprep, Hd, py_range_negative by exact Hn.
    reflexivity.
  - unfold Planner.plan. rewrite Hp, py_range_negative by exact Hn. reflexivity.
Qed.

Lemma negative_budget_gives_zero_attempts_witness :
  -1 < 0
  /\ ready example_slide = inr "Design this slide"
  /\ Designer.init_max_retries (Some (-1)) = -1
  /\ Planner.init_max_retries (Some (-1)) = -1
  /\ Designer.design_slide (always valid_document) ready
       (Designer.init_max_retries (Some (-1))) example_slide tt
     = Designer.mkRun tt [] (inl (UnboundLocalError "html_content"))
  /\ Planner.plan (always "{}")
       (fun _ => inl (ValueError "No JSON object found in response"))
       "Brief" (Planner.init_max_retries (Some (-1))) tt
     = Planner.mkRun tt []
         (inl (ValueError "Unexpected error in plan generation")).
Proof.
  assert (Hn : -1 < 0) by lia.
  assert (Hprep : ready example_slide = inr "Design this slide") by reflexivity.
  split; [exact Hn|]. split; [exact Hprep|].
  destruct (negative_budget_gives_zero_attempts (always valid_document) ready
              (fun _ => inl (ValueError "No JSON object found in response"))
              example_slide "Design this slide" "Brief" tt (-1) Hn Hprep)
    as (_ & Hd & Hp & _ & Hrun & Hplan).
  split; [exact Hd|]. split; [exact Hp|]. split; [exact Hrun|exact Hplan].
Defined.

End BudgetFacts.

(* ===================================================================== *)
(** * The orchestrator: what reaches the renderer, and success *)
(* ===================================================================== *)

Section OrchestratorFacts.
Import Str Orchestrator.
Context {St : Type} (env : Env St) (slides_dir : string).

(** The agent's state after one iteration is the one the design call
    left. *)
Lemma design_one_state (ph : Phase St) (slide : SlideSpec) :
  ph_state (design_one env slides_dir ph slide)
  = Designer.run_state
      (Designer.design_slide (agent env) (prepare env) designer_max_retries
         slide (ph_state ph)).
Proof.
  unfold design_one. destruct (Designer.run_outcome _) as [e|r]; [reflexivity|].
  destruct (write_error env _ _ _); reflexivity.
Qed.

Lemma design_phase_state (sl : list SlideSpec) (ph : Phase St) :
  html_files (fold_left (design_one env slides_dir) sl ph)
    = html_files ph
        ++ returned_paths slides_dir
             (slide_outcomes env slides_dir sl (ph_state ph) (ph_fs ph))
  /\ ph_errors (fold_left (design_one env slides_dir) sl ph)
     = ph_errors ph
         ++ raised_messages
              (slide_outcomes env slides_dir sl (ph_state ph) (ph_fs ph))
  /\ ph_warnings (fold_left (design_one env slides_dir) sl ph)
     = ph_warnings ph ++ warning_messages (design_outcomes env sl (ph_state ph)).
Proof.
  revert ph. induction sl as [|slide rest IH]; intros ph.
  - simpl. rewrite !app_nil_r. auto.
  - cbn [fold_left design_outcomes slide_outcomes].
    destruct (IH (design_one env slides_dir ph slide)) as (H1 & H2 & H3).
    rewrite H1, H2, H3, design_one_state. clear H1 H2 H3 IH.
    unfold design_one, html_path_of, warning_messages.
    cbn [flat_map fst snd].
    destruct (Designer.run_outcome _) as [e|r].
    + unfold returned_paths, raised_messages. cbn. rewrite <- !app_assoc. auto.
    + destruct (write_error env _ _ _) as [e|];
        unfold returned_paths, raised_messages; cbn;
        destruct (validation_passed r); cbn; rewrite <- ?app_assoc; auto.
Qed.


Lemma design_phase_fs_kept (sl : list SlideSpec) (ph : Phase St) (k : string) :
  is_Some (ph_fs ph !! k) ->
  is_Some (ph_fs (fold_left (design_one env slides_dir) sl ph) !! k).
Proof.
  revert ph. induction sl as [|slide rest IH]; intros ph Hk; [exact Hk|].
  cbn [fold_left]. apply IH. unfold design_one.
  destruct (Designer.run_outcome _) as [e|r]; cbn; [exact Hk|].
  destruct (write_error env _ _ _) as [e|]; cbn; [exact Hk|].
  rewrite lookup_insert. case_decide; [eauto | exact Hk].
Qed.

(** One step of [slide_outcomes], seen from the loop. *)
Lemma slide_outcomes_step (slide : SlideSpec) (rest : list SlideSpec)
    (ph : Phase St) :
  exists o,
    slide_outcomes env slides_dir (slide :: rest) (ph_state ph) (ph_fs ph)
    = (slide, o)
        :: slide_outcomes env slides_dir rest
             (ph_state (design_one env slides_dir ph slide))
             (ph_fs (design_one env slides_dir ph slide))
    /\ (forall r, o = inr r ->
          ph_fs (design_one env slides_dir ph slide)
          = <[html_path_of slides_dir slide := html_content r]> (ph_fs ph)).
Proof.
  cbn [slide_outcomes]. rewrite design_one_state.
  unfold design_one, html_path_of.
  destruct (Designer.run_outcome _) as [e|r].
  - exists (inl e). split; [reflexivity|]. intros ? H. discriminate.
  - destruct (write_error env _ _ _) as [e|].
    + exists (inl e). split; [reflexivity|]. intros ? H. discriminate.
    + exists (inr r). split; [reflexivity|]. intros ? H. injection H as <-.
      reflexivity.
Qed.

(** Every written design is under its path, whether it passed validation
    or not. *)
Lemma design_phase_fs_written (sl : list SlideSpec) (ph : Phase St)
    (slide : SlideSpec) (r : SlideDesignResult) :
  In (slide, inr r) (slide_outcomes env slides_dir sl (ph_state ph) (ph_fs ph)) ->
  is_Some (ph_fs (fold_left (design_one env slides_dir) sl ph)
             !! html_path_of slides_dir slide).
Proof.
  revert ph. induction sl as [|s rest IH]; intros ph Hin; [destruct Hin|].
  destruct (slide_outcomes_step s rest ph) as (o & Hstep & Hfs).
  rewrite Hstep in Hin. cbn [fold_left]. destruct Hin as [Hin|Hin].
  - injection Hin as -> ->. apply design_phase_fs_kept.
    rewrite (Hfs r eq_refl), lookup_insert_eq. eauto.
  - apply IH. exact Hin.
Qed.


Lemma design_outcomes_slides (sl : list SlideSpec) (st : St) :
  map fst (design_outcomes env sl st) = sl.
Proof.
  revert st. induction sl as [|s rest IH]; intros st; [reflexivity|].
  cbn. f_equal. apply IH.
Qed.

Lemma slide_outcomes_slides (sl : list SlideSpec) (st : St)
    (fs : gmap string string) :
  map fst (slide_outcomes env slides_dir sl st fs) = sl.
Proof.
  revert st fs. induction sl as [|s rest IH]; intros st fs; [reflexivity|].
  cbn [slide_outcomes].
  destruct (Designer.run_outcome _) as [e|r];
    [|destruct (write_error env _ _ _)]; cbn; f_equal; apply IH.
Qed.

(** A result whose HTML was written is the one its design call
    returned. *)
Lemma slide_outcomes_returned (sl : list SlideSpec) (st : St)
    (fs : gmap string string) (slide : SlideSpec) (r : SlideDesignResult) :
  In (slide, inr r) (slide_outcomes env slides_dir sl st fs) ->
  In (slide, inr r) (design_outcomes env sl st).
Proof.
  revert st fs. induction sl as [|s rest IH]; intros st fs; [intros []|].
  cbn [slide_outcomes design_outcomes].
  destruct (Designer.run_outcome _) as [e|r0].
  - intros [H|H]; [discriminate|]. right. exact (IH _ _ H).
  - destruct (write_error env _ _ _) as [e|].
    + intros [H|H]; [discriminate|]. right. exact (IH _ _ H).
    + intros [H|H]; [left; exact H|]. right. exact (IH _ _ H).
Qed.

(** A design call that raised is a pass that raised, with the same
    exception. *)
Lemma design_raised_is_caught (sl : list SlideSpec) (st : St)
    (fs : gmap string string) (slide : SlideSpec) (e : PyExn) :
  In (slide, inl e) (design_outcomes env sl st) ->
  In (slide, inl e) (slide_outcomes env slides_dir sl st fs).
Proof.
  revert st fs. induction sl as [|s rest IH]; intros st fs; [intros []|].
  cbn [slide_outcomes design_outcomes].
  destruct (Designer.run_outcome _) as [e0|r0].
  - intros [H|H]; [left; exact H|]. right. exact (IH _ _ H).
  - destruct (write_error env _ _ _) as [e0|];
      (intros [H|H]; [discriminate|]; right; exact (IH _ _ H)).
Qed.

(** A pass that raised: the design call raised, or it returned and the
    write raised. *)
Lemma caught_is_design_or_write (sl : list SlideSpec) (st : St)
    (fs : gmap string string) (slide : SlideSpec) (e : PyExn) :
  In (slide, inl e) (slide_outcomes env slides_dir sl st fs) ->
  In (slide, inl e) (design_outcomes env sl st)
  \/ exists r fs',
       In (slide, inr r) (design_outcomes env sl st)
       /\ write_error env fs' (html_path_of slides_dir slide) (html_content r)
          = Some e.
Proof.
  revert st fs. induction sl as [|s rest IH]; intros st fs; [intros []|].
  cbn [slide_outcomes design_outcomes].
  destruct (Designer.run_outcome _) as [e0|r0] eqn:Er.
  - intros [H|H]; [left; left; exact H|].
    destruct (IH _ _ H) as [H1|(r & fs' & H1 & H2)];
      [left; right; exact H1|right; exists r, fs'; split; [right|]; assumption].
  - destruct (write_error env _ _ _) as [e0|] eqn:Ew.
    + intros [H|H].
      * injection H as <- <-. right. exists r0, fs. split; [left; reflexivity|].
        exact Ew.
      * destruct (IH _ _ H) as [H1|(r & fs' & H1 & H2)];
          [left; right; exact H1
          |right; exists r, fs'; split; [right|]; assumption].
    + intros [H|H]; [discriminate|].
      destruct (IH _ _ H) as [H1|(r & fs' & H1 & H2)];
        [left; right; exact H1|right; exists r, fs'; split; [right|]; assumption].
Qed.


End OrchestratorFacts.

Section RunFacts.
Import Str Orchestrator Generators.

Lemma returned_paths_nil (dir : string)
    (outs : list (SlideSpec * (PyExn + SlideDesignResult))) :
  returned_paths dir outs = [] <-> forall slide r, ~ In (slide, inr r) outs.
Proof.
  induction outs as [|[s o] outs IH]; unfold returned_paths; cbn [flat_map fst snd].
  - split; [intros _ slide r []|reflexivity].
  - destruct o as [e|r]; cbn.
    + fold (returned_paths dir outs). rewrite IH. split.
      * intros H slide r [Hin|Hin]; [discriminate|]. exact (H slide r Hin).
      * intros H slide r Hin. apply (H slide r). right. exact Hin.
    + split; [discriminate|]. intros H. exfalso. apply (H s r). left. reflexivity.
Qed.

Lemma raised_messages_nil
    (outs : list (SlideSpec * (PyExn + SlideDesignResult))) :
  raised_messages outs = [] <-> forall slide e, ~ In (slide, inl e) outs.
Proof.
  induction outs as [|[s o] outs IH]; unfold raised_messages; cbn [flat_map fst snd].
  - split; [intros _ slide e []|reflexivity].
  - destruct o as [e|r]; cbn.
    + split; [discriminate|]. intros H. exfalso. apply (H s e). left. reflexivity.
    + fold (raised_messages outs). rewrite IH. split.
      * intros H slide e [Hin|Hin]; [discriminate|]. exact (H slide e Hin).
      * intros H slide e Hin. apply (H slide e). right. exact Hin.
Qed.


(** The build succeeds exactly when the converter exits with code 0 and
    its output file exists; a successful build reports no error. *)
Lemma build_success_iff {St : Type} (env : Env St) (fs : gmap string string)
    (slides_dir build_dir title : string) :
  (build_success (_build_pptx env fs slides_dir build_dir title) = true
   <-> exists stderr,
         converter env fs slides_dir
           (path_join build_dir (take 50 (map_chars safe_char title) +:+ ".pptx"))
         = Exited 0 stderr true)
  /\ (build_success (_build_pptx env fs slides_dir build_dir title) = true ->
      build_errors (_build_pptx env fs slides_dir build_dir title) = []).
Proof.
  unfold _build_pptx.
  destruct (converter env fs slides_dir _) as [|rc stderr ex|ex|e ex]; cbn.
  - split; [split; [discriminate|intros [? H]; discriminate]|discriminate].
  - destruct (rc =? 0) eqn:E; cbn.
    + apply Z.eqb_eq in E. subst rc. destruct ex; cbn.
      * split; [split; eauto|reflexivity].
      * split; [split; [discriminate|intros [? H]; discriminate]|discriminate].
    + split; [split; [discriminate|]|discriminate].
      intros [? H]. injection H as -> _ _. discriminate.
  - split; [split; [discriminate|intros [? H]; discriminate]|discriminate].
  - split; [split; [discriminate|intros [? H]; discriminate]|discriminate].
Qed.

Lemma returned_paths_some (dir : string)
    (outs : list (SlideSpec * (PyExn + SlideDesignResult))) :
  returned_paths dir outs <> [] -> exists slide r, In (slide, inr r) outs.
Proof.
  induction outs as [|[s o] outs IH]; unfold returned_paths; cbn [flat_map fst snd].
  - intros H. contradiction.
  - destruct o as [e|r]; cbn.
    + intros H. destruct (IH H) as (slide & r & Hin). exists slide, r. right. exact Hin.
    + intros _. exists s, r. left. reflexivity.
Qed.

(** The three lists after the design loop, read off the outcomes. *)
Lemma after_design_state {St : Type} (env : Env St)
    (output_base_dir output_name : string) (slide_plan : SlidePlan)
    (st : St) (fs : gmap string string) :
  html_files (after_design env output_base_dir output_name slide_plan st fs)
    = returned_paths (path_join (path_join output_base_dir output_name) "slides")
        (loop_outcomes env output_base_dir output_name slide_plan st fs)
  /\ ph_errors (after_design env output_base_dir output_name slide_plan st fs)
     = raised_messages
         (loop_outcomes env output_base_dir output_name slide_plan st fs)
  /\ ph_warnings (after_design env output_base_dir output_name slide_plan st fs)
     = warning_messages (design_outcomes env (slides slide_plan) st).
Proof.
  unfold after_design, design_phase, loop_outcomes.
  match goal with
  | |- context [fold_left (design_one env ?d) ?sl ?ph] =>
      destruct (design_phase_state env d sl ph) as (H1 & H2 & H3)
  end.
  rewrite H1, H2, H3. auto.
Qed.

(** C3 (amended).  A run that reaches the design phase has
    [success = true] exactly when the render step succeeds, the HTML of
    at least one slide was written, and no pass through the [try] body of
    the design loop raised an exception, be it in [design_slide] or in
    writing the slide's file.  Results whose [validation_passed] is false
    count as designed: they add warnings only.  A pass raised when its
    design call raised, and otherwise only when the design call returned
    a result and the write of its HTML raised. *)
Theorem success_iff_render_and_no_exception {St : Type} (env : Env St)
    (output_base_dir output_name : string) (slide_plan : SlidePlan)
    (st : St) (fs : gmap string string) :
  (success (generate_presentation env output_base_dir output_name
              (inr tt) (inr slide_plan) st fs).1.1 = true
   <-> render_succeeds env output_base_dir output_name slide_plan st fs = true
       /\ (exists slide r,
             In (slide, inr r)
                (loop_outcomes env output_base_dir output_name slide_plan st fs))
       /\ (forall slide e,
             ~ In (slide, inl e)
                  (loop_outcomes env output_base_dir output_name slide_plan
                     st fs)))
  /\ (forall slide e,
        In (slide, inl e) (design_outcomes env (slides slide_plan) st) ->
        In (slide, inl e)
           (loop_outcomes env output_base_dir output_name slide_plan st fs))
  /\ (forall slide e,
        In (slide, inl e)
           (loop_outcomes env output_base_dir output_name slide_plan st fs) ->
        In (slide, inl e) (design_outcomes env (slides slide_plan) st)
        \/ exists r fs',
             In (slide, inr r) (design_outcomes env (slides slide_plan) st)
             /\ write_error env fs'
                  (html_path_of
                     (path_join (path_join output_base_dir output_name)
                        "slides") slide)
                  (html_content r) = Some e)
  /\ (forall slide r,
        In (slide, inr r)
           (loop_outcomes env output_base_dir output_name slide_plan st fs) ->
        In (slide, inr r) (design_outcomes env (slides slide_plan) st)).
Proof.
  split; [|split; [|split]].
  2:{ intros slide e. apply design_raised_is_caught. }
  2:{ intros slide e. apply caught_is_design_or_write. }
  2:{ intros slide r. apply slide_outcomes_returned. }
  unfold generate_presentation, design_stage, render_succeeds.
  destruct (after_design_state env output_base_dir output_name slide_plan st fs)
    as (Hfiles & Herrs & _).
  set (ph := after_design env output_base_dir output_name slide_plan st fs) in *.
  set (outs := loop_outcomes env output_base_dir output_name slide_plan st fs) in *.
  rewrite <- (raised_messages_nil outs), <- Herrs.
  destruct (html_files ph) as [|f fl] eqn:Ef.
  - cbn. split; [discriminate|]. intros (_ & (slide & r & Hin) & _).
    symmetry in Hfiles.
    destruct (proj1 (returned_paths_nil _ _) Hfiles slide r Hin).
  - cbn [fst success].
    set (b := _build_pptx env (ph_fs ph) _ _ _).
    assert (Hb : build_success b = true -> build_errors b = [])
      by apply build_success_iff.
    assert (Hsome : exists slide r, In (slide, inr r) outs).
    { apply (returned_paths_some
               (path_join (path_join output_base_dir output_name) "slides")).
      rewrite <- Hfiles. discriminate. }
    split.
    + intros H. apply andb_true_iff in H as [Hs He].
      split; [exact Hs|]. split; [exact Hsome|].
      rewrite (Hb Hs) in He. apply Nat.eqb_eq in He.
      destruct (ph_errors ph); [reflexivity|discriminate].
    + intros (Hs & _ & He). rewrite Hs, (Hb Hs), He. reflexivity.
Qed.

End RunFacts.


Section RunClaims.
Import Str Designer Orchestrator Generators Runs.

(** C3 as stated fails: one slide is designed, the render succeeds, and
    [success] is false because the design of the other slide raised. *)
Lemma partial_run_is_not_success :
  success (generate_presentation flaky_env "out" "deck" (inr tt)
             (inr two_slide_plan) 0%nat no_files).1.1 = false
  /\ slide_count (generate_presentation flaky_env "out" "deck" (inr tt)
                    (inr two_slide_plan) 0%nat no_files).1.1 = 1
  /\ render_succeeds flaky_env "out" "deck" two_slide_plan 0%nat no_files = true
  /\ pptx_path (generate_presentation flaky_env "out" "deck" (inr tt)
                  (inr two_slide_plan) 0%nat no_files).1.1
     = Some "out/deck/build/Deck.pptx"
  /\ errors (generate_presentation flaky_env "out" "deck" (inr tt)
               (inr two_slide_plan) 0%nat no_files).1.1
     = ["Failed to design slide s02: rate limit exceeded"].
Proof. repeat split; vm_compute; reflexivity. Qed.

(** The same with a slide whose file cannot be written: both design calls
    return, the file name of the second slide leads below the slides
    directory, and [success] is false although the render succeeded. *)
Lemma unwritten_slide_is_not_success :
  map snd (design_outcomes flat_env (slides nested_plan) tt)
  = [inr (mkSlideDesignResult "s01" "no html here" false
            (_validate_html "no html here" example_slide));
     inr (mkSlideDesignResult "a/b" "no html here" false
            (_validate_html "no html here" nested_slide))]
  /\ success (generate_presentation flat_env "out" "deck" (inr tt)
                (inr nested_plan) tt no_files).1.1 = false
  /\ slide_count (generate_presentation flat_env "out" "deck" (inr tt)
                    (inr nested_plan) tt no_files).1.1 = 1
  /\ render_succeeds flat_env "out" "deck" nested_plan tt no_files = true
  /\ errors (generate_presentation flat_env "out" "deck" (inr tt)
               (inr nested_plan) tt no_files).1.1
     = ["Failed to design slide a/b: [Errno 2] No such file or directory: "
          +:+ "'out/deck/slides/02_a/b.html'"]
  /\ (generate_presentation flat_env "out" "deck" (inr tt)
        (inr nested_plan) tt no_files).2 !! "out/deck/slides/02_a/b.html" = None.
Proof. repeat split; vm_compute; reflexivity. Qed.




End RunClaims.

(* ===================================================================== *)
(** * Uploads and removals *)
(* ===================================================================== *)


Section UploadFacts.
Import Str Backend.
Context (env : Env).

(** C8.  When the content is larger than the configured maximum, or the
    file has a filename whose lower-cased suffix is not an allowed
    extension, [process_upload] raises [ImageValidationError] and the
    world it leaves is the one it found: no file has been written, and
    the session catalog's artifact list and count and the session's
    [uploaded_images] are as before. *)
Theorem rejected_upload_changes_nothing (w : World) (session : ref)
    (file : UploadFile) (title_arg : option string) (description_arg : string)
    (tags_arg : option (list string)) (hex8 : string) :
  MAX_FILE_SIZE env < Z.of_nat (length (content file))
  \/ (exists name, truthy (filename file) = Some name
        /\ str_in (lower (path_suffix env name)) (ALLOWED_EXTENSIONS env) = false) ->
  exists why,
    process_upload env w session file title_arg description_arg tags_arg hex8
      = Some (w, inl (ImageValidationError why))
    /\ validate_file env file (content file) = inl (ImageValidationError why).
Proof.
  intros H. unfold process_upload.
  assert (Hv : exists why, validate_file env file (content file)
                           = inl (ImageValidationError why)).
  { unfold validate_file.
    destruct (MAX_FILE_SIZE env <? Z.of_nat (length (content file))) eqn:E.
    - eauto.
    - apply Z.ltb_ge in E. destruct H as [H|(name & Hn & Hext)]; [lia|].
      rewrite Hn, Hext. cbn. eauto. }
  destruct Hv as [why Hv]. rewrite Hv. eauto.
Qed.

(** The scan of [remove_artifact] ends when every reference has an
    object, and a hit is the first artifact with the id. *)
Lemma find_artifact_total (w : World) (aid : string) (refs : list ref) (i0 : nat) :
  (forall a, In a refs -> is_Some (artifact_objs w !! a)) ->
  exists found, find_artifact w aid refs i0 = Some found
    /\ match found with
       | Some (i, obj) =>
           (i0 <= i)%nat
           /\ exists r, refs !! (i - i0)%nat = Some r
                /\ artifact_objs w !! r = Some obj
                /\ artifact_id obj = aid
       | None => True
       end.
Proof.
  revert i0. induction refs as [|r refs IH]; intros i0 Hall; simpl.
  - exists None. auto.
  - destruct (Hall r (or_introl eq_refl)) as [obj Hobj]. rewrite Hobj. simpl.
    destruct (String.eqb (artifact_id obj) aid) eqn:E.
    + exists (Some (i0, obj)). split; [reflexivity|]. split; [lia|].
      exists r. rewrite Nat.sub_diag. apply String.eqb_eq in E. auto.
    + destruct (IH (S i0)) as (found & Hf & Hspec).
      { intros a Ha. apply Hall. right. exact Ha. }
      exists found. split; [exact Hf|].
      destruct found as [[i o]|]; [|exact I].
      destruct Hspec as (Hle & r' & Hr' & Ho & Hid).
      split; [lia|]. exists r'. split; [|auto].
      replace (i - i0)%nat with (S (i - S i0)) by lia. exact Hr'.
Qed.

(** C10.  Let a session's catalog satisfy
    [artifact_count = len(artifacts)].  A successful [process_upload]
    appends exactly one artifact and adds one to the count; a
    [remove_artifact] that returns true removes exactly one artifact, the
    first with the given id, and subtracts one from the count; one that
    returns false changes nothing.  In each case the equality holds
    afterwards. *)
Theorem upload_and_removal_keep_count (w : World) (session : ref)
    (s : Session) (cat : ArtifactCatalog) :
  session_objs w !! session = Some s ->
  catalog_objs w !! catalog s = Some cat ->
  (forall a, In a (artifacts cat) -> is_Some (artifact_objs w !! a)) ->
  artifact_count cat = Z.of_nat (length (artifacts cat)) ->
  (forall file title_arg description_arg tags_arg hex8,
      validate_file env file (content file) = inr tt ->
      exists w' a cat',
        process_upload env w session file title_arg description_arg tags_arg hex8
          = Some (w', inr a)
        /\ catalog_objs w' !! catalog s = Some cat'
        /\ artifacts cat' = artifacts cat ++ [a]
        /\ artifact_count cat' = artifact_count cat + 1
        /\ artifact_count cat' = Z.of_nat (length (artifacts cat')))
  /\ (forall aid,
        exists w' removed cat',
          remove_artifact env w session aid = Some (w', removed)
          /\ catalog_objs w' !! catalog s = Some cat'
          /\ artifact_count cat' = Z.of_nat (length (artifacts cat'))
          /\ (removed = true ->
              exists i r obj,
                artifacts cat !! i = Some r
                /\ artifact_objs w !! r = Some obj
                /\ artifact_id obj = aid
                /\ artifacts cat' = base.delete i (artifacts cat)
                /\ (length (artifacts cat') + 1)%nat = length (artifacts cat)
                /\ artifact_count cat' = artifact_count cat - 1)
          /\ (removed = false -> w' = w /\ cat' = cat)).
Proof.
  intros Hs Hc Hall Hcount. split.
  - intros file title_arg description_arg tags_arg hex8 Hv.
    unfold process_upload. rewrite Hv, Hs. cbn.
    rewrite Hc. cbn.
    eexists _, _, _. split; [reflexivity|]. cbn.
    rewrite lookup_insert_eq. split; [reflexivity|]. cbn.
    split; [reflexivity|]. split; [reflexivity|].
    rewrite length_app. cbn. lia.
  - intros aid. unfold remove_artifact. rewrite Hs. cbn.
    destruct (str_in aid (uploaded_images s)); cbn.
    2:{ exists w, false, cat. repeat split; auto. discriminate. }
    rewrite Hc. cbn.
    destruct (find_artifact_total w aid (artifacts cat) 0 Hall)
      as (found & -> & Hspec). cbn.
    destruct found as [[i obj]|].
    + destruct Hspec as (_ & r & Hr & Ho & Hid).
      rewrite Nat.sub_0_r in Hr.
      eexists _, true, _. split; [reflexivity|]. cbn.
      rewrite lookup_insert_eq. split; [reflexivity|]. cbn.
      assert (Hlen : (length (base.delete i (artifacts cat)) + 1)%nat
                     = length (artifacts cat)).
      { rewrite length_delete by eauto.
        apply lookup_lt_Some in Hr. lia. }
      split; [lia|]. split; [|discriminate].
      intros _. exists i, r, obj. repeat split; auto.
    + exists w, false, cat. repeat split; auto. discriminate.
Qed.

End UploadFacts.

(* ===================================================================== *)
(** * Session catalogs: what is copied, what is shared, what is isolated *)
(* ===================================================================== *)

Section CatalogFacts.
Import Str Backend SpecSide.
Context (env : Env).


Lemma objects_kept_refl (w : World) : objects_kept w w.
Proof. split; auto. Qed.

Lemma objects_kept_trans (w1 w2 w3 : World) :
  objects_kept w1 w2 -> objects_kept w2 w3 -> objects_kept w1 w3.
Proof. intros [A1 T1] [A2 T2]. split; auto. Qed.

Lemma fresh_lookup_None {V : Type} (m : gmap ref V) : m !! fresh (dom m) = None.
Proof. apply not_elem_of_dom. apply is_fresh. Qed.

Lemma insert_fresh_kept {V : Type} (m : gmap ref V) (v : V) (k : ref) (x : V) :
  m !! k = Some x -> <[fresh (dom m) := v]> m !! k = Some x.
Proof.
  intros H. rewrite lookup_insert_ne; [exact H|].
  intros E. rewrite <- E, fresh_lookup_None in H. discriminate.
Qed.

Lemma new_artifact_kept (w : World) (a : Artifact ref) :
  objects_kept w (new_artifact w a).2.
Proof. split; cbn; [intros; apply insert_fresh_kept|]; auto. Qed.

Lemma new_tag_list_kept (w : World) (l : list string) :
  objects_kept w (new_tag_list w l).2.
Proof. split; cbn; [|intros; apply insert_fresh_kept]; auto. Qed.

Lemma artifact_data_kept (w w' : World) (a : ref) (d : Artifact (list string)) :
  objects_kept w w' -> artifact_data w a = Some d -> artifact_data w' a = Some d.
Proof.
  intros [HA HT]. unfold artifact_data. intros H.
  destruct (artifact_objs w !! a) as [obj|] eqn:Eo; [|discriminate]. cbn in H.
  destruct (tag_lists w !! tags obj) as [t|] eqn:Et; [|discriminate].
  rewrite (HA _ _ Eo). cbn. rewrite (HT _ _ Et). exact H.
Qed.

(** The data a catalog denotes does not change while its own object and
    the objects it reaches are kept. *)
Lemma catalog_data_kept (w w' : World) (c : ref) (d : CatalogData) :
  objects_kept w w' ->
  catalog_objs w' !! c = catalog_objs w !! c ->
  catalog_data w c = Some d -> catalog_data w' c = Some d.
Proof.
  intros Hk Hc. unfold catalog_data. rewrite Hc.
  destruct (catalog_objs w !! c) as [cat|]; [|discriminate]. cbn.
  destruct (mapM (artifact_data w) (artifacts cat)) as [ds|] eqn:E; [|discriminate].
  cbn. intros H.
  assert (E' : mapM (artifact_data w') (artifacts cat) = Some ds).
  { apply mapM_Some. apply mapM_Some in E.
    eapply Forall2_impl; [exact E|]. intros a x. apply artifact_data_kept, Hk. }
  rewrite E'. exact H.
Qed.

Lemma process_upload_kept (w w' : World) (session : ref) (s : Session)
    (file : UploadFile) title_arg description_arg tags_arg hex8 res :
  session_objs w !! session = Some s ->
  process_upload env w session file title_arg description_arg tags_arg hex8
    = Some (w', res) ->
  objects_kept w w'
  /\ (forall c, c <> catalog s -> catalog_objs w' !! c = catalog_objs w !! c)
  /\ _base_catalog w' = _base_catalog w.
Proof.
  intros Hs. unfold process_upload.
  destruct (validate_file env file (content file)) as [e|[]].
  - intros H. injection H as <- _. split; [apply objects_kept_refl|]. auto.
  - rewrite Hs. cbn.
    destruct (catalog_objs w !! catalog s) as [cat|]; [|discriminate]. cbn.
    intros H. injection H as <- _. split; [|split].
    + split; cbn.
      * intros a obj Ha. apply insert_fresh_kept. exact Ha.
      * intros t l Ht. apply insert_fresh_kept. exact Ht.
    + intros c Hne. cbn. apply lookup_insert_ne. auto.
    + reflexivity.
Qed.

Lemma remove_artifact_kept (w w' : World) (session : ref) (s : Session)
    (aid : string) (removed : bool) :
  session_objs w !! session = Some s ->
  remove_artifact env w session aid = Some (w', removed) ->
  objects_kept w w'
  /\ (forall c, c <> catalog s -> catalog_objs w' !! c = catalog_objs w !! c)
  /\ _base_catalog w' = _base_catalog w.
Proof.
  intros Hs. unfold remove_artifact. rewrite Hs. cbn.
  destruct (str_in aid (uploaded_images s)); cbn.
  2:{ intros H. injection H as <- _. split; [apply objects_kept_refl|]. auto. }
  destruct (catalog_objs w !! catalog s) as [cat|]; [|discriminate]. cbn.
  destruct (find_artifact w aid (artifacts cat) 0) as [[[i obj]|]|]; cbn;
    [| |discriminate].
  - intros H. injection H as <- _. split; [split; cbn; auto|]. split.
    + intros c Hne. cbn. apply lookup_insert_ne. auto.
    + reflexivity.
  - intros H. injection H as <- _. split; [apply objects_kept_refl|]. auto.
Qed.

(** Catalog isolation.  An upload into a session, or a removal from it,
    leaves every catalog other than the session's own as it was: the
    same object, denoting the same data. *)
Theorem mutations_leave_other_catalogs (w w' : World) (session : ref)
    (s : Session) (c : ref) (d : CatalogData) :
  session_objs w !! session = Some s ->
  c <> catalog s ->
  catalog_data w c = Some d ->
  (forall file title_arg description_arg tags_arg hex8 res,
      process_upload env w session file title_arg description_arg tags_arg hex8
        = Some (w', res) ->
      catalog_objs w' !! c = catalog_objs w !! c /\ catalog_data w' c = Some d)
  /\ (forall aid removed,
        remove_artifact env w session aid = Some (w', removed) ->
        catalog_objs w' !! c = catalog_objs w !! c /\ catalog_data w' c = Some d).
Proof.
  intros Hs Hne Hd. split.
  - intros file title_arg description_arg tags_arg hex8 res H.
    destruct (process_upload_kept _ _ _ _ _ _ _ _ _ _ Hs H) as (Hk & Hc & _).
    split; [auto|]. apply (catalog_data_kept w); auto.
  - intros aid removed H.
    destruct (remove_artifact_kept _ _ _ _ _ _ Hs H) as (Hk & Hc & _).
    split; [auto|]. apply (catalog_data_kept w); auto.
Qed.

End CatalogFacts.

Section SessionCatalogFacts.
Import Str Backend SpecSide.
Context (env : Env).

Lemma construct_artifacts_kept (w : World) (ds : list (Artifact (list string))) :
  objects_kept w (construct_artifacts w ds).2
  /\ catalog_objs (construct_artifacts w ds).2 = catalog_objs w.
Proof.
  revert w. induction ds as [|d ds IH]; intros w.
  - split; [apply objects_kept_refl | reflexivity].
  - cbn [construct_artifacts].
    destruct (construct_artifact w d) as [r w2] eqn:E2.
    destruct (construct_artifacts w2 ds) as [rs w3] eqn:E3. cbn [snd].
    assert (K12 : objects_kept w w2 /\ catalog_objs w2 = catalog_objs w).
    { unfold construct_artifact in E2. cbn in E2. injection E2 as _ <-.
      split; [|reflexivity].
      split; cbn; intros; apply insert_fresh_kept; assumption. }
    destruct K12 as [K12 C12].
    destruct (IH w2) as [K3 C3]. rewrite E3 in K3, C3. cbn [snd] in K3, C3.
    split; [eapply objects_kept_trans; eauto|].
    rewrite C3. exact C12.
Qed.

(** [_load_base_catalog] caches: afterwards the base catalog is set, and
    nothing that existed has changed. *)
Lemma load_base_catalog_spec (w w1 : World) (b : ref) :
  _load_base_catalog env w = (b, w1) ->
  _base_catalog w1 = Some b
  /\ objects_kept w w1
  /\ (forall c x, catalog_objs w !! c = Some x -> catalog_objs w1 !! c = Some x).
Proof.
  unfold _load_base_catalog.
  destruct (_base_catalog w) as [b0|] eqn:Eb.
  - intros H. injection H as <- <-. split; [exact Eb|].
    split; [apply objects_kept_refl|auto].
  - destruct (base_catalog_file env) as [[count ds]|].
    + destruct (construct_artifacts w ds) as [rs w0] eqn:E.
      destruct (construct_artifacts_kept w ds) as [K C]. rewrite E in K, C.
      cbn in K, C. cbn. intros H. injection H as <- <-. cbn.
      split; [reflexivity|]. split.
      * destruct K as [KA KT]. split; cbn; auto.
      * intros c x Hc. rewrite <- C in Hc. apply insert_fresh_kept. exact Hc.
    + cbn. intros H. injection H as <- <-. cbn.
      split; [reflexivity|]. split; [split; cbn; auto|].
      intros c x Hc. apply insert_fresh_kept. exact Hc.
Qed.

(** Each copy made by [model_copy] is a new artifact object whose fields,
    the reference to the [tags] list included, are those of the
    original. *)
Lemma model_copy_all_spec (w w' : World) (l rs : list ref) :
  model_copy_all w l = Some (rs, w') ->
  objects_kept w w'
  /\ tag_lists w' = tag_lists w
  /\ catalog_objs w' = catalog_objs w
  /\ _base_catalog w' = _base_catalog w
  /\ Forall2 (fun a r => r <> a
                /\ exists obj, artifact_objs w' !! a = Some obj
                     /\ artifact_objs w' !! r = Some obj) l rs.
Proof.
  revert w w' rs. induction l as [|a l IH]; intros w w' rs; cbn.
  - intros H. injection H as <- <-.
    split; [apply objects_kept_refl|]. repeat split; auto.
  - unfold model_copy.
    destruct (artifact_objs w !! a) as [obj|] eqn:Ea; [|discriminate]. cbn.
    destruct (model_copy_all _ l) as [[rs0 w2]|] eqn:E; [|discriminate].
    cbn. intros H. injection H as <- <-.
    destruct (IH _ _ _ E) as (K & T & C & B & F).
    pose proof (new_artifact_kept w obj) as K0.
    split; [eapply objects_kept_trans; eauto|].
    split; [rewrite T; reflexivity|]. split; [rewrite C; reflexivity|].
    split; [rewrite B; reflexivity|].
    constructor; [|exact F]. split.
    + intros Heq. rewrite <- Heq, fresh_lookup_None in Ea. discriminate.
    + exists obj. destruct K as [KA _]. split.
      * apply KA. cbn. apply insert_fresh_kept. exact Ea.
      * apply KA. cbn. apply lookup_insert_eq.
Qed.

Lemma mapM_pointwise {A B : Type} (f : A -> option B) (l k : list A) :
  Forall2 (fun a r => f r = f a) l k -> mapM f k = mapM f l.
Proof.
  induction 1 as [|a r l k H F IH]; [reflexivity|].
  cbn. rewrite H, IH. reflexivity.
Qed.

(** What [_create_session_catalog] builds: a catalog object that did not
    exist before and differs from the base catalog, with the base's
    count and one new artifact object per base artifact, equal to it
    field by field; so it denotes the same data as the base catalog.
    Copy and original hold the same reference in [tags]. *)
Theorem session_catalog_is_a_shallow_copy (w w' : World) (c : ref) :
  _create_session_catalog env w = Some (c, w') ->
  exists b base cat,
    _base_catalog w' = Some b
    /\ catalog_objs w' !! b = Some base
    /\ catalog_objs w' !! c = Some cat
    /\ c <> b
    /\ (forall c0, is_Some (catalog_objs w !! c0) -> c <> c0)
    /\ artifact_count cat = artifact_count base
    /\ Forall2 (fun a r => r <> a
                  /\ exists obj, artifact_objs w' !! a = Some obj
                       /\ artifact_objs w' !! r = Some obj)
         (artifacts base) (artifacts cat)
    /\ catalog_data w' c = catalog_data w' b.
Proof.
  unfold _create_session_catalog.
  destruct (_load_base_catalog env w) as [b w1] eqn:El.
  destruct (load_base_catalog_spec _ _ _ El) as (Hb & K1 & C1).
  destruct (catalog_objs w1 !! b) as [base|] eqn:Ebase; [|discriminate]. cbn.
  destruct (model_copy_all w1 (artifacts base)) as [[copies w2]|] eqn:Ec;
    [|discriminate].
  cbn. intros H. injection H as <- <-.
  destruct (model_copy_all_spec _ _ _ _ Ec) as (K2 & T2 & C2 & B2 & F).
  assert (Hfresh : catalog_objs w2 !! fresh (dom (catalog_objs w2)) = None)
    by apply fresh_lookup_None.
  assert (Hne : fresh (dom (catalog_objs w2)) <> b).
  { intros E. rewrite E, C2, Ebase in Hfresh. discriminate. }
  exists b, base, (mkArtifactCatalog (artifact_count base) copies).
  split; [cbn; rewrite B2; exact Hb|].
  split; [cbn; rewrite lookup_insert_ne by exact Hne; rewrite C2; exact Ebase|].
  split; [cbn; apply lookup_insert_eq|]. split; [exact Hne|].
  split.
  { intros c0 [x Hx] E. apply C1 in Hx. rewrite <- C2, <- E, Hfresh in Hx.
    discriminate. }
  split; [reflexivity|]. split; [exact F|].
  unfold catalog_data. cbn.
  rewrite lookup_insert_eq, lookup_insert_ne by exact Hne.
  rewrite C2, Ebase. cbn. f_equal.
  - apply (mapM_pointwise
             (artifact_data
                (with_catalog_objs w2
                   (<[fresh (dom (catalog_objs w2)) :=
                        mkArtifactCatalog (artifact_count base) copies]>
                      (catalog_objs w2))))).
    eapply Forall2_impl; [exact F|]. intros a r (_ & obj & Ha & Hr).
    unfold artifact_data. cbn. rewrite Ha, Hr. reflexivity.
Qed.

End SessionCatalogFacts.

Section DeploymentFacts.
Import Str Backend Deployment.

(** A text file is refused for its extension, and one byte is too much
    under a limit of zero. *)
Lemma rejected_upload_changes_nothing_witness :
  (truthy (filename text_file) = Some "notes.txt"
   /\ str_in (lower (path_suffix env "notes.txt")) (ALLOWED_EXTENSIONS env) = false
   /\ exists why,
        process_upload env one_session_world 0%nat text_file None "" None "deadbeef"
          = Some (one_session_world, inl (ImageValidationError why))
        /\ validate_file env text_file (content text_file)
           = inl (ImageValidationError why))
  /\ (MAX_FILE_SIZE strict_env < Z.of_nat (length (content one_byte_png))
      /\ exists why,
           process_upload strict_env one_session_world 0%nat one_byte_png None ""
             None "deadbeef"
             = Some (one_session_world, inl (ImageValidationError why))
           /\ validate_file strict_env one_byte_png (content one_byte_png)
              = inl (ImageValidationError why)).
Proof.
  split.
  - split; [reflexivity|]. split; [vm_compute; reflexivity|].
    apply (rejected_upload_changes_nothing env one_session_world 0%nat text_file).
    right. exists "notes.txt". split; vm_compute; reflexivity.
  - split; [vm_compute; reflexivity|].
    apply (rejected_upload_changes_nothing strict_env one_session_world 0%nat
             one_byte_png).
    left. vm_compute. reflexivity.
Defined.


(** An upload into the session of the example, then its removal. *)
Lemma upload_and_removal_keep_count_witness :
  (session_objs one_session_world !! 0%nat = Some session_a
   /\ catalog_objs one_session_world !! catalog session_a = Some session_a_catalog
   /\ artifact_count session_a_catalog
      = Z.of_nat (length (artifacts session_a_catalog))
   /\ exists w' a cat',
        process_upload env one_session_world 0%nat png_file None "" None "deadbeef"
          = Some (w', inr a)
        /\ catalog_objs w' !! catalog session_a = Some cat'
        /\ artifacts cat' = artifacts session_a_catalog ++ [a]
        /\ artifact_count cat' = artifact_count session_a_catalog + 1
        /\ artifact_count cat' = Z.of_nat (length (artifacts cat')))
  /\ (session_objs uploaded_world !! 0%nat = Some session_a_uploaded
      /\ catalog_objs uploaded_world !! catalog session_a_uploaded
         = Some session_a_catalog_uploaded
      /\ snd <$> remove_artifact env uploaded_world 0%nat "user_upload_deadbeef"
         = Some true
      /\ exists w' removed cat',
           remove_artifact env uploaded_world 0%nat "user_upload_deadbeef"
             = Some (w', removed)
           /\ catalog_objs w' !! catalog session_a_uploaded = Some cat'
           /\ artifact_count cat' = Z.of_nat (length (artifacts cat'))
           /\ (removed = true ->
               exists i r obj,
                 artifacts session_a_catalog_uploaded !! i = Some r
                 /\ artifact_objs uploaded_world !! r = Some obj
                 /\ artifact_id obj = "user_upload_deadbeef"
                 /\ artifacts cat' = base.delete i (artifacts session_a_catalog_uploaded)
                 /\ (length (artifacts cat') + 1)%nat
                    = length (artifacts session_a_catalog_uploaded)
                 /\ artifact_count cat'
                    = artifact_count session_a_catalog_uploaded - 1)
           /\ (removed = false ->
               w' = uploaded_world /\ cat' = session_a_catalog_uploaded)).
Proof.
  split.
  - assert (H1 : session_objs one_session_world !! 0%nat = Some session_a)
      by (vm_compute; reflexivity).
    assert (H2 : catalog_objs one_session_world !! catalog session_a
                 = Some session_a_catalog) by (vm_compute; reflexivity).
    assert (H3 : forall a, In a (artifacts session_a_catalog) ->
                   is_Some (artifact_objs one_session_world !! a)).
    { intros a [<-|[]]. vm_compute. eauto. }
    assert (H4 : artifact_count session_a_catalog
                 = Z.of_nat (length (artifacts session_a_catalog))) by reflexivity.
    split; [exact H1|]. split; [exact H2|]. split; [exact H4|].
    apply (proj1 (upload_and_removal_keep_count env one_session_world 0%nat
                    session_a session_a_catalog H1 H2 H3 H4)).
    vm_compute. reflexivity.
  - assert (H1 : session_objs uploaded_world !! 0%nat = Some session_a_uploaded)
      by (vm_compute; reflexivity).
    assert (H2 : catalog_objs uploaded_world !! catalog session_a_uploaded
                 = Some session_a_catalog_uploaded) by (vm_compute; reflexivity).
    assert (H3 : forall a, In a (artifacts session_a_catalog_uploaded) ->
                   is_Some (artifact_objs uploaded_world !! a)).
    { intros a [<-|[<-|[]]]; vm_compute; eauto. }
    assert (H4 : artifact_count session_a_catalog_uploaded
                 = Z.of_nat (length (artifacts session_a_catalog_uploaded)))
      by reflexivity.
    split; [exact H1|]. split; [exact H2|].
    split; [vm_compute; reflexivity|].
    apply (proj2 (upload_and_removal_keep_count env uploaded_world 0%nat
                    session_a_uploaded session_a_catalog_uploaded H1 H2 H3 H4)).
Defined.

(** The upload of the example leaves the base catalog as it was. *)
Lemma mutations_leave_other_catalogs_witness :
  session_objs one_session_world !! 0%nat = Some session_a
  /\ 0%nat <> catalog session_a
  /\ catalog_data one_session_world 0%nat = Some (1, [kpi_chart])
  /\ process_upload env one_session_world 0%nat png_file None "" None "deadbeef"
     = Some (uploaded_world, inr 2%nat)
  /\ catalog_objs uploaded_world !! 0%nat = catalog_objs one_session_world !! 0%nat
  /\ catalog_data uploaded_world 0%nat = Some (1, [kpi_chart]).
Proof.
  assert (H1 : session_objs one_session_world !! 0%nat = Some session_a)
    by (vm_compute; reflexivity).
  assert (H2 : 0%nat <> catalog session_a) by (cbn; lia).
  assert (H3 : catalog_data one_session_world 0%nat = Some (1, [kpi_chart]))
    by (vm_compute; reflexivity).
  assert (H4 : process_upload env one_session_world 0%nat png_file None "" None
                 "deadbeef" = Some (uploaded_world, inr 2%nat))
    by (vm_compute; reflexivity).
  split; [exact H1|]. split; [exact H2|]. split; [exact H3|]. split; [exact H4|].
  exact (proj1 (mutations_leave_other_catalogs env one_session_world uploaded_world
                  0%nat session_a 0%nat (1, [kpi_chart]) H1 H2 H3)
           png_file None "" None "deadbeef" (inr 2%nat) H4).
Defined.

(** The first session catalog of the example deployment. *)
Lemma session_catalog_is_a_shallow_copy_witness :
  _create_session_catalog env empty_world = Some (1%nat, first_catalog_world)
  /\ exists b base cat,
       _base_catalog first_catalog_world = Some b
       /\ catalog_objs first_catalog_world !! b = Some base
       /\ catalog_objs first_catalog_world !! 1%nat = Some cat
       /\ 1%nat <> b
       /\ (forall c0, is_Some (catalog_objs empty_world !! c0) -> 1%nat <> c0)
       /\ artifact_count cat = artifact_count base
       /\ Forall2 (fun a r => r <> a
                     /\ exists obj, artifact_objs first_catalog_world !! a = Some obj
                          /\ artifact_objs first_catalog_world !! r = Some obj)
            (artifacts base) (artifacts cat)
       /\ catalog_data first_catalog_world 1%nat = catalog_data first_catalog_world b.
Proof.
  assert (H : _create_session_catalog env empty_world
              = Some (1%nat, first_catalog_world)) by (vm_compute; reflexivity).
  split; [exact H|].
  exact (session_catalog_is_a_shallow_copy env empty_world first_catalog_world
           1%nat H).
Defined.

(** C7, the copy at work.  The base catalog holds one chart with two
    tags.  After [create_session] the session's catalog is a second
    catalog object with a second artifact object, but both artifact
    objects refer to one and the same [tags] list: the copy made by
    [model_copy()] is shallow, not deep, and appending a tag through the
    session's artifact changes what the base catalog denotes. *)
Theorem session_copy_shares_tag_list :
  _base_catalog one_session_world = Some 0%nat
  /\ catalog_objs one_session_world !! 0%nat = Some (mkArtifactCatalog 1 [0%nat])
  /\ catalog <$> session_objs one_session_world !! 0%nat = Some 1%nat
  /\ catalog_objs one_session_world !! 1%nat = Some (mkArtifactCatalog 1 [1%nat])
  /\ tags <$> artifact_objs one_session_world !! 0%nat = Some 0%nat
  /\ tags <$> artifact_objs one_session_world !! 1%nat = Some 0%nat
  /\ catalog_data one_session_world 0%nat = Some (1, [kpi_chart])
  /\ (w ← append_tag one_session_world 1%nat "edited"; catalog_data w 0%nat)
     = Some (1, [set_tags kpi_chart ["kpi"; "q3"; "edited"]]).
Proof. repeat split; vm_compute; reflexivity. Qed.

End DeploymentFacts.

(* ===================================================================== *)
(** * More on the design loop *)
(* ===================================================================== *)

Section ResultFacts.
Import Str Designer Generators.
Context {St : Type} (agent : AgentCall St) (slide : SlideSpec)
  (user_message : string).

Lemma design_loop_result attempts st calls errs html r :
  match html with
  | Some h =>
      errs = _validate_html h slide /\ errs <> []
      /\ exists st1 prompt st2 text,
           agent st1 prompt = (st2, inr text) /\ h = _extract_html text
  | None => True
  end ->
  run_outcome (design_loop agent slide user_message attempts st calls errs html)
    = inr r ->
  result_slide_id r = slide_id slide
  /\ validation_errors r = _validate_html (html_content r) slide
  /\ (validation_passed r = true <-> validation_errors r = [])
  /\ exists st1 prompt st2 text,
       agent st1 prompt = (st2, inr text) /\ html_content r = _extract_html text.
Proof.
  revert st calls errs html.
  induction attempts as [|attempt rest IH]; intros st calls errs html Hinv; simpl.
  - destruct html as [h|]; simpl; [|discriminate].
    destruct Hinv as (-> & Hne & Hfrom). intros H. injection H as <-. simpl.
    split; [reflexivity|]. split; [reflexivity|].
    split; [|exact Hfrom]. split; [discriminate|]. intros E. contradiction.
  - destruct (agent st _) as [st' [e|result]] eqn:Ea; simpl; [discriminate|].
    destruct (length (_validate_html (_extract_html result) slide) =? 0)%nat eqn:E.
    + simpl. intros H. injection H as <-. simpl.
      apply Nat.eqb_eq in E.
      assert (Hnil : _validate_html (_extract_html result) slide = [])
        by (destruct (_validate_html _ slide); [reflexivity|discriminate]).
      split; [reflexivity|]. split; [symmetry; exact Hnil|].
      split; [split; reflexivity|].
      eexists st, _, st', result. split; [exact Ea|reflexivity].
    + apply IH. split; [reflexivity|]. split.
      * intros Hnil. rewrite Hnil in E. discriminate.
      * eexists st, _, st', result. split; [exact Ea|reflexivity].
Qed.

End ResultFacts.

Section ResultClaims.
Import Str Designer Generators.

(** Whatever the generator and the budget, a result returned by
    [design_slide] is consistent: it is for the slide asked for, its HTML
    is what [_extract_html] took from a reply of the generator, its
    [validation_errors] are exactly what [_validate_html] reports on that
    HTML, and [validation_passed] holds exactly when that list is
    empty. *)
Theorem design_slide_result_consistent {St : Type} (agent : AgentCall St)
    (prepare : SlideSpec -> PyExn + string) (max_retries : Z)
    (slide : SlideSpec) (st : St) (r : SlideDesignResult) :
  run_outcome (design_slide agent prepare max_retries slide st) = inr r ->
  result_slide_id r = slide_id slide
  /\ validation_errors r = _validate_html (html_content r) slide
  /\ (validation_passed r = true <-> validation_errors r = [])
  /\ exists st1 prompt st2 text,
       agent st1 prompt = (st2, inr text) /\ html_content r = _extract_html text.
Proof.
  unfold design_slide. destruct (prepare slide) as [e|user_message]; simpl.
  - discriminate.
  - apply design_loop_result. exact I.
Qed.

(** The run that never gets valid HTML returns a consistent failure. *)
Lemma design_slide_result_consistent_witness :
  run_outcome (design_slide (always "no html here") ready 3 example_slide tt)
    = inr (mkSlideDesignResult "s01" "no html here" false
             (_validate_html "no html here" example_slide))
  /\ validation_errors
       (mkSlideDesignResult "s01" "no html here" false
          (_validate_html "no html here" example_slide))
     = _validate_html "no html here" example_slide.
Proof.
  assert (H : run_outcome (design_slide (always "no html here") ready 3
                             example_slide tt)
              = inr (mkSlideDesignResult "s01" "no html here" false
                       (_validate_html "no html here" example_slide)))
    by (vm_compute; reflexivity).
  split; [exact H|].
  exact (proj1 (proj2 (design_slide_result_consistent (always "no html here")
                         ready 3 example_slide tt _ H))).
Defined.

End ResultClaims.

Section ScriptFacts.
Import Designer Generators Protocol.
Context (slide : SlideSpec) (user_message : string)
  (replies : list (PyExn + string)).

Lemma nth_skipn_nil {A : Type} (n : nat) (l : list A) (d : A) :
  skipn n l = [] -> nth n l d = d.
Proof.
  revert l. induction n as [|n IH]; intros [|x l] H; simpl in *;
    try reflexivity; try discriminate. apply IH. exact H.
Qed.

Lemma nth_skipn_cons {A : Type} (n : nat) (l : list A) (d x : A) (rest : list A) :
  skipn n l = x :: rest -> nth n l d = x /\ skipn (S n) l = rest.
Proof.
  revert l. induction n as [|n IH]; intros [|y l] H; simpl in *;
    try discriminate.
  - injection H as -> ->. auto.
  - apply IH. exact H.
Qed.

Lemma py_range_cons (a b : Z) : a < b -> py_range a b = a :: py_range (a + 1) b.
Proof.
  intros H. unfold py_range.
  replace (Z.to_nat (b - a)) with (S (Z.to_nat (b - (a + 1)))) by lia.
  cbn [seq map]. f_equal; [lia|].
  rewrite <- seq_shift, map_map. apply map_ext. intros i. lia.
Qed.

Lemma py_range_above (a b x : Z) : In x (py_range a b) -> a <= x.
Proof.
  unfold py_range. rewrite in_map_iff. intros (i & <- & _). lia.
Qed.

(** The attempts after the first: each sends the retry message built from
    the errors of the reply before it, and the loop stops at the first
    reply that raises or passes the checklist, or when the attempts are
    used up. *)
Lemma design_loop_on_script (atts : list Z) (n : nat)
    (rs : list (PyExn + string)) (calls errs : list string) (html : string) :
  skipn n replies = rs ->
  Forall (fun a => a <> 1) atts ->
  run_calls (design_loop (scripted replies) slide user_message atts n calls errs
               (Some html))
    = calls ++ map (fun e => retry_message e (slide_id slide))
                 (firstn (Nat.min (length atts) (S (failing_prefix slide rs)))
                    (errs :: map (errors_of slide) rs))
  /\ run_outcome (design_loop (scripted replies) slide user_message atts n calls
                    errs (Some html))
     = if (length atts <=? failing_prefix slide rs)%nat then
         match length atts with
         | O => inr (mkSlideDesignResult (slide_id slide) html false errs)
         | S i =>
             inr (mkSlideDesignResult (slide_id slide)
                    (html_of (nth i rs no_reply)) false
                    (errors_of slide (nth i rs no_reply)))
         end
       else
         match nth (failing_prefix slide rs) rs no_reply with
         | inl e => inl e
         | inr text =>
             inr (mkSlideDesignResult (slide_id slide) (_extract_html text) true [])
         end.
Proof.
  revert n rs calls errs html.
  induction atts as [|a atts IH]; intros n rs calls errs html Hrs Hne.
  - cbn. rewrite app_nil_r. auto.
  - apply Forall_cons in Hne as [Ha Hne].
    cbn [design_loop]. apply Z.eqb_neq in Ha. rewrite Ha.
    unfold scripted at 1 3. cbn [length].
    destruct rs as [|r rs'].
    + rewrite (nth_skipn_nil _ _ _ Hrs). cbn. rewrite firstn_nil. auto.
    + destruct (nth_skipn_cons _ _ (inl (GeneratorError "no reply left")) _ _ Hrs)
        as [-> Hrs'].
      destruct r as [e|text]; [cbn; rewrite Nat.min_0_r; auto|].
      cbn [failing_prefix].
      destruct (length (_validate_html (_extract_html text) slide) =? 0)%nat eqn:E.
      * cbn. rewrite Nat.min_0_r. auto.
      * destruct (IH (S n) rs' (calls ++ [retry_message errs (slide_id slide)])
                    (_validate_html (_extract_html text) slide)
                    (_extract_html text) Hrs' Hne) as [Hc Ho].
        rewrite Hc, Ho. clear Hc Ho IH. split.
        -- rewrite <- app_assoc. cbn. reflexivity.
        -- cbn [Nat.leb nth]. destruct (length atts <=? failing_prefix slide rs')%nat;
             [|reflexivity].
           destruct (length atts); reflexivity.
Qed.

End ScriptFacts.

Section ScriptClaims.
Import Designer Generators Protocol.

(** The design loop against any script of replies, for a budget of at
    least 1.  Let [k] be the number of leading replies that are texts
    failing the checklist.  The first prompt is the formatted request and
    each later prompt is the retry message built from the errors of the
    reply before it; [min(max_retries, k + 1)] prompts are sent.  If the
    budget ends first, the result is the failure of reply number
    [max_retries]; otherwise reply [k + 1] decides: an exception leaves
    the loop, a text that passes is returned as passed with no errors. *)
Theorem design_slide_on_script (replies : list (PyExn + string))
    (prepare : SlideSpec -> PyExn + string) (max_retries : Z)
    (slide : SlideSpec) (user_message : string) :
  1 <= max_retries ->
  prepare slide = inr user_message ->
  run_calls (design_slide (scripted replies) prepare max_retries slide 0%nat)
    = user_message
        :: map (fun r => retry_message (errors_of slide r) (slide_id slide))
             (firstn (Nat.min (Z.to_nat max_retries) (S (failing_prefix slide replies))
                      - 1)
                replies)
  /\ run_outcome (design_slide (scripted replies) prepare max_retries slide 0%nat)
     = if (Z.to_nat max_retries <=? failing_prefix slide replies)%nat then
         inr (mkSlideDesignResult (slide_id slide)
                (html_of (nth (Z.to_nat max_retries - 1) replies no_reply)) false
                (errors_of slide (nth (Z.to_nat max_retries - 1) replies no_reply)))
       else
         match nth (failing_prefix slide replies) replies no_reply with
         | inl e => inl e
         | inr text =>
             inr (mkSlideDesignResult (slide_id slide) (_extract_html text) true [])
         end.
Proof.
  intros Hm Hprep. unfold design_slide. rewrite Hprep.
  rewrite py_range_cons by lia. cbn [design_loop]. rewrite Z.eqb_refl.
  unfold scripted at 1 3.
  assert (Htail : Forall (fun a => a <> 1) (py_range (1 + 1) (max_retries + 1))).
  { apply List.Forall_forall. intros x Hx. apply py_range_above in Hx. lia. }
  assert (Hlen : length (py_range (1 + 1) (max_retries + 1))
                 = (Z.to_nat max_retries - 1)%nat).
  { rewrite py_range_length. lia. }
  destruct replies as [|r rs] eqn:Er.
  - cbn. destruct (Z.to_nat max_retries) eqn:Em; [lia|]. cbn.
    rewrite firstn_nil. auto.
  - cbn [nth]. destruct r as [e|text].
    + cbn. destruct (Z.to_nat max_retries) eqn:Em; [lia|]. cbn.
      rewrite Nat.min_0_r. auto.
    + cbn [failing_prefix].
      destruct (length (_validate_html (_extract_html text) slide) =? 0)%nat eqn:E.
      * cbn. destruct (Z.to_nat max_retries) eqn:Em; [lia|]. cbn.
        rewrite Nat.min_0_r. auto.
      * destruct (design_loop_on_script slide user_message (inr text :: rs)
                    (py_range (1 + 1) (max_retries + 1)) 1 rs
                    ([] ++ [user_message])
                    (_validate_html (_extract_html text) slide)
                    (_extract_html text) eq_refl Htail) as [Hc Ho].
        rewrite Hc, Ho, Hlen. clear Hc Ho.
        destruct (Z.to_nat max_retries) as [|m] eqn:Em; [lia|].
        cbn [Nat.sub Nat.min]. rewrite Nat.sub_0_r. split.
        -- cbn [app]. f_equal.
           change (_validate_html (_extract_html text) slide
                     :: map (errors_of slide) rs)
             with (map (errors_of slide) (inr text :: rs)).
           rewrite List.firstn_map, map_map, ?Nat.sub_0_r. reflexivity.
        -- cbn [Nat.leb]. destruct (m <=? failing_prefix slide rs)%nat; [|reflexivity].
           destruct m; reflexivity.
Qed.

(** Valid HTML on the second attempt: two prompts, a passed result. *)
Lemma design_slide_on_script_witness :
  1 <= 3
  /\ failing_prefix example_slide [inr "Sorry, here it is"; inr valid_document]
     = 1%nat
  /\ length (run_calls (design_slide second_try ready 3 example_slide 0%nat)) = 2%nat
  /\ run_outcome (design_slide second_try ready 3 example_slide 0%nat)
     = inr (mkSlideDesignResult "s01" (_extract_html valid_document) true []).
Proof.
  split; [lia|]. split; [vm_compute; reflexivity|].
  destruct (design_slide_on_script [inr "Sorry, here it is"; inr valid_document]
              ready 3 example_slide "Design this slide") as [Hc Ho];
    [lia | reflexivity |].
  split.
  - unfold second_try. rewrite Hc. vm_compute. reflexivity.
  - unfold second_try. rewrite Ho. vm_compute. reflexivity.
Defined.

End ScriptClaims.

(* ===================================================================== *)
(** * The planner's loop *)
(* ===================================================================== *)

Section PlanFacts.
Import Planner PlanProtocol.
Context {St : Type} (agent : AgentCall St) (parse : string -> PyExn + SlidePlan)
  (user_message : string) (max_retries : Z).


End PlanFacts.

Section PlanClaims.
Import Planner Generators PlanProtocol.



End PlanClaims.

(* ===================================================================== *)
(** * More on extraction *)
(* ===================================================================== *)

Section FenceFacts.
Import Str Re Designer SpecSide.

(** No character of [s] is [c]. *)
Lemma no_char_cons (c d : ascii) (s : string) :
  contains (String c EmptyString) (String d s) = false ->
  d <> c /\ contains (String c EmptyString) s = false.
Proof.
  unfold contains. cbn [search starts_with]. unfold eqb_char.
  destruct (Ascii.eqb c d) eqn:E; cbn; [discriminate|].
  apply Ascii.eqb_neq in E.
  destruct (search _ s); cbn; [discriminate|]. auto.
Qed.

(** The first occurrence of a needle starting with [c], after a text
    without [c], is right after that text. *)
Lemma search_after_clean (c : ascii) (p pre rest : string) :
  contains (String c EmptyString) pre = false ->
  search (starts_with (String c p)) (pre +:+ String c p +:+ rest)
    = Some (String.length pre).
Proof.
  induction pre as [|d pre IH]; intros H.
  - apply search_head. apply (starts_with_app (String c p)).
  - apply no_char_cons in H as [Hd H]. rewrite append_cons.
    change (search ?m (String ?x ?t)) with
      (if m (String x t) then Some 0%nat else S <$> search m t).
    assert (Hm : starts_with (String c p)
                   (String d (pre +:+ String c p +:+ rest)) = false).
    { cbn [starts_with]. unfold eqb_char.
      apply not_eq_sym in Hd. apply Ascii.eqb_neq in Hd. rewrite Hd.
      reflexivity. }
    rewrite Hm, IH by exact H. reflexivity.
Qed.

Lemma length_drop (n : nat) (s : string) :
  String.length (drop n s) = (String.length s - n)%nat.
Proof.
  revert s. induction n as [|n IH]; intros [|c s]; cbn; try lia. apply IH.
Qed.

Lemma take_app_length (a b : string) : take (String.length a) (a +:+ b) = a.
Proof.
  induction a as [|c a IH]; cbn.
  - destruct b; reflexivity.
  - rewrite append_cons. cbn. f_equal. exact IH.
Qed.

(** A fenced block whose preamble and body hold no backtick: [find]
    locates the opening fence after the preamble and the closing fence
    after the body. *)
Lemma fenced_block_found (tag pre body post : string) :
  contains "`" pre = false ->
  contains "`" body = false ->
  let doc := pre +:+ ("```" +:+ tag) +:+ body +:+ "```" +:+ post in
  let start := (String.length pre + (3 + String.length tag))%nat in
  contains ("```" +:+ tag) doc = true
  /\ find doc ("```" +:+ tag) 0 = Z.of_nat (String.length pre)
  /\ find doc "```" start = Z.of_nat (start + String.length body)
  /\ slice doc start (start + String.length body) = body.
Proof.
  intros Hpre Hbody doc start.
  assert (Hdrop : drop start doc = body +:+ "```" +:+ post).
  { unfold doc, start. rewrite <- drop_drop, drop_app_length.
    change (3 + String.length tag)%nat with (String.length ("```" +:+ tag)).
    apply drop_app_length. }
  assert (Hlen : (start <= String.length doc)%nat).
  { unfold doc, start. rewrite !app_length. cbn. lia. }
  split; [|split; [|split]].
  - apply contains_spec. exists pre, (body +:+ "```" +:+ post).
    unfold doc. rewrite ?append_assoc. reflexivity.
  - unfold find. cbn [drop Nat.ltb Nat.leb].
    unfold doc. change ("```" +:+ tag) with (String "`" ("``" +:+ tag)).
    rewrite (search_after_clean "`" ("``" +:+ tag) pre) by exact Hpre.
    reflexivity.
  - unfold find. apply Nat.ltb_ge in Hlen. rewrite Hlen, Hdrop.
    rewrite (search_after_clean "`" "``" body post) by exact Hbody. reflexivity.
  - unfold slice. rewrite Hdrop.
    replace (start + String.length body - start)%nat with (String.length body)
      by lia.
    apply take_app_length.
Qed.

End FenceFacts.

Section ExtractClaims.
Import Str Re Designer SpecSide Documents Replies.

(** Every text that [_extract_html] returns is stripped: it has no white
    space left at either end. *)
Theorem extract_html_is_stripped (response : string) :
  strip (_extract_html response) = _extract_html response.
Proof.
  unfold _extract_html.
  repeat match goal with
         | |- context [if ?b then _ else _] => destruct b
         | |- context [match search ?m ?s with _ => _ end] => destruct (search m s)
         end; cbn; apply strip_idem.
Qed.

(** A fenced html block wins.  When the stripped response reads preamble,
    opening html fence, body, closing fence, rest, with no backtick in the
    preamble or in the non-empty body, [_extract_html] returns the body,
    stripped, whatever surrounds the block. *)
Theorem extract_html_takes_html_fence (response pre body post : string) :
  strip response = pre +:+ "```html" +:+ body +:+ "```" +:+ post ->
  contains "`" pre = false ->
  contains "`" body = false ->
  body <> EmptyString ->
  _extract_html response = strip body.
Proof.
  intros Hdoc Hpre Hbody Hne.
  destruct (fenced_block_found "html" pre body post Hpre Hbody)
    as (Hc & Hf1 & Hf2 & Hs).
  cbn zeta in Hc, Hf1, Hf2, Hs.
  change ("```" +:+ "html") with "```html" in Hc, Hf1, Hf2, Hs.
  rewrite <- Hdoc in Hc, Hf1, Hf2, Hs.
  unfold _extract_html. rewrite Hc, Hf1.
  replace (Z.to_nat (Z.of_nat (String.length pre) + 7))
    with (String.length pre + (3 + String.length "html"))%nat by (cbn; lia).
  rewrite Hf2.
  assert (Hlt : (Z.of_nat (String.length pre) + 7
                 <? Z.of_nat (String.length pre + (3 + String.length "html")
                              + String.length body)) = true).
  { apply Z.ltb_lt. destruct body; [contradiction|]. cbn. lia. }
  rewrite Hlt, Nat2Z.id, Hs. reflexivity.
Qed.

Lemma extract_html_takes_html_fence_witness :
  strip fenced_reply
    = ("Here is the slide:" +:+ nl) +:+ "```html" +:+ fenced_body +:+ "```"
        +:+ (nl +:+ "Let me know.")
  /\ contains "`" ("Here is the slide:" +:+ nl) = false
  /\ contains "`" fenced_body = false
  /\ _extract_html fenced_reply = strip fenced_body.
Proof.
  assert (H1 : strip fenced_reply
               = ("Here is the slide:" +:+ nl) +:+ "```html" +:+ fenced_body
                   +:+ "```" +:+ (nl +:+ "Let me know."))
    by (vm_compute; reflexivity).
  assert (H2 : contains "`" ("Here is the slide:" +:+ nl) = false)
    by (vm_compute; reflexivity).
  assert (H3 : contains "`" fenced_body = false) by (vm_compute; reflexivity).
  split; [exact H1|]. split; [exact H2|]. split; [exact H3|].
  apply (extract_html_takes_html_fence fenced_reply ("Here is the slide:" +:+ nl)
           fenced_body (nl +:+ "Let me know.") H1 H2 H3).
  vm_compute. discriminate.
Defined.

End ExtractClaims.

(* ===================================================================== *)
(** * The build step and the shape of the result *)
(* ===================================================================== *)

Section BuildFacts.
Import Str Orchestrator.

(** The two shapes of a build result. *)
Lemma build_pptx_cases {St : Type} (env : Env St) (fs : gmap string string)
    (slides_dir build_dir title : string) :
  (build_success (_build_pptx env fs slides_dir build_dir title) = true
   /\ build_pptx_path (_build_pptx env fs slides_dir build_dir title)
      = Some (path_join build_dir
                (take 50 (map_chars safe_char title) +:+ ".pptx"))
   /\ build_errors (_build_pptx env fs slides_dir build_dir title) = [])
  \/ (build_success (_build_pptx env fs slides_dir build_dir title) = false
      /\ build_pptx_path (_build_pptx env fs slides_dir build_dir title) = None
      /\ exists msg,
           build_errors (_build_pptx env fs slides_dir build_dir title) = [msg]).
Proof.
  unfold _build_pptx.
  destruct (converter env fs slides_dir _) as [|rc stderr ex|ex|e ex]; cbn;
    [right; eauto| |right; eauto|right; eauto].
  destruct (rc =? 0); cbn; [|right; eauto].
  destruct ex; cbn; [left; auto|right; eauto].
Qed.

Lemma safe_char_not_slash (c : ascii) : safe_char c <> "/"%char.
Proof.
  unfold safe_char.
  destruct (is_alnum c || eqb_char c " " || eqb_char c "-" || eqb_char c "_")
    eqn:E; [|discriminate].
  intros ->. vm_compute in E. discriminate.
Qed.

Lemma safe_char_idem (c : ascii) : safe_char (safe_char c) = safe_char c.
Proof.
  unfold safe_char.
  destruct (is_alnum c || eqb_char c " " || eqb_char c "-" || eqb_char c "_")
    eqn:E; [rewrite E|]; reflexivity.
Qed.

Lemma safe_title_no_slash (n : nat) (title : string) :
  contains "/" (take n (map_chars safe_char title)) = false.
Proof.
  revert title. induction n as [|n IH]; intros [|c t]; try reflexivity.
  cbn [map_chars take]. unfold contains in *.
  change (search ?m (String ?x ?r)) with
    (if m (String x r) then Some 0%nat else S <$> search m r).
  assert (Hm : starts_with "/" (String (safe_char c) (take n (map_chars safe_char t)))
               = false).
  { cbn [starts_with]. unfold eqb_char.
    destruct (Ascii.eqb "/" (safe_char c)) eqn:E; [|reflexivity].
    apply Ascii.eqb_eq in E. symmetry in E.
    destruct (safe_char_not_slash c E). }
  rewrite Hm. specialize (IH t).
  destruct (search (starts_with "/") (take n (map_chars safe_char t)));
    [discriminate|reflexivity].
Qed.

Lemma safe_title_fixed (n : nat) (title : string) :
  map_chars safe_char (take n (map_chars safe_char title))
  = take n (map_chars safe_char title).
Proof.
  revert title. induction n as [|n IH]; intros [|c t]; try reflexivity.
  cbn [map_chars take]. rewrite safe_char_idem, IH. reflexivity.
Qed.

Lemma append_inv_head (a b c : string) : a +:+ b = a +:+ c -> b = c.
Proof.
  induction a as [|x a IH]; [intros H; exact H|].
  rewrite !append_cons. intros H. injection H as H. exact (IH H).
Qed.

(** The slides and the plan file are not where the presentation goes. *)
Lemma slide_path_not_output (output_dir name name' : string) :
  path_join (path_join output_dir "slides") name
  <> path_join (path_join output_dir "build") name'.
Proof.
  unfold path_join. rewrite !append_assoc. intros H.
  apply append_inv_head in H. vm_compute in H. discriminate.
Qed.

Lemma deck_path_not_output (output_dir name' : string) :
  path_join output_dir "deck.json"
  <> path_join (path_join output_dir "build") name'.
Proof.
  unfold path_join. rewrite !append_assoc. intros H.
  apply append_inv_head in H. vm_compute in H. discriminate.
Qed.

(** The build step leaves every path but the output path as it was. *)
Lemma files_after_build_other {St : Type} (env : Env St)
    (fs : gmap string string) (slides_dir build_dir title k : string) :
  k <> path_join build_dir (take 50 (map_chars safe_char title) +:+ ".pptx") ->
  files_after_build env fs slides_dir build_dir title !! k = fs !! k.
Proof.
  intros Hk. unfold files_after_build.
  destruct (converter env fs slides_dir _) as [|rc stderr ex|ex|e ex];
    [reflexivity| | |];
    (destruct ex; [apply lookup_insert_ne|apply lookup_delete_ne]; auto).
Qed.

Lemma no_inl_all_returned (dir : string)
    (outs : list (SlideSpec * (PyExn + SlideDesignResult))) :
  (forall slide e, ~ In (slide, inl e) outs) ->
  returned_paths dir outs = map (fun so => html_path_of dir so.1) outs.
Proof.
  induction outs as [|[s o] outs IH]; intros H; [reflexivity|].
  unfold returned_paths. cbn [flat_map map fst snd].
  destruct o as [e|r].
  - destruct (H s e). left. reflexivity.
  - cbn. f_equal. apply IH. intros slide e Hin. apply (H slide e). right. exact Hin.
Qed.

Lemma returned_paths_length (dir : string)
    (outs : list (SlideSpec * (PyExn + SlideDesignResult))) :
  (length (returned_paths dir outs) <= length outs)%nat.
Proof.
  induction outs as [|[s o] outs IH]; [reflexivity|].
  unfold returned_paths. cbn [flat_map fst snd]. rewrite length_app.
  fold (returned_paths dir outs). destruct o; cbn; lia.
Qed.

End BuildFacts.

Section ResultClaimsOfRun.
Import Str Designer Orchestrator Generators Runs.

(** [_build_pptx] has two outcomes only.  It succeeds, with the output
    path and no error, exactly when the converter exits with code 0 and
    the output file exists; otherwise it reports no path and exactly one
    error message.  The file name it writes to is made of at most 50
    characters that the sanitiser leaves unchanged, none of them a path
    separator, so the output stays inside the build directory. *)
Theorem build_pptx_outcome {St : Type} (env : Env St) (fs : gmap string string)
    (slides_dir build_dir title : string) :
  ((build_success (_build_pptx env fs slides_dir build_dir title) = true
    /\ build_pptx_path (_build_pptx env fs slides_dir build_dir title)
       = Some (path_join build_dir
                 (take 50 (map_chars safe_char title) +:+ ".pptx"))
    /\ build_errors (_build_pptx env fs slides_dir build_dir title) = []
    /\ exists stderr,
         converter env fs slides_dir
           (path_join build_dir
              (take 50 (map_chars safe_char title) +:+ ".pptx"))
         = Exited 0 stderr true)
   \/ (build_success (_build_pptx env fs slides_dir build_dir title) = false
       /\ build_pptx_path (_build_pptx env fs slides_dir build_dir title) = None
       /\ (exists msg,
             build_errors (_build_pptx env fs slides_dir build_dir title) = [msg])
       /\ forall stderr,
            converter env fs slides_dir
              (path_join build_dir
                 (take 50 (map_chars safe_char title) +:+ ".pptx"))
            <> Exited 0 stderr true))
  /\ (String.length (take 50 (map_chars safe_char title)) <= 50)%nat
  /\ contains "/" (take 50 (map_chars safe_char title)) = false
  /\ map_chars safe_char (take 50 (map_chars safe_char title))
     = take 50 (map_chars safe_char title).
Proof.
  split; [|split; [apply take_length_le|split;
                   [apply safe_title_no_slash|apply safe_title_fixed]]].
  unfold _build_pptx.
  destruct (converter env fs slides_dir _) as [|rc stderr ex|ex|e ex]; cbn.
  - right. repeat split; eauto; discriminate.
  - destruct (rc =? 0) eqn:E; cbn.
    + apply Z.eqb_eq in E. subst rc. destruct ex; cbn.
      * left. repeat split; eauto.
      * right. repeat split; eauto; discriminate.
    + right. repeat split; eauto. intros ? H. injection H as -> _ _.
      discriminate.
  - right. repeat split; eauto; discriminate.
  - right. repeat split; eauto; discriminate.
Qed.

(** On every path through [generate_presentation], [success] is true
    exactly when the [errors] list of the result is empty. *)
Theorem result_success_iff_no_errors {St : Type} (env : Env St)
    (output_base_dir output_name : string)
    (catalog : PyExn + unit) (planned : PyExn + SlidePlan)
    (st : St) (fs : gmap string string) :
  success (generate_presentation env output_base_dir output_name
             catalog planned st fs).1.1 = true
  <-> errors (generate_presentation env output_base_dir output_name
                catalog planned st fs).1.1 = [].
Proof.
  unfold generate_presentation, design_stage.
  destruct catalog as [e|[]]; [cbn; split; discriminate|].
  destruct planned as [e|slide_plan]; [cbn; split; discriminate|].
  set (ph := after_design env output_base_dir output_name slide_plan st fs).
  destruct (html_files ph) as [|f fl]; cbn [fst success errors].
  - split; [discriminate|]. intros H. destruct (app_cons_not_nil _ _ _ (eq_sym H)).
  - destruct (build_pptx_cases env (ph_fs ph)
                (path_join (path_join output_base_dir output_name) "slides")
                (path_join (path_join output_base_dir output_name) "build")
                (plan_title slide_plan))
      as [(Hs & _ & He)|(Hs & _ & msg & He)]; rewrite Hs, He; cbn.
    + destruct (ph_errors ph); cbn; split; auto; discriminate.
    + split; [discriminate|]. intros H.
      destruct (app_cons_not_nil _ _ _ (eq_sym H)).
Qed.

(** A successful result is complete: the plan was produced, every slide
    of the plan was designed and has its file on disk, [slide_count] is
    the number of slides of the plan, and the result carries the path of
    the presentation, written by a converter run that exited with code
    0. *)
Theorem successful_result_is_complete {St : Type} (env : Env St)
    (output_base_dir output_name : string)
    (catalog : PyExn + unit) (planned : PyExn + SlidePlan)
    (st : St) (fs : gmap string string) :
  success (generate_presentation env output_base_dir output_name
             catalog planned st fs).1.1 = true ->
  exists slide_plan,
    planned = inr slide_plan
    /\ res_title (generate_presentation env output_base_dir output_name
                    catalog planned st fs).1.1 = plan_title slide_plan
    /\ slide_count (generate_presentation env output_base_dir output_name
                      catalog planned st fs).1.1
       = Z.of_nat (length (slides slide_plan))
    /\ pptx_path (generate_presentation env output_base_dir output_name
                    catalog planned st fs).1.1
       = Some (path_join
                 (path_join (path_join output_base_dir output_name) "build")
                 (take 50 (map_chars safe_char (plan_title slide_plan))
                    +:+ ".pptx"))
    /\ (forall slide, In slide (slides slide_plan) ->
          is_Some ((generate_presentation env output_base_dir output_name
                      catalog planned st fs).2
                   !! html_path_of
                        (path_join (path_join output_base_dir output_name)
                           "slides") slide)).
Proof.
  unfold generate_presentation, design_stage.
  destruct catalog as [e|[]]; [cbn; discriminate|].
  destruct planned as [e|slide_plan]; [cbn; discriminate|].
  destruct (after_design_state env output_base_dir output_name slide_plan st fs)
    as (Hfiles & Herrs & _).
  set (ph := after_design env output_base_dir output_name slide_plan st fs) in *.
  set (outs := loop_outcomes env output_base_dir output_name slide_plan st fs) in *.
  set (dir := path_join (path_join output_base_dir output_name) "slides") in *.
  destruct (html_files ph) as [|f fl] eqn:Ef; [cbn; discriminate|].
  cbn [fst snd success res_title slide_count pptx_path].
  destruct (build_pptx_cases env (ph_fs ph) dir
              (path_join (path_join output_base_dir output_name) "build")
              (plan_title slide_plan))
    as [(Hs & Hp & He)|(Hs & _ & _)]; rewrite Hs; [|cbn; discriminate].
  rewrite Hp, He. cbn [andb]. intros H.
  assert (Hnone : ph_errors ph = [])
    by (destruct (ph_errors ph); [reflexivity|discriminate]).
  rewrite Herrs in Hnone.
  pose proof (proj1 (raised_messages_nil outs) Hnone) as Hno.
  clear Hnone. rename Hno into Hnone.
  exists slide_plan. split; [reflexivity|]. split; [reflexivity|].
  split; [|split; [reflexivity|]].
  - rewrite Ef, Hfiles, (no_inl_all_returned dir outs Hnone), length_map.
    unfold outs, loop_outcomes.
    rewrite <- (slide_outcomes_slides env dir (slides slide_plan) st
                  (<[path_join (path_join output_base_dir output_name)
                       "deck.json" := deck_json env slide_plan]> fs)) at 2.
    rewrite length_map. reflexivity.
  - intros slide Hin.
    rewrite files_after_build_other by apply slide_path_not_output.
    rewrite <- (slide_outcomes_slides env dir (slides slide_plan) st
                  (<[path_join (path_join output_base_dir output_name)
                       "deck.json" := deck_json env slide_plan]> fs)) in Hin.
    apply in_map_iff in Hin as ([s o] & Hs1 & Hin). cbn in Hs1. subst s.
    destruct o as [e|r]; [destruct (Hnone slide e Hin)|].
    unfold ph, after_design, design_phase.
    apply (design_phase_fs_written env dir _ _ slide r). exact Hin.
Qed.

Lemma successful_result_is_complete_witness :
  success (generate_presentation failing_env "out" "deck" (inr tt)
             (inr one_slide_plan) tt no_files).1.1 = true
  /\ slide_count (generate_presentation failing_env "out" "deck" (inr tt)
                    (inr one_slide_plan) tt no_files).1.1 = 1
  /\ pptx_path (generate_presentation failing_env "out" "deck" (inr tt)
                  (inr one_slide_plan) tt no_files).1.1
     = Some "out/deck/build/Deck.pptx".
Proof.
  assert (H : success (generate_presentation failing_env "out" "deck" (inr tt)
                         (inr one_slide_plan) tt no_files).1.1 = true)
    by (vm_compute; reflexivity).
  split; [exact H|].
  destruct (successful_result_is_complete failing_env "out" "deck" (inr tt)
              (inr one_slide_plan) tt no_files H)
    as (p & Hp & _ & Hc & Hpath & _).
  injection Hp as <-. split; [exact Hc|exact Hpath].
Defined.




(** A plan whose only slide cannot be written: the design call returns,
    the write raises, and the run stops before the build step. *)
Example unwritten_run_stops_before_build :
  map snd (design_outcomes flat_env (slides only_nested_plan) tt)
  = [inr (mkSlideDesignResult "a/b" "no html here" false
            (_validate_html "no html here" nested_slide))]
  /\ renderer_input flat_env "out" "deck" (inr tt) (inr only_nested_plan) tt
       no_files = None
  /\ errors (generate_presentation flat_env "out" "deck" (inr tt)
               (inr only_nested_plan) tt no_files).1.1
     = ["Failed to design slide a/b: [Errno 2] No such file or directory: "
          +:+ "'out/deck/slides/02_a/b.html'";
        "No slides were successfully designed"]
  /\ (generate_presentation flat_env "out" "deck" (inr tt)
        (inr only_nested_plan) tt no_files).2
     = <["out/deck/deck.json" := "{}"]> no_files.
Proof. repeat split; vm_compute; reflexivity. Qed.

(** A successful build leaves the presentation under the build
    directory. *)
Example built_presentation_is_on_disk :
  (generate_presentation failing_env "out" "deck" (inr tt)
     (inr one_slide_plan) tt no_files).2 !! "out/deck/build/Deck.pptx"
  = Some "PK".
Proof. vm_compute. reflexivity. Qed.

End ResultClaimsOfRun.

(* ===================================================================== *)
(** * The streaming service *)
(* ===================================================================== *)

Section PathFacts.
Import Str Pathlib Service.

Lemma no_char_cons_inv (c d : ascii) (s : string) :
  d <> c -> contains (String c EmptyString) s = false ->
  contains (String c EmptyString) (String d s) = false.
Proof.
  intros Hd Hs. unfold contains in *.
  change (search ?m (String ?x ?r)) with
    (if m (String x r) then Some 0%nat else S <$> search m r).
  assert (Hm : starts_with (String c EmptyString) (String d s) = false).
  { cbn [starts_with]. unfold eqb_char.
    apply not_eq_sym in Hd. apply Ascii.eqb_neq in Hd. rewrite Hd. reflexivity. }
  rewrite Hm.
  destruct (search (starts_with (String c EmptyString)) s);
    [discriminate|reflexivity].
Qed.

Lemma no_char_app (c : ascii) (a b : string) :
  contains (String c EmptyString) a = false ->
  contains (String c EmptyString) b = false ->
  contains (String c EmptyString) (a +:+ b) = false.
Proof.
  induction a as [|d a IH]; intros Ha Hb; [exact Hb|].
  apply no_char_cons in Ha as [Hd Ha]. rewrite append_cons.
  apply no_char_cons_inv; auto.
Qed.

(** The name of a path is what follows its last separator. *)
Lemma name_of_clean (name acc : string) :
  contains "/" name = false -> name_of name acc = acc +:+ name.
Proof.
  revert acc. induction name as [|c name IH]; intros acc H.
  - cbn. induction acc as [|d acc IHa]; [reflexivity|].
    rewrite append_cons. f_equal. exact IHa.
  - apply no_char_cons in H as [Hc H]. cbn [name_of]. unfold eqb_char.
    apply Ascii.eqb_neq in Hc. rewrite Hc, IH by exact H.
    rewrite append_assoc. reflexivity.
Qed.

Lemma name_of_join (dir name acc : string) :
  contains "/" name = false ->
  name_of (dir +:+ "/" +:+ name) acc = name.
Proof.
  intros H. revert acc. induction dir as [|c dir IH]; intros acc.
  - change (EmptyString +:+ "/" +:+ name) with (String "/" name).
    cbn [name_of]. unfold eqb_char. rewrite Ascii.eqb_refl.
    apply (name_of_clean name EmptyString H).
  - rewrite append_cons. cbn [name_of].
    destruct (eqb_char c "/"); apply IH.
Qed.

Lemma relative_to_join (base rest : string) :
  relative_to (base +:+ "/" +:+ rest) base = Some rest.
Proof.
  unfold relative_to. rewrite <- append_assoc, starts_with_app.
  replace (String.length base + 1)%nat with (String.length (base +:+ "/"))
    by (rewrite app_length; reflexivity).
  rewrite drop_app_length. reflexivity.
Qed.

Lemma path_join_truthy (dir name : string) :
  path_truthy (Some (Orchestrator.path_join dir name)) = true.
Proof.
  unfold Orchestrator.path_join. destruct dir; [reflexivity|].
  rewrite append_cons. reflexivity.
Qed.

End PathFacts.

Section StreamFacts.
Import Str Designer Orchestrator Service.
Context {St : Type} (env : Env St) (slides_dir : string) (total : Z).

(** One iteration of the service's loop: the variables are those of the
    orchestrator's iteration, and the events tell how the pass through
    the [try] body ended. *)
Lemma design_one_events_spec (slide : SlideSpec) (rest : list SlideSpec)
    (ph : Phase St) :
  exists o,
    design_one_events env slides_dir total ph slide
    = (design_one env slides_dir ph slide, slide_events total (slide, o))
    /\ slide_outcomes env slides_dir (slide :: rest) (ph_state ph) (ph_fs ph)
       = (slide, o)
           :: slide_outcomes env slides_dir rest
                (ph_state (design_one env slides_dir ph slide))
                (ph_fs (design_one env slides_dir ph slide)).
Proof.
  cbn [slide_outcomes]. rewrite design_one_state.
  unfold design_one_events, design_one, slide_events, html_path_of.
  cbn [fst snd].
  destruct (run_outcome _) as [e|r]; [exists (inl e); split; reflexivity|].
  destruct (write_error env _ _ _) as [e|];
    [exists (inl e)|exists (inr r)]; split; reflexivity.
Qed.

(** The loop of the service computes the variables that the loop of the
    orchestrator computes. *)
Lemma design_events_phase (sl : list SlideSpec) (ph : Phase St) :
  (design_events env slides_dir total sl ph).1
  = fold_left (design_one env slides_dir) sl ph.
Proof.
  revert ph. induction sl as [|slide rest IH]; intros ph; [reflexivity|].
  cbn [design_events fold_left].
  destruct (design_one_events_spec slide rest ph) as (o & -> & _).
  specialize (IH (design_one env slides_dir ph slide)).
  destruct (design_events env slides_dir total rest _) as [ph2 evs2].
  exact IH.
Qed.

Lemma design_events_list (sl : list SlideSpec) (ph : Phase St) :
  (design_events env slides_dir total sl ph).2
  = flat_map (slide_events total)
      (slide_outcomes env slides_dir sl (ph_state ph) (ph_fs ph)).
Proof.
  revert ph. induction sl as [|slide rest IH]; intros ph; [reflexivity|].
  destruct (design_one_events_spec slide rest ph) as (o & Hone & ->).
  cbn [design_events flat_map]. rewrite Hone.
  specialize (IH (design_one env slides_dir ph slide)).
  destruct (design_events env slides_dir total rest _) as [ph2 evs2].
  cbn [snd] in *. rewrite IH. reflexivity.
Qed.

Lemma slide_events_progress
    (outs : list (SlideSpec * (PyExn + SlideDesignResult))) :
  forallb is_progress (flat_map (slide_events total) outs) = true.
Proof.
  induction outs as [|[s o] outs IH]; [reflexivity|].
  cbn [flat_map]. rewrite forallb_app, IH.
  destruct o; reflexivity.
Qed.

Lemma stream_regroup (started evs : list Event) (a b o : Event) :
  (started ++ [a] ++ evs) ++ [b; o; DONE]
  = started ++ (a :: evs ++ [b]) ++ [o; DONE].
Proof.
  rewrite <- !app_assoc. cbn [app]. rewrite <- app_assoc. reflexivity.
Qed.

Lemma progress_regroup (evs : list Event) (a b : Event) :
  is_progress a = true -> is_progress b = true ->
  forallb is_progress evs = true ->
  forallb is_progress (a :: evs ++ [b]) = true.
Proof.
  intros Ha Hb He. cbn [forallb]. rewrite Ha, forallb_app, He. cbn.
  rewrite Hb. reflexivity.
Qed.


Lemma design_outcomes_length (sl : list SlideSpec) (st : St) :
  length (design_outcomes env sl st) = length sl.
Proof.
  rewrite <- (design_outcomes_slides env sl st) at 2.
  rewrite length_map. reflexivity.
Qed.


Lemma outcome_after_progress (evs rest : list Event) (o : Event) :
  forallb is_progress evs = true -> is_outcome o = true ->
  outcome_of (evs ++ o :: rest) = Some o.
Proof.
  intros He Ho. unfold outcome_of.
  induction evs as [|e evs IH]; cbn [app List.find].
  - rewrite Ho. reflexivity.
  - cbn [forallb] in He. apply andb_true_iff in He as [He1 He2].
    destruct e; try discriminate He1; cbn [is_outcome]; exact (IH He2).
Qed.

Lemma outcome_of_stream (started evs : list Event) (a b o : Event) :
  forallb is_progress started = true ->
  is_progress a = true -> is_progress b = true ->
  forallb is_progress evs = true -> is_outcome o = true ->
  outcome_of (started ++ (a :: evs ++ [b]) ++ [o; DONE]) = Some o.
Proof.
  intros Hs Ha Hb He Ho. rewrite app_assoc.
  apply outcome_after_progress; [|exact Ho].
  rewrite forallb_app, Hs. apply progress_regroup; assumption.
Qed.

Lemma outcome_of_short_stream (started evs : list Event) (a o : Event) :
  forallb is_progress started = true ->
  is_progress a = true ->
  forallb is_progress evs = true -> is_outcome o = true ->
  outcome_of ((started ++ [a] ++ evs) ++ [o; DONE]) = Some o.
Proof.
  intros Hs Ha He Ho. apply outcome_after_progress; [|exact Ho].
  rewrite !forallb_app, Hs, He. cbn. rewrite Ha. reflexivity.
Qed.

End StreamFacts.

Section StreamOutcome.
Import Str Designer Orchestrator Service.

(** How a stream that follows a successful planning ends. *)
Lemma stream_outcome_cases {St : Type} (env : Env St)
    (not_in_subpath : string -> string -> string)
    (session_dir output_name : string) (artifact_count : Z)
    (slide_plan : SlidePlan) (st : St) (fs : gmap string string) :
  ((exists slide r,
      In (slide, inr r)
         (loop_outcomes env (path_join session_dir "output") output_name
            slide_plan st fs))
   /\ render_succeeds env (path_join session_dir "output") output_name
         slide_plan st fs = true
   /\ outcome_of (generate_presentation_stream env not_in_subpath
                    session_dir output_name artifact_count (inr slide_plan) st
                    fs).1.1
      = Some (generation_complete true (plan_title slide_plan)
                (Z.of_nat
                   (length
                      (returned_paths
                         (path_join
                            (path_join (path_join session_dir "output")
                               output_name) "slides")
                         (loop_outcomes env (path_join session_dir "output")
                            output_name slide_plan st fs))))
                ("output/" +:+ output_name +:+ "/build/"
                   +:+ take 50 (map_chars safe_char (plan_title slide_plan))
                   +:+ ".pptx")
                (take 50 (map_chars safe_char (plan_title slide_plan))
                   +:+ ".pptx")
                (warning_messages
                   (design_outcomes env (slides slide_plan) st))))
  \/ ((returned_paths
         (path_join (path_join (path_join session_dir "output") output_name)
            "slides")
         (loop_outcomes env (path_join session_dir "output")
            output_name slide_plan st fs) = []
       \/ render_succeeds env (path_join session_dir "output") output_name
            slide_plan st fs = false)
      /\ exists error errs,
           outcome_of (generate_presentation_stream env not_in_subpath
                         session_dir output_name artifact_count
                         (inr slide_plan) st fs).1.1
           = Some (generation_error error errs)).
Proof.
  unfold generate_presentation_stream, render_succeeds.
  destruct (after_design_state env (path_join session_dir "output") output_name
              slide_plan st fs) as (Hfiles & _ & Hwarn).
  unfold after_design, design_phase in *.
  match goal with
  | |- context [design_events env ?d ?t ?sl ?ph] =>
      pose proof (design_events_list env d t sl ph) as Hevs;
      pose proof (design_events_phase env d t sl ph) as Hph;
      destruct (design_events env d t sl ph) as [ph' evs]
  end.
  cbn [fst snd] in Hevs, Hph. rewrite <- Hph in *. clear Hph.
  assert (Hprog : forallb is_progress evs = true)
    by (rewrite Hevs; apply slide_events_progress).
  destruct (html_files ph') as [|f fl] eqn:Ef.
  { right. split; [left; auto|].
    cbn [fst]. rewrite outcome_of_short_stream by auto. eauto. }
  cbn [fst]. rewrite stream_regroup.
  match goal with
  | |- context [_build_pptx env ?a ?b ?c ?d] =>
      destruct (build_pptx_cases env a b c d)
        as [(Hs & Hp & He)|(Hs & Hp & msg & He)];
      rewrite Hs, ?Hp, ?He
  end.
  2:{ right. split; [right; reflexivity|].
      cbn [andb]. rewrite outcome_of_stream by auto. eauto. }
  left. rewrite path_join_truthy. cbn [andb default from_option id].
  assert (Hrel : relative_to
                   (path_join
                      (path_join
                         (path_join (path_join session_dir "output") output_name)
                         "build")
                      (take 50 (map_chars safe_char (plan_title slide_plan))
                         +:+ ".pptx")) session_dir
                 = Some ("output/" +:+ output_name +:+ "/build/"
                           +:+ take 50 (map_chars safe_char (plan_title slide_plan))
                           +:+ ".pptx")).
  { unfold path_join. rewrite !append_assoc. apply relative_to_join. }
  assert (Hname : Pathlib.name_of
                    (path_join
                       (path_join
                          (path_join (path_join session_dir "output") output_name)
                          "build")
                       (take 50 (map_chars safe_char (plan_title slide_plan))
                          +:+ ".pptx")) EmptyString
                  = take 50 (map_chars safe_char (plan_title slide_plan))
                      +:+ ".pptx").
  { unfold path_join at 1. apply name_of_join. apply no_char_app.
    - apply safe_title_no_slash.
    - reflexivity. }
  rewrite Hrel, Hname. rewrite outcome_of_stream by auto.
  split.
  { apply (returned_paths_some
             (path_join (path_join (path_join session_dir "output") output_name)
                "slides")).
    rewrite <- Hfiles. discriminate. }
  split; [reflexivity|].
  rewrite <- Hfiles, Hwarn. reflexivity.
Qed.

End StreamOutcome.

Section StreamClaims.
Import Str Designer Orchestrator Service Generators Runs.

(** The streaming service and the orchestrator do the same work: given
    the same plan (or the same planning failure), the service leaves the
    agent in the same state and the same files on disk as
    [generate_presentation] run on the session's output directory. *)
Theorem stream_same_effects {St : Type} (env : Env St)
    (not_in_subpath : string -> string -> string)
    (session_dir output_name : string) (artifact_count : Z)
    (planned : PyExn + SlidePlan) (st : St) (fs : gmap string string) :
  (generate_presentation_stream env not_in_subpath session_dir output_name
     artifact_count planned st fs).1.2
  = (generate_presentation env (path_join session_dir "output") output_name
       (inr tt) planned st fs).1.2
  /\ (generate_presentation_stream env not_in_subpath session_dir output_name
        artifact_count planned st fs).2
     = (generate_presentation env (path_join session_dir "output") output_name
          (inr tt) planned st fs).2.
Proof.
  unfold generate_presentation_stream, generate_presentation, design_stage.
  destruct planned as [e|slide_plan]; [split; reflexivity|].
  unfold after_design, design_phase.
  match goal with
  | |- context [design_events env ?d ?t ?sl ?ph] =>
      pose proof (design_events_phase env d t sl ph) as Hph;
      destruct (design_events env d t sl ph) as [ph' evs]
  end.
  cbn [fst] in Hph. rewrite <- Hph.
  destruct (html_files ph'); split; reflexivity.
Qed.




(** Whenever [generate_presentation] would report success, the stream
    for the same plan reports completion, with the same title, slide
    count and warnings, and with the path of the presentation given
    relative to the session directory. *)
Theorem successful_run_streams_completion {St : Type} (env : Env St)
    (not_in_subpath : string -> string -> string)
    (session_dir output_name : string) (artifact_count : Z)
    (planned : PyExn + SlidePlan) (st : St) (fs : gmap string string) :
  success (generate_presentation env (path_join session_dir "output")
             output_name (inr tt) planned st fs).1.1 = true ->
  exists relative_path,
    pptx_path (generate_presentation env (path_join session_dir "output")
                 output_name (inr tt) planned st fs).1.1
    = Some (session_dir +:+ "/" +:+ relative_path)
    /\ outcome_of (generate_presentation_stream env not_in_subpath session_dir
                     output_name artifact_count planned st fs).1.1
       = Some (generation_complete true
                 (res_title (generate_presentation env
                               (path_join session_dir "output") output_name
                               (inr tt) planned st fs).1.1)
                 (slide_count (generate_presentation env
                                 (path_join session_dir "output") output_name
                                 (inr tt) planned st fs).1.1)
                 relative_path
                 (Pathlib.name_of (session_dir +:+ "/" +:+ relative_path)
                    EmptyString)
                 (limitations (generate_presentation env
                                 (path_join session_dir "output") output_name
                                 (inr tt) planned st fs).1.1)).
Proof.
  destruct planned as [e|slide_plan]; [cbn; discriminate|].
  pose proof (stream_outcome_cases env not_in_subpath session_dir output_name
                artifact_count slide_plan st fs) as Hcases.
  unfold render_succeeds in Hcases.
  unfold generate_presentation, design_stage.
  destruct (after_design_state env (path_join session_dir "output") output_name
              slide_plan st fs) as (Hfiles & _ & Hwarn).
  set (ph := after_design env (path_join session_dir "output") output_name
               slide_plan st fs) in *.
  destruct (html_files ph) as [|f fl] eqn:Ef; [cbn; discriminate|].
  cbn [fst success res_title slide_count pptx_path limitations].
  intros H. apply andb_true_iff in H as [Hs _].
  destruct Hcases as [(_ & _ & Ho)|([Hnil|Hr] & _)];
    [|rewrite Hnil in Hfiles; discriminate
     |rewrite Hr in Hs; discriminate].
  match goal with
  | |- context [_build_pptx env ?a ?b ?c ?d] =>
      destruct (build_pptx_cases env a b c d)
        as [(_ & Hp & _)|(Hs' & _)]; [|rewrite Hs' in Hs; discriminate]
  end.
  exists ("output/" +:+ output_name +:+ "/build/"
            +:+ take 50 (map_chars safe_char (plan_title slide_plan))
            +:+ ".pptx").
  assert (Hpath : path_join
                    (path_join
                       (path_join (path_join session_dir "output") output_name)
                       "build")
                    (take 50 (map_chars safe_char (plan_title slide_plan))
                       +:+ ".pptx")
                  = session_dir +:+ "/" +:+ "output/" +:+ output_name
                      +:+ "/build/"
                      +:+ take 50 (map_chars safe_char (plan_title slide_plan))
                      +:+ ".pptx").
  { unfold path_join. rewrite !append_assoc. reflexivity. }
  split; [rewrite Hp, Hpath; reflexivity|].
  rewrite Ho, <- Hpath, Hwarn, <- Hfiles, ?Ef.
  unfold path_join at 1. rewrite name_of_join; [reflexivity|].
  apply no_char_app; [apply safe_title_no_slash|reflexivity].
Qed.

Lemma successful_run_streams_completion_witness :
  outcome_of (generate_presentation_stream failing_env (fun _ _ => "")
                "sessions/a" "deck" 0 (inr one_slide_plan) tt no_files).1.1
  = Some (generation_complete true "Deck" 1 "output/deck/build/Deck.pptx"
            "Deck.pptx"
            (map (fun err => "Slide s01: " +:+ err)
               (_validate_html "no html here" example_slide))).
Proof.
  assert (H : success (generate_presentation failing_env
                         (path_join "sessions/a" "output") "deck" (inr tt)
                         (inr one_slide_plan) tt no_files).1.1 = true)
    by (vm_compute; reflexivity).
  destruct (successful_run_streams_completion failing_env (fun _ _ => "")
              "sessions/a" "deck" 0 (inr one_slide_plan) tt no_files H)
    as (rel & Hp & Ho).
  rewrite Ho. vm_compute in Hp. injection Hp as <-.
  vm_compute. reflexivity.
Defined.

(** The stream of a plan whose only slide cannot be written: the design
    call returns, the write raises, the slide is reported as an error
    and the generation ends without a build. *)
Example unwritten_slide_stream :
  (generate_presentation_stream flat_session_env (fun _ _ => "")
     "sessions/a" "deck" 0 (inr only_nested_plan) tt no_files).1.1
  = [brief_created "Creating orchestrator brief...";
     catalog_loaded 0;
     planning_started "Planning slides...";
     planning_complete 1 "Deck";
     slide_designing 2 1 "Second";
     slide_error 2
       ("Failed to design slide a/b: [Errno 2] No such file or directory: "
          +:+ "'sessions/a/output/deck/slides/02_a/b.html'");
     generation_error "No slides were successfully designed" None;
     DONE].
Proof. vm_compute. reflexivity. Qed.

End StreamClaims.

(* ===================================================================== *)
(** * The backend keeps its references resolved *)
(* ===================================================================== *)

Section MonadFacts.

Lemma mapM_is_Some {A B : Type} (f : A -> option B) (l : list A) :
  (forall a, In a l -> is_Some (f a)) -> is_Some (mapM f l).
Proof.
  induction l as [|a l IH]; intros H; [eexists; reflexivity|].
  destruct (H a (or_introl eq_refl)) as [b Hb].
  destruct IH as [bs Hbs]; [intros x Hx; apply H; right; exact Hx|].
  exists (b :: bs). cbn. rewrite Hb. cbn. rewrite Hbs. reflexivity.
Qed.

Lemma mapM_cons_Some {A B : Type} (f : A -> option B) (a : A) (l : list A)
    (bs : list B) :
  mapM f (a :: l) = Some bs ->
  exists b bs', f a = Some b /\ mapM f l = Some bs' /\ bs = b :: bs'.
Proof.
  cbn. destruct (f a) as [b|]; [|discriminate]. cbn.
  destruct (mapM f l) as [bs'|]; [|discriminate]. cbn.
  intros H. injection H as <-. eauto.
Qed.

Lemma mapM_Some_in {A B : Type} (f : A -> option B) (l : list A) (bs : list B) :
  mapM f l = Some bs -> forall a, In a l -> is_Some (f a).
Proof.
  revert bs. induction l as [|x l IH]; intros bs H a Ha; [destruct Ha|].
  apply mapM_cons_Some in H as (b & bs' & Hb & Hl & _).
  destruct Ha as [<-|Ha]; [eauto|]. exact (IH _ Hl a Ha).
Qed.

Lemma mapM_snoc_Some {A B : Type} (f : A -> option B) (l : list A)
    (bs : list B) (a : A) (b : B) :
  mapM f l = Some bs -> f a = Some b -> mapM f (l ++ [a]) = Some (bs ++ [b]).
Proof.
  revert bs. induction l as [|x l IH]; intros bs H Ha.
  - injection H as <-. cbn. rewrite Ha. reflexivity.
  - apply mapM_cons_Some in H as (y & bs' & Hx & Hl & ->).
    cbn [app]. cbn. rewrite Hx. cbn. rewrite (IH _ Hl Ha). reflexivity.
Qed.

Lemma mapM_ext_in {A B : Type} (f g : A -> option B) (l : list A) :
  (forall a, In a l -> g a = f a) -> mapM g l = mapM f l.
Proof.
  induction l as [|x l IH]; intros H; [reflexivity|].
  cbn. rewrite (H x (or_introl eq_refl)), IH; [reflexivity|].
  intros a Ha. apply H. right. exact Ha.
Qed.

Lemma mapM_delete_Some {A B : Type} (f : A -> option B) (l : list A)
    (bs : list B) (i : nat) :
  mapM f l = Some bs -> mapM f (base.delete i l) = Some (base.delete i bs).
Proof.
  revert bs i. induction l as [|x l IH]; intros bs i H.
  - injection H as <-. destruct i; reflexivity.
  - apply mapM_cons_Some in H as (y & bs' & Hx & Hl & ->).
    destruct i as [|i]; [exact Hl|].
    change (base.delete (S i) (x :: l)) with (x :: base.delete i l).
    change (base.delete (S i) (y :: bs')) with (y :: base.delete i bs').
    cbn. rewrite Hx. cbn. rewrite (IH _ i Hl). reflexivity.
Qed.

End MonadFacts.

Section WellFormedFacts.
Import Str Backend Sessions SpecSide BackendSide UploadSide.
Context (env : Env).

Lemma set_tags_tags (d : Artifact (list string)) (t : ref) :
  set_tags (set_tags d t) (tags d) = d.
Proof. destruct d. reflexivity. Qed.

Lemma catalog_data_inv (w : World) (c : ref) (d : CatalogData) :
  catalog_data w c = Some d ->
  exists cat ds,
    catalog_objs w !! c = Some cat
    /\ mapM (artifact_data w) (artifacts cat) = Some ds
    /\ d = (artifact_count cat, ds).
Proof.
  unfold catalog_data.
  destruct (catalog_objs w !! c) as [cat|]; [|discriminate]. cbn.
  destruct (mapM (artifact_data w) (artifacts cat)) as [ds|] eqn:E;
    [|discriminate].
  cbn. intros H. injection H as <-. exists cat, ds. repeat split. exact E.
Qed.

Lemma catalog_data_intro (w : World) (c : ref) (cat : ArtifactCatalog)
    (ds : list (Artifact (list string))) :
  catalog_objs w !! c = Some cat ->
  mapM (artifact_data w) (artifacts cat) = Some ds ->
  catalog_data w c = Some (artifact_count cat, ds).
Proof. intros Hc Hd. unfold catalog_data. rewrite Hc. cbn. rewrite Hd. reflexivity. Qed.

Lemma artifact_data_obj (w : World) (a : ref) :
  is_Some (artifact_data w a) -> is_Some (artifact_objs w !! a).
Proof.
  unfold artifact_data. intros [d H].
  destruct (artifact_objs w !! a); [eauto|discriminate].
Qed.

Lemma catalog_data_objs (w : World) (c : ref) (cat : ArtifactCatalog) :
  is_Some (catalog_data w c) -> catalog_objs w !! c = Some cat ->
  forall a, In a (artifacts cat) -> is_Some (artifact_objs w !! a).
Proof.
  intros [d Hd] Hc a Ha.
  apply catalog_data_inv in Hd as (cat' & ds & Hc' & Hds & _).
  rewrite Hc in Hc'. injection Hc' as <-.
  apply artifact_data_obj. exact (mapM_Some_in _ _ _ Hds a Ha).
Qed.

(** Validation builds objects that denote the data they were built
    from. *)
Lemma construct_artifacts_data (w : World) (ds : list (Artifact (list string))) :
  mapM (artifact_data (construct_artifacts w ds).2) (construct_artifacts w ds).1
  = Some ds.
Proof.
  revert w. induction ds as [|d ds IH]; intros w; [reflexivity|].
  cbn [construct_artifacts].
  destruct (construct_artifact w d) as [r w2] eqn:E2.
  specialize (IH w2).
  pose proof (construct_artifacts_kept w2 ds) as [K _].
  destruct (construct_artifacts w2 ds) as [rs w3]. cbn [fst snd] in *.
  assert (Hr : artifact_data w2 r = Some d).
  { unfold construct_artifact in E2. cbn in E2. injection E2 as <- <-.
    unfold artifact_data. cbn. rewrite lookup_insert_eq. cbn.
    rewrite lookup_insert_eq. cbn. rewrite set_tags_tags. reflexivity. }
  cbn. rewrite (artifact_data_kept _ _ _ _ K Hr). cbn. rewrite IH. reflexivity.
Qed.

Lemma load_base_catalog_data (w w1 : World) (b : ref) :
  _load_base_catalog env w = (b, w1) ->
  (forall b0, _base_catalog w = Some b0 -> is_Some (catalog_data w b0)) ->
  is_Some (catalog_data w1 b).
Proof.
  unfold _load_base_catalog. intros H Hwf.
  destruct (_base_catalog w) as [b0|] eqn:Eb.
  - injection H as <- <-. apply Hwf. reflexivity.
  - destruct (base_catalog_file env) as [[count ds]|].
    + pose proof (construct_artifacts_data w ds) as Hd.
      destruct (construct_artifacts w ds) as [rs w0]. cbn [fst snd] in Hd.
      cbn in H. injection H as <- <-.
      exists (count, ds). unfold catalog_data. cbn.
      rewrite lookup_insert_eq. cbn.
      change (mapM _ rs) with (mapM (artifact_data w0) rs).
      rewrite Hd. reflexivity.
    + cbn in H. injection H as <- <-.
      exists (0, []). unfold catalog_data. cbn.
      rewrite lookup_insert_eq. reflexivity.
Qed.

Lemma model_copy_all_total (w : World) (l : list ref) :
  (forall a, In a l -> is_Some (artifact_objs w !! a)) ->
  is_Some (model_copy_all w l).
Proof.
  revert w. induction l as [|a l IH]; intros w H; [eexists; reflexivity|].
  cbn. unfold model_copy.
  destruct (H a (or_introl eq_refl)) as [obj Ha]. rewrite Ha. cbn.
  destruct (IH (new_artifact w obj).2) as [[rs w2] Hrs].
  { intros x Hx. destruct (H x (or_intror Hx)) as [o Ho].
    exists o. cbn. apply insert_fresh_kept. exact Ho. }
  cbn in Hrs. rewrite Hrs. eexists. reflexivity.
Qed.

End WellFormedFacts.

Section FrameFacts.
Import Str Backend Sessions SpecSide BackendSide UploadSide.
Context (env : Env).

(** What a catalog denotes depends on the three object stores only. *)
Lemma catalog_data_frame (w w' : World) (c : ref) :
  catalog_objs w' = catalog_objs w -> artifact_objs w' = artifact_objs w ->
  tag_lists w' = tag_lists w -> catalog_data w' c = catalog_data w c.
Proof.
  intros Hc Ha Ht. unfold catalog_data. rewrite Hc.
  destruct (catalog_objs w !! c) as [cat|]; [|reflexivity]. cbn.
  rewrite (mapM_ext_in (artifact_data w) (artifact_data w')); [reflexivity|].
  intros a _. unfold artifact_data. rewrite Ha.
  destruct (artifact_objs w !! a); [|reflexivity]. cbn. rewrite Ht. reflexivity.
Qed.

Lemma catalog_data_kept_Some (w w' : World) (c : ref) :
  objects_kept w w' ->
  (forall c0 x, catalog_objs w !! c0 = Some x -> catalog_objs w' !! c0 = Some x) ->
  is_Some (catalog_data w c) -> catalog_data w' c = catalog_data w c.
Proof.
  intros K C [d Hd]. rewrite Hd. apply (catalog_data_kept w); [exact K| |exact Hd].
  destruct (catalog_data_inv _ _ _ Hd) as (cat & _ & Hc & _).
  rewrite Hc. apply C. exact Hc.
Qed.

Lemma construct_artifacts_frame (w : World) (ds : list (Artifact (list string))) :
  session_objs (construct_artifacts w ds).2 = session_objs w
  /\ files (construct_artifacts w ds).2 = files w
  /\ _sessions (construct_artifacts w ds).2 = _sessions w
  /\ _base_catalog (construct_artifacts w ds).2 = _base_catalog w.
Proof.
  revert w. induction ds as [|d ds IH]; intros w; [repeat split|].
  cbn [construct_artifacts].
  destruct (construct_artifact w d) as [r w2] eqn:E2.
  specialize (IH w2). destruct (construct_artifacts w2 ds) as [rs w3].
  cbn [snd] in *. unfold construct_artifact in E2. cbn in E2.
  injection E2 as _ <-. exact IH.
Qed.

Lemma load_base_catalog_frame (w w1 : World) (b : ref) :
  _load_base_catalog env w = (b, w1) ->
  session_objs w1 = session_objs w /\ files w1 = files w
  /\ _sessions w1 = _sessions w.
Proof.
  unfold _load_base_catalog.
  destruct (_base_catalog w) as [b0|].
  - intros H. injection H as <- <-. auto.
  - destruct (base_catalog_file env) as [[count ds]|].
    + pose proof (construct_artifacts_frame w ds) as (Hs & Hf & Hr & _).
      destruct (construct_artifacts w ds) as [rs w0]. cbn [snd] in *.
      cbn. intros H. injection H as <- <-. cbn. auto.
    + cbn. intros H. injection H as <- <-. cbn. auto.
Qed.

Lemma model_copy_all_frame (w w' : World) (l rs : list ref) :
  model_copy_all w l = Some (rs, w') ->
  session_objs w' = session_objs w /\ files w' = files w
  /\ _sessions w' = _sessions w.
Proof.
  revert w w' rs. induction l as [|a l IH]; intros w w' rs; cbn.
  - intros H. injection H as <- <-. auto.
  - unfold model_copy.
    destruct (artifact_objs w !! a) as [obj|]; [|discriminate]. cbn.
    destruct (model_copy_all _ l) as [[rs0 w2]|] eqn:E; [|discriminate].
    cbn. intros H. injection H as <- <-.
    destruct (IH _ _ _ E) as (Hs & Hf & Hr). cbn in *. auto.
Qed.

(** The catalog of a new session: it is made, it is new, it denotes what
    the base catalog denotes, and nothing that existed has changed. *)
Lemma create_session_catalog_total (w : World) :
  (forall b0, _base_catalog w = Some b0 -> is_Some (catalog_data w b0)) ->
  exists c w' b,
    _create_session_catalog env w = Some (c, w')
    /\ _base_catalog w' = Some b
    /\ is_Some (catalog_data w' b)
    /\ catalog_data w' c = catalog_data w' b
    /\ (forall b0, _base_catalog w = Some b0 ->
          b0 = b /\ catalog_data w' b = catalog_data w b0)
    /\ (_base_catalog w = None ->
          catalog_data w' b
          = Some (match base_catalog_file env with
                  | Some d => d
                  | None => (0, [])
                  end))
    /\ (forall c0, is_Some (catalog_objs w !! c0) -> c <> c0)
    /\ objects_kept w w'
    /\ (forall c0 x, catalog_objs w !! c0 = Some x -> catalog_objs w' !! c0 = Some x)
    /\ session_objs w' = session_objs w /\ files w' = files w
    /\ _sessions w' = _sessions w.
Proof.
  intros Hwf. unfold _create_session_catalog.
  destruct (_load_base_catalog env w) as [b w1] eqn:El.
  destruct (load_base_catalog_spec env _ _ _ El) as (Hb & K1 & C1).
  destruct (load_base_catalog_frame _ _ _ El) as (S1 & F1 & R1).
  pose proof (load_base_catalog_data env _ _ _ El Hwf) as Hd1.
  destruct Hd1 as [d1 Hd1].
  destruct (catalog_data_inv _ _ _ Hd1) as (base & ds & Ebase & Hds & ->).
  rewrite Ebase. cbn.
  destruct (model_copy_all_total w1 (artifacts base)) as [[copies w2] Ec].
  { intros a Ha. apply artifact_data_obj. exact (mapM_Some_in _ _ _ Hds a Ha). }
  rewrite Ec. cbn.
  destruct (model_copy_all_spec _ _ _ _ Ec) as (K2 & T2 & C2 & B2 & F).
  destruct (model_copy_all_frame _ _ _ _ Ec) as (S2 & F2 & R2).
  assert (Hfresh : catalog_objs w2 !! fresh (dom (catalog_objs w2)) = None)
    by apply fresh_lookup_None.
  assert (Hne : fresh (dom (catalog_objs w2)) <> b).
  { intros E. rewrite E, C2, Ebase in Hfresh. discriminate. }
  set (c := fresh (dom (catalog_objs w2))) in *.
  set (w3 := with_catalog_objs w2
               (<[c := mkArtifactCatalog (artifact_count base) copies]>
                  (catalog_objs w2))).
  assert (K3 : objects_kept w1 w3) by (destruct K2; split; cbn; auto).
  assert (Hb3 : catalog_data w3 b = Some (artifact_count base, ds)).
  { apply (catalog_data_kept w1); [exact K3| |exact Hd1].
    cbn. rewrite lookup_insert_ne by exact Hne. rewrite C2. reflexivity. }
  exists c, w3, b. split; [reflexivity|].
  split; [cbn; rewrite B2; exact Hb|].
  split; [rewrite Hb3; eauto|].
  split.
  { rewrite Hb3. apply catalog_data_intro with
      (cat := mkArtifactCatalog (artifact_count base) copies).
    - cbn. apply lookup_insert_eq.
    - cbn [artifacts].
      rewrite (mapM_pointwise (artifact_data w3) (artifacts base) copies).
      + destruct (catalog_data_inv _ _ _ Hb3) as (base' & ds' & Eb' & Hds' & E').
        cbn in Eb'. rewrite lookup_insert_ne in Eb' by exact Hne.
        rewrite C2, Ebase in Eb'. injection Eb' as <-.
        injection E' as <-. exact Hds'.
      + eapply Forall2_impl; [exact F|]. intros a r (_ & obj & Ha & Hr).
        unfold artifact_data. cbn. rewrite Ha, Hr. reflexivity. }
  split.
  { intros b0 Hb0. unfold _load_base_catalog in El. rewrite Hb0 in El.
    injection El as <- <-. split; [reflexivity|].
    rewrite Hb3. symmetry. exact Hd1. }
  split.
  { intros Hnone. rewrite Hb3. unfold _load_base_catalog in El.
    rewrite Hnone in El.
    destruct (base_catalog_file env) as [[count ds0]|].
    - pose proof (construct_artifacts_data w ds0) as Hd0.
      destruct (construct_artifacts w ds0) as [rs w0]. cbn [fst snd] in Hd0.
      cbn in El. injection El as <- <-.
      unfold catalog_data in Hd1. cbn in Hd1. rewrite lookup_insert_eq in Hd1.
      cbn in Hd1.
      change (mapM _ rs) with (mapM (artifact_data w0) rs) in Hd1.
      rewrite Hd0 in Hd1. cbn in Hd1. symmetry. exact Hd1.
    - cbn in El. injection El as <- <-.
      unfold catalog_data in Hd1. cbn in Hd1. rewrite lookup_insert_eq in Hd1.
      cbn in Hd1. symmetry. exact Hd1. }
  split.
  { intros c0 [x Hx] E. apply C1 in Hx. rewrite <- C2, <- E, Hfresh in Hx.
    discriminate. }
  split; [eapply objects_kept_trans; eauto|].
  split.
  { intros c0 x Hc0. cbn. apply C1 in Hc0. rewrite <- C2 in Hc0.
    rewrite lookup_insert_ne; [exact Hc0|].
    intros E. rewrite <- E, Hfresh in Hc0. discriminate. }
  cbn. rewrite S2, F2, R2. auto.
Qed.

End FrameFacts.

Section OperationFacts.
Import Str Backend Sessions SpecSide BackendSide UploadSide.
Context (env : Env).

(** The world after an accepted upload, store by store. *)
Lemma process_upload_accepted (w : World) (session : ref) (s : Session)
    (cat : ArtifactCatalog) (file : UploadFile) (title_arg : option string)
    (description_arg : string) (tags_arg : option (list string))
    (hex8 : string) :
  session_objs w !! session = Some s ->
  catalog_objs w !! catalog s = Some cat ->
  validate_file env file (content file) = inr tt ->
  exists w',
    process_upload env w session file title_arg description_arg tags_arg hex8
      = Some (w', inr (fresh (dom (artifact_objs w))))
    /\ artifact_objs w'
       = <[fresh (dom (artifact_objs w)) :=
             set_tags (upload_artifact env s file title_arg description_arg
                         tags_arg hex8)
               (fresh (dom (tag_lists w)))]> (artifact_objs w)
    /\ tag_lists w'
       = <[fresh (dom (tag_lists w)) := default [] tags_arg ++ ["user_upload"]]>
           (tag_lists w)
    /\ catalog_objs w'
       = <[catalog s :=
             mkArtifactCatalog (artifact_count cat + 1)
               (artifacts cat ++ [fresh (dom (artifact_objs w))])]>
           (catalog_objs w)
    /\ session_objs w' = <[session := add_upload s hex8]> (session_objs w)
    /\ files w'
       = <[upload_path env s file hex8 := BytesFile (content file)]> (files w)
    /\ _sessions w' = _sessions w
    /\ _base_catalog w' = _base_catalog w.
Proof.
  intros Hs Hc Hv. unfold process_upload. rewrite Hv, Hs. cbn.
  rewrite Hc. cbn. eexists. split; [reflexivity|]. cbn. repeat split.
Qed.

Lemma upload_artifact_data (w w' : World) (a t : ref)
    (d : Artifact (list string)) :
  artifact_objs w' = <[a := set_tags d t]> (artifact_objs w) ->
  tag_lists w' = <[t := tags d]> (tag_lists w) ->
  artifact_data w' a = Some d.
Proof.
  intros Ha Ht. unfold artifact_data. rewrite Ha, lookup_insert_eq. cbn.
  rewrite Ht, lookup_insert_eq. cbn. rewrite set_tags_tags. reflexivity.
Qed.

(** After an accepted upload the session's catalog denotes what it
    denoted, with the new artifact at the end and the count one higher;
    every other catalog denotes what it denoted. *)
Lemma process_upload_data (w : World) (session : ref) (s : Session)
    (n : Z) (ds : list (Artifact (list string))) (file : UploadFile)
    (title_arg : option string) (description_arg : string)
    (tags_arg : option (list string)) (hex8 : string) :
  session_objs w !! session = Some s ->
  catalog_data w (catalog s) = Some (n, ds) ->
  validate_file env file (content file) = inr tt ->
  exists w' a,
    process_upload env w session file title_arg description_arg tags_arg hex8
      = Some (w', inr a)
    /\ artifact_objs w !! a = None
    /\ (exists t,
          artifact_objs w' !! a
          = Some (set_tags (upload_artifact env s file title_arg
                              description_arg tags_arg hex8) t))
    /\ artifact_data w' a
       = Some (upload_artifact env s file title_arg description_arg tags_arg hex8)
    /\ catalog_data w' (catalog s)
       = Some (n + 1,
               ds ++ [upload_artifact env s file title_arg description_arg
                        tags_arg hex8])
    /\ objects_kept w w'
    /\ (forall c, c <> catalog s -> catalog_objs w' !! c = catalog_objs w !! c)
    /\ session_objs w' = <[session := add_upload s hex8]> (session_objs w)
    /\ files w'
       = <[upload_path env s file hex8 := BytesFile (content file)]> (files w)
    /\ _sessions w' = _sessions w
    /\ _base_catalog w' = _base_catalog w.
Proof.
  intros Hs Hd Hv.
  destruct (catalog_data_inv _ _ _ Hd) as (cat & ds' & Hc & Hds & E).
  injection E as -> <-.
  destruct (process_upload_accepted w session s cat file title_arg
              description_arg tags_arg hex8 Hs Hc Hv)
    as (w' & Hp & Ha & Ht & Hcat & Hses & Hf & Hr & Hb).
  exists w', (fresh (dom (artifact_objs w))).
  assert (K : objects_kept w w').
  { split.
    - intros a obj Hobj. rewrite Ha. apply insert_fresh_kept. exact Hobj.
    - intros t l Hl. rewrite Ht. apply insert_fresh_kept. exact Hl. }
  assert (Hnew : artifact_data w' (fresh (dom (artifact_objs w)))
                 = Some (upload_artifact env s file title_arg description_arg
                           tags_arg hex8))
    by (apply (upload_artifact_data w w' _ (fresh (dom (tag_lists w))));
        assumption).
  split; [exact Hp|]. split; [apply fresh_lookup_None|].
  split; [eexists; rewrite Ha; apply lookup_insert_eq|].
  split; [exact Hnew|].
  split.
  { unfold catalog_data. rewrite Hcat, lookup_insert_eq. cbn.
    rewrite (mapM_snoc_Some (artifact_data w') (artifacts cat) ds
               (fresh (dom (artifact_objs w)))
               (upload_artifact env s file title_arg description_arg tags_arg
                  hex8));
      [reflexivity| |exact Hnew].
    rewrite (mapM_ext_in (artifact_data w) (artifact_data w')); [exact Hds|].
    intros a Hin. destruct (mapM_Some_in _ _ _ Hds a Hin) as [d Hda].
    rewrite Hda. apply (artifact_data_kept w); assumption. }
  split; [exact K|].
  split; [intros c Hne; rewrite Hcat; apply lookup_insert_ne; auto|].
  auto.
Qed.

(** A hit of the scan is the first artifact with the id. *)
Lemma find_artifact_first (w : World) (aid : string) (refs : list ref)
    (i0 i : nat) (obj : Artifact ref) :
  find_artifact w aid refs i0 = Some (Some (i, obj)) ->
  forall j r' obj',
    (j < i - i0)%nat -> refs !! j = Some r' ->
    artifact_objs w !! r' = Some obj' -> artifact_id obj' <> aid.
Proof.
  revert i0. induction refs as [|r refs IH]; intros i0 H; [discriminate|].
  cbn in H. destruct (artifact_objs w !! r) as [o|] eqn:Eo; [|discriminate].
  cbn in H. destruct (String.eqb (artifact_id o) aid) eqn:E.
  - injection H as <- <-. intros j r' obj' Hj. lia.
  - intros j r' obj' Hj Hr' Ho'. destruct j as [|j].
    + cbn in Hr'. injection Hr' as <-. rewrite Eo in Ho'. injection Ho' as <-.
      apply String.eqb_neq. exact E.
    + apply (IH (S i0) H j r' obj'); [lia|exact Hr'|exact Ho'].
Qed.

(** The world after a removal, store by store. *)
Lemma remove_artifact_cases (w : World) (session : ref) (s : Session)
    (n : Z) (ds : list (Artifact (list string))) (aid : string) :
  session_objs w !! session = Some s ->
  catalog_data w (catalog s) = Some (n, ds) ->
  remove_artifact env w session aid = Some (w, false)
  \/ exists w' cat i r obj,
       remove_artifact env w session aid = Some (w', true)
       /\ str_in aid (uploaded_images s) = true
       /\ catalog_objs w !! catalog s = Some cat
       /\ artifacts cat !! i = Some r
       /\ artifact_objs w !! r = Some obj
       /\ artifact_id obj = aid
       /\ (forall j r' obj',
             (j < i)%nat -> artifacts cat !! j = Some r' ->
             artifact_objs w !! r' = Some obj' -> artifact_id obj' <> aid)
       /\ artifact_objs w' = artifact_objs w
       /\ tag_lists w' = tag_lists w
       /\ catalog_objs w'
          = <[catalog s :=
                mkArtifactCatalog (n - 1) (base.delete i (artifacts cat))]>
              (catalog_objs w)
       /\ catalog_data w' (catalog s) = Some (n - 1, base.delete i ds)
       /\ session_objs w'
          = <[session :=
                mkSession (session_id s) (created_at s) (session_dir s)
                  (catalog s) (remove_first aid (uploaded_images s))]>
              (session_objs w)
       /\ files w'
          = base.delete (path_resolve env (save_path obj)) (files w)
       /\ _sessions w' = _sessions w
       /\ _base_catalog w' = _base_catalog w.
Proof.
  intros Hs Hd.
  destruct (catalog_data_inv _ _ _ Hd) as (cat & ds' & Hc & Hds & E).
  injection E as -> <-.
  unfold remove_artifact. rewrite Hs. cbn.
  destruct (str_in aid (uploaded_images s)) eqn:Ein; cbn; [|left; reflexivity].
  rewrite Hc. cbn.
  destruct (find_artifact_total w aid (artifacts cat) 0) as (found & Hfound & Hspec).
  { intros a Ha. apply artifact_data_obj. exact (mapM_Some_in _ _ _ Hds a Ha). }
  rewrite Hfound.
  cbn. destruct found as [[i obj]|]; [|left; reflexivity].
  pose proof (find_artifact_first _ _ _ _ _ _ Hfound) as Hfirst.
  rewrite Nat.sub_0_r in Hfirst.
  destruct Hspec as (_ & r & Hr & Ho & Hid). rewrite Nat.sub_0_r in Hr.
  right. eexists _, cat, i, r, obj. split; [reflexivity|].
  split; [reflexivity|]. split; [reflexivity|]. split; [exact Hr|].
  split; [exact Ho|]. split; [exact Hid|]. split; [exact Hfirst|]. cbn.
  split; [reflexivity|]. split; [reflexivity|]. split; [reflexivity|].
  split; [|repeat split].
  unfold catalog_data. cbn. rewrite lookup_insert_eq. cbn.
  change (mapM _ (base.delete i (artifacts cat)))
    with (mapM (artifact_data w) (base.delete i (artifacts cat))).
  rewrite (mapM_delete_Some _ _ _ i Hds). reflexivity.
Qed.

Lemma well_formed_step (w w' : World) :
  well_formed w ->
  _base_catalog w' = _base_catalog w ->
  (forall c, is_Some (catalog_data w c) -> is_Some (catalog_data w' c)) ->
  (forall sid sr, _sessions w' !! sid = Some sr -> _sessions w !! sid = Some sr) ->
  (forall sr s, session_objs w !! sr = Some s ->
     exists s', session_objs w' !! sr = Some s' /\ catalog s' = catalog s) ->
  well_formed w'.
Proof.
  intros [Hb Hs] Eb Hd Hr Ho. split.
  - intros b Hb'. rewrite Eb in Hb'. apply Hd, Hb, Hb'.
  - intros sid sr Hsid. destruct (Hs sid sr (Hr _ _ Hsid)) as (s & Hobj & Hdata).
    destruct (Ho sr s Hobj) as (s' & Hobj' & Hcat).
    exists s'. split; [exact Hobj'|]. rewrite Hcat. apply Hd, Hdata.
Qed.

Lemma process_upload_wf (w : World) (sid : string) (session : ref)
    (file : UploadFile) (title_arg : option string) (description_arg : string)
    (tags_arg : option (list string)) (hex8 : string) :
  well_formed w -> _sessions w !! sid = Some session ->
  exists w' res,
    process_upload env w session file title_arg description_arg tags_arg hex8
      = Some (w', res)
    /\ well_formed w'.
Proof.
  intros Hwf Hsid. destruct (proj2 Hwf sid session Hsid) as (s & Hs & [[n ds] Hd]).
  destruct (validate_file env file (content file)) as [e|[]] eqn:Hv.
  { exists w, (inl e). unfold process_upload. rewrite Hv. auto. }
  destruct (process_upload_data w session s n ds file title_arg description_arg
              tags_arg hex8 Hs Hd Hv)
    as (w' & a & Hp & _ & _ & _ & Hd' & K & Hc & Hses & _ & Hr & Hb).
  exists w', (inr a). split; [exact Hp|].
  apply (well_formed_step w); auto.
  - intros c Hsome. destruct (decide (c = catalog s)) as [->|Hne]; [eauto|].
    destruct Hsome as [d Hdc]. exists d.
    apply (catalog_data_kept w); auto.
  - intros sid0 sr0. rewrite Hr. auto.
  - intros sr0 s0 Hs0. rewrite Hses.
    destruct (decide (sr0 = session)) as [->|Hne].
    + rewrite lookup_insert_eq. rewrite Hs in Hs0. injection Hs0 as <-. eauto.
    + rewrite lookup_insert_ne by auto. eauto.
Qed.

Lemma remove_artifact_wf (w : World) (sid : string) (session : ref)
    (aid : string) :
  well_formed w -> _sessions w !! sid = Some session ->
  exists w' removed,
    remove_artifact env w session aid = Some (w', removed) /\ well_formed w'.
Proof.
  intros Hwf Hsid. destruct (proj2 Hwf sid session Hsid) as (s & Hs & [[n ds] Hd]).
  destruct (remove_artifact_cases w session s n ds aid Hs Hd)
    as [H|(w' & cat & i & r & obj & H & _ & Hc & _ & _ & _ & _ & Ha & Ht & Hcat
           & Hd' & Hses & _ & Hr & Hb)].
  { exists w, false. auto. }
  exists w', true. split; [exact H|].
  apply (well_formed_step w); auto.
  - intros c Hsome. destruct (decide (c = catalog s)) as [->|Hne]; [eauto|].
    destruct Hsome as [d Hdc]. exists d.
    apply (catalog_data_kept w); [split; intros; rewrite ?Ha, ?Ht; auto| |exact Hdc].
    rewrite Hcat. apply lookup_insert_ne. auto.
  - intros sid0 sr0. rewrite Hr. auto.
  - intros sr0 s0 Hs0. rewrite Hses.
    destruct (decide (sr0 = session)) as [->|Hne].
    + rewrite lookup_insert_eq. rewrite Hs in Hs0. injection Hs0 as <-. eauto.
    + rewrite lookup_insert_ne by auto. eauto.
Qed.

Lemma cleanup_session_cases (w : World) (sid : string) :
  well_formed w ->
  (_sessions w !! sid = None /\ cleanup_session env w sid = Some (w, false))
  \/ exists sr s w',
       _sessions w !! sid = Some sr /\ session_objs w !! sr = Some s
       /\ cleanup_session env w sid = Some (w', true)
       /\ _sessions w' = base.delete sid (_sessions w)
       /\ files w' = rmtree (path_resolve env (session_dir s)) (files w)
       /\ session_objs w' = session_objs w
       /\ catalog_objs w' = catalog_objs w
       /\ artifact_objs w' = artifact_objs w
       /\ tag_lists w' = tag_lists w
       /\ _base_catalog w' = _base_catalog w.
Proof.
  intros Hwf. unfold cleanup_session.
  destruct (_sessions w !! sid) as [sr|] eqn:Hsid; [|left; auto].
  destruct (proj2 Hwf sid sr Hsid) as (s & Hs & _). rewrite Hs. cbn.
  right. eexists sr, s, _. split; [reflexivity|]. split; [exact Hs|].
  split; [reflexivity|]. cbn. repeat split.
Qed.

Lemma cleanup_session_wf (w : World) (sid : string) :
  well_formed w ->
  exists w' ok, cleanup_session env w sid = Some (w', ok) /\ well_formed w'.
Proof.
  intros Hwf.
  destruct (cleanup_session_cases w sid Hwf)
    as [[_ H]|(sr & s & w' & _ & _ & H & Hr & _ & Hs & Hc & Ha & Ht & Hb)].
  { exists w, false. auto. }
  exists w', true. split; [exact H|].
  apply (well_formed_step w); auto.
  - intros c. rewrite (catalog_data_frame w w' c); auto.
  - intros sid0 sr0. rewrite Hr. intros Hl.
    apply lookup_delete_Some in Hl. tauto.
  - intros sr0 s0 Hs0. rewrite Hs. eauto.
Qed.

End OperationFacts.

Section CleanupFacts.
Import Str Backend Sessions SpecSide BackendSide UploadSide.
Context (env : Env).

Lemma old_sessions_spec (w : World) (expired : Z -> bool)
    (items : list (string * ref)) :
  (forall sid sr, In (sid, sr) items -> is_Some (session_objs w !! sr)) ->
  NoDup (map fst items) ->
  exists to_remove,
    old_sessions w expired items = Some to_remove
    /\ NoDup to_remove
    /\ forall sid,
         In sid to_remove
         <-> exists sr s, In (sid, sr) items /\ session_objs w !! sr = Some s
                          /\ expired (created_at s) = true.
Proof.
  induction items as [|[sid0 sr0] items IH]; intros Hobj Hnd.
  - exists []. split; [reflexivity|]. split; [constructor|].
    intros sid. split; [intros []|intros (? & ? & [] & _)].
  - cbn [map fst] in Hnd. apply NoDup_cons in Hnd as [Hfresh Hnd].
    destruct IH as (l & Hl & Hndl & Hin); [|exact Hnd|].
    { intros sid sr H. apply (Hobj sid sr). right. exact H. }
    destruct (Hobj sid0 sr0 (or_introl eq_refl)) as [s0 Hs0].
    cbn [old_sessions]. rewrite Hs0. cbn. rewrite Hl. cbn.
    assert (Hnot : ~ In sid0 l).
    { intros H. apply Hin in H as (sr & s & H & _). apply Hfresh.
      apply list_elem_of_In. apply (in_map fst) in H. exact H. }
    destruct (expired (created_at s0)) eqn:E.
    + exists (sid0 :: l). split; [reflexivity|].
      split; [apply NoDup_cons; split; [rewrite list_elem_of_In; exact Hnot|exact Hndl]|].
      intros sid. split.
      * intros [<-|H]; [exists sr0, s0; split; [left; reflexivity|auto]|].
        apply Hin in H as (sr & s & H & Hs & He).
        exists sr, s. split; [right; exact H|auto].
      * intros (sr & s & [H|H] & Hs & He).
        -- injection H as <- <-. left. reflexivity.
        -- right. apply Hin. eauto.
    + exists l. split; [reflexivity|]. split; [exact Hndl|].
      intros sid. split.
      * intros H. apply Hin in H as (sr & s & H & Hs & He).
        exists sr, s. split; [right; exact H|auto].
      * intros (sr & s & [H|H] & Hs & He).
        -- injection H as <- <-. rewrite Hs0 in Hs. injection Hs as <-.
           rewrite E in He. discriminate.
        -- apply Hin. eauto.
Qed.

Lemma cleanup_all_spec (to_remove : list string) (w : World) (cleaned : Z) :
  well_formed w ->
  NoDup to_remove ->
  (forall sid, In sid to_remove -> is_Some (_sessions w !! sid)) ->
  exists w',
    cleanup_all env w to_remove cleaned
      = Some (w', cleaned + Z.of_nat (length to_remove))
    /\ well_formed w'
    /\ session_objs w' = session_objs w
    /\ (forall sid,
          _sessions w' !! sid
          = if decide (sid ∈ to_remove) then None else _sessions w !! sid)
    /\ (forall p x, files w' !! p = Some x -> files w !! p = Some x).
Proof.
  revert w cleaned. induction to_remove as [|sid l IH]; intros w cleaned Hwf Hnd Hreg.
  - exists w. cbn. rewrite Z.add_0_r.
    split; [reflexivity|]. split; [exact Hwf|]. repeat split; auto.
  - apply NoDup_cons in Hnd as [Hfresh Hnd].
    rewrite list_elem_of_In in Hfresh.
    destruct (Hreg sid (or_introl eq_refl)) as [sr Hsr].
    destruct (cleanup_session_cases env w sid Hwf)
      as [[Hnone _]|(sr' & s & w1 & _ & _ & H & Hr & Hf & Hs & Hc & Ha & Ht & Hb)];
      [rewrite Hnone in Hsr; discriminate|].
    assert (Hwf1 : well_formed w1).
    { destruct (cleanup_session_wf env w sid Hwf) as (w1' & ok & H' & Hwf').
      rewrite H in H'. injection H' as <- _. exact Hwf'. }
    destruct (IH w1 (cleaned + 1) Hwf1 Hnd) as (w' & Hall & Hwf' & Hs' & Hr' & Hf').
    { intros sid0 Hin. rewrite Hr.
      destruct (Hreg sid0 (or_intror Hin)) as [x Hx]. exists x.
      rewrite lookup_delete_ne; [exact Hx|]. intros ->. contradiction. }
    exists w'. cbn [cleanup_all]. rewrite H. cbn. rewrite Hall.
    split; [f_equal; f_equal; cbn [length]; lia|].
    split; [exact Hwf'|]. split; [rewrite Hs', Hs; reflexivity|]. split.
    + intros sid0. rewrite Hr'.
      destruct (decide (sid0 ∈ l)) as [Hin|Hout].
      * rewrite decide_True by (apply elem_of_cons; right; exact Hin).
        reflexivity.
      * rewrite Hr. destruct (decide (sid0 = sid)) as [->|Hne].
        -- rewrite decide_True by (apply elem_of_cons; left; reflexivity).
           apply lookup_delete_eq.
        -- rewrite decide_False
             by (intros E; apply elem_of_cons in E as [E|E];
                 [apply Hne; auto|contradiction]).
           apply lookup_delete_ne. auto.
    + intros p x Hp. apply Hf' in Hp. rewrite Hf in Hp.
      unfold rmtree in Hp. apply map_lookup_filter_Some in Hp. tauto.
Qed.

End CleanupFacts.

Section BackendClaims.
Import Str Backend Sessions SpecSide BackendSide UploadSide Deployment.

(** Creating a session always succeeds in a world whose references
    resolve.  The session is registered under its id with a new session
    object, no uploads, and a catalog object that did not exist before;
    that catalog denotes what the base catalog denotes, and its
    serialisation is on disk as the session's catalog.json.  Sessions
    registered under other ids, the objects, what the existing catalogs
    denote and all other files are as before. *)
Theorem create_session_registers (env : Env) (w : World) (sid : string)
    (now : Z) :
  well_formed w ->
  exists sr w' c d,
    create_session env w sid now = Some (sr, w')
    /\ well_formed w'
    /\ get_session w' sid = Some sr
    /\ session_objs w !! sr = None
    /\ session_objs w' !! sr
       = Some (mkSession sid now (path_join (base_dir env) sid) c [])
    /\ (forall c0, is_Some (catalog_objs w !! c0) -> c <> c0)
    /\ catalog_data w' c = Some d
    /\ (forall b, _base_catalog w' = Some b -> catalog_data w' b = Some d)
    /\ (_base_catalog w = None ->
        d = match base_catalog_file env with
            | Some d0 => d0
            | None => (0, [])
            end)
    /\ files w'
       = <[path_resolve env
             (path_join (path_join (base_dir env) sid) "catalog.json") :=
             TextFile (model_dump_json env d)]> (files w)
    /\ (forall sid0, sid0 <> sid -> get_session w' sid0 = get_session w sid0)
    /\ (forall sr0 s0, session_objs w !! sr0 = Some s0 ->
          session_objs w' !! sr0 = Some s0)
    /\ (forall c0, is_Some (catalog_data w c0) ->
          catalog_data w' c0 = catalog_data w c0).
Proof.
  intros Hwf.
  destruct (create_session_catalog_total env w (proj1 Hwf))
    as (c & w1 & b & Hc & Hb & [d Hd] & Hcb & Hold & Hfirst & Hnew & K & C & S & F & R).
  unfold create_session. rewrite Hc. cbn.
  unfold _save_session_catalog. cbn [catalog].
  set (session := mkSession sid now (path_join (base_dir env) sid) c []).
  set (sr := fresh (dom (session_objs w1))).
  set (w2 := with_session_objs w1 (<[sr := session]> (session_objs w1))).
  assert (Hd2 : forall c0, catalog_data w2 c0 = catalog_data w1 c0)
    by (intros c0; apply catalog_data_frame; reflexivity).
  rewrite Hd2, Hcb, Hd. cbn.
  set (w4 := with_sessions _ _).
  assert (Hd4 : forall c0, catalog_data w4 c0 = catalog_data w1 c0)
    by (intros c0; apply catalog_data_frame; reflexivity).
  assert (Hkeep : forall c0, is_Some (catalog_data w c0) ->
                    catalog_data w4 c0 = catalog_data w c0).
  { intros c0 Hsome. rewrite Hd4. apply catalog_data_kept_Some; assumption. }
  assert (Hsr : session_objs w !! sr = None).
  { unfold sr. rewrite S. apply fresh_lookup_None. }
  exists sr, w4, c, d. split; [reflexivity|].
  split.
  { split.
    - intros b0 Hb0. cbn in Hb0. rewrite Hb in Hb0. injection Hb0 as <-.
      rewrite Hd4, Hd. eauto.
    - intros sid0 sr0. cbn. rewrite R.
      destruct (decide (sid0 = sid)) as [->|Hne].
      + rewrite lookup_insert_eq. intros E. injection E as <-.
        exists session. rewrite lookup_insert_eq. split; [reflexivity|].
        cbn [catalog session]. rewrite Hd4, Hcb, Hd. eauto.
      + rewrite lookup_insert_ne by auto. intros Hreg.
        destruct (proj2 Hwf sid0 sr0 Hreg) as (s0 & Hs0 & Hdata).
        exists s0. split.
        * cbn. apply insert_fresh_kept. rewrite S. exact Hs0.
        * rewrite (Hkeep _ Hdata). exact Hdata. }
  split; [cbn; unfold get_session; cbn; apply lookup_insert_eq|].
  split; [exact Hsr|].
  split; [cbn; apply lookup_insert_eq|].
  split; [exact Hnew|].
  split; [rewrite Hd4, Hcb; exact Hd|].
  split.
  { intros b0 Hb0. cbn in Hb0. rewrite Hb in Hb0. injection Hb0 as <-.
    rewrite Hd4. exact Hd. }
  split.
  { intros Hnone. specialize (Hfirst Hnone). rewrite Hd in Hfirst.
    injection Hfirst as ->. reflexivity. }
  split; [cbn; rewrite F; reflexivity|].
  split.
  { intros sid0 Hne. unfold get_session. cbn. rewrite R.
    apply lookup_insert_ne. auto. }
  split.
  { intros sr0 s0 Hs0. cbn. apply insert_fresh_kept.
    rewrite S. exact Hs0. }
  exact Hkeep.
Qed.

Lemma create_session_registers_witness :
  exists sr w',
    create_session env empty_world "sid-a" 0 = Some (sr, w')
    /\ well_formed w'
    /\ get_session w' "sid-a" = Some sr.
Proof.
  assert (Hwf : well_formed empty_world).
  { split.
    - intros b H. discriminate.
    - intros sid sr H. cbn in H. rewrite lookup_empty in H. discriminate. }
  destruct (create_session_registers env empty_world "sid-a" 0 Hwf)
    as (sr & w' & c & d & H & Hwf' & Hg & _).
  exists sr, w'. auto.
Defined.

End BackendClaims.

(* ===================================================================== *)
(** * Sessions and image endpoints *)
(* ===================================================================== *)

Section EndpointFacts.
Import Str Backend Sessions Api SpecSide BackendSide UploadSide Deployment.
Context (env : Env).

Lemma map_fst_fmap {A B : Type} (l : list (A * B)) : map fst l = l.*1.
Proof. induction l as [|x l IH]; [reflexivity|]. cbn. rewrite IH. reflexivity. Qed.

Lemma old_sessions_of_registry (w : World) (expired : Z -> bool) :
  well_formed w ->
  exists to_remove,
    old_sessions w expired (map_to_list (_sessions w)) = Some to_remove
    /\ NoDup to_remove
    /\ forall sid,
         In sid to_remove
         <-> exists sr s, _sessions w !! sid = Some sr
                          /\ session_objs w !! sr = Some s
                          /\ expired (created_at s) = true.
Proof.
  intros Hwf.
  destruct (old_sessions_spec w expired (map_to_list (_sessions w)))
    as (l & Hl & Hnd & Hin).
  - intros sid sr H. apply list_elem_of_In, elem_of_map_to_list in H.
    destruct (proj2 Hwf sid sr H) as (s & Hs & _). eauto.
  - rewrite map_fst_fmap. apply NoDup_fst_map_to_list.
  - exists l. split; [exact Hl|]. split; [exact Hnd|].
    intros sid. rewrite Hin. split.
    + intros (sr & s & H & Hs & He). exists sr, s.
      apply list_elem_of_In, elem_of_map_to_list in H. auto.
    + intros (sr & s & H & Hs & He). exists sr, s.
      split; [|auto]. apply list_elem_of_In, elem_of_map_to_list. exact H.
Qed.

Lemma rmtree_lookup (dir p : string) (fs : gmap string FileData) :
  rmtree dir fs !! p = if below dir p then None else fs !! p.
Proof.
  unfold rmtree. destruct (below dir p) eqn:E.
  - apply map_lookup_filter_None. right. intros x _. cbn. rewrite E. discriminate.
  - destruct (fs !! p) as [x|] eqn:F.
    + apply map_lookup_filter_Some. split; [exact F|exact E].
    + apply map_lookup_filter_None. left. exact F.
Qed.

Lemma find_artifact_none (w : World) (aid : string) (refs : list ref) (i0 : nat) :
  find_artifact w aid refs i0 = Some None ->
  forall r obj, In r refs -> artifact_objs w !! r = Some obj ->
                artifact_id obj <> aid.
Proof.
  revert i0. induction refs as [|r0 refs IH]; intros i0 H r obj Hin Ho;
    [destruct Hin|].
  cbn in H. destruct (artifact_objs w !! r0) as [o|] eqn:Eo; [|discriminate].
  cbn in H. destruct (String.eqb (artifact_id o) aid) eqn:E; [discriminate|].
  destruct Hin as [<-|Hin].
  - rewrite Eo in Ho. injection Ho as <-. apply String.eqb_neq. exact E.
  - exact (IH _ H r obj Hin Ho).
Qed.

(** A removal is refused only for an id that is not an upload of the
    session or that no artifact of the catalog carries. *)
Lemma remove_artifact_refused (w w' : World) (session : ref) (s : Session)
    (cat : ArtifactCatalog) (aid : string) :
  session_objs w !! session = Some s ->
  catalog_objs w !! catalog s = Some cat ->
  remove_artifact env w session aid = Some (w', false) ->
  str_in aid (uploaded_images s) = false
  \/ forall r obj, In r (artifacts cat) -> artifact_objs w !! r = Some obj ->
                   artifact_id obj <> aid.
Proof.
  intros Hs Hc. unfold remove_artifact. rewrite Hs. cbn.
  destruct (str_in aid (uploaded_images s)); cbn; [|auto].
  rewrite Hc. cbn.
  destruct (find_artifact w aid (artifacts cat) 0) as [[[i obj]|]|] eqn:E; cbn;
    [discriminate| |discriminate].
  intros _. right. exact (find_artifact_none _ _ _ _ E).
Qed.

Lemma artifact_data_fields (w : World) (r : ref) (d : Artifact (list string)) :
  artifact_data w r = Some d ->
  exists obj, artifact_objs w !! r = Some obj
              /\ artifact_id d = artifact_id obj
              /\ save_path d = save_path obj.
Proof.
  unfold artifact_data. destruct (artifact_objs w !! r) as [obj|]; [|discriminate].
  cbn. destruct (tag_lists w !! tags obj); [|discriminate]. cbn.
  intros H. injection H as <-. exists obj. auto.
Qed.

Lemma mapM_lookup {A B : Type} (f : A -> option B) (l : list A) (bs : list B) :
  mapM f l = Some bs ->
  forall i,
    (forall a, l !! i = Some a -> exists b, bs !! i = Some b /\ f a = Some b)
    /\ (forall b, bs !! i = Some b -> exists a, l !! i = Some a /\ f a = Some b).
Proof.
  revert bs. induction l as [|x l IH]; intros bs H i.
  - injection H as <-. split; intros ? Hl; destruct i; discriminate.
  - apply mapM_cons_Some in H as (y & bs' & Hx & Hl & ->).
    destruct i as [|i]; cbn.
    + split.
      * intros a E. injection E as <-. eauto.
      * intros b E. injection E as <-. eauto.
    + exact (IH _ Hl i).
Qed.

Lemma one_session_world_wf : well_formed one_session_world.
Proof.
  split.
  - intros b Hb. vm_compute in Hb. injection Hb as <-. vm_compute. eauto.
  - intros sid sr H.
    assert (E : _sessions one_session_world = <["sid-a" := 0%nat]> ∅)
      by (vm_compute; reflexivity).
    rewrite E in H. apply lookup_insert_Some in H as [[<- <-]|[_ H]].
    + exists session_a. split; vm_compute; eauto.
    + rewrite lookup_empty in H. discriminate.
Qed.

End EndpointFacts.

Section SessionClaims.
Import Str Backend Sessions Api SpecSide BackendSide UploadSide Deployment.

(** Cleaning up a session.  An unknown id changes nothing and returns
    false.  A registered id returns true: the id is no longer registered,
    every file below the session directory is gone and no other file is
    touched, other sessions stay registered, and the session object and
    the catalogs stay in memory for whoever still holds them.  A second
    cleanup of the same id returns false, which the endpoint answers with
    404. *)
Theorem cleanup_session_forgets (env : Env) (w : World) (sid : string) :
  well_formed w ->
  (get_session w sid = None -> cleanup_session env w sid = Some (w, false))
  /\ (forall sr,
        get_session w sid = Some sr ->
        exists s w',
          session_objs w !! sr = Some s
          /\ cleanup_session env w sid = Some (w', true)
          /\ get_session w' sid = None
          /\ (forall sid0, sid0 <> sid -> get_session w' sid0 = get_session w sid0)
          /\ (forall p,
                files w' !! p
                = if below (path_resolve env (session_dir s)) p then None
                  else files w !! p)
          /\ session_objs w' = session_objs w
          /\ catalog_objs w' = catalog_objs w
          /\ cleanup_session env w' sid = Some (w', false)
          /\ delete_session env w' sid
             = Some (w', inl (mkHTTPException 404 (Text "Session not found")))).
Proof.
  intros Hwf. unfold get_session. split.
  - intros Hnone. unfold cleanup_session. rewrite Hnone. reflexivity.
  - intros sr Hreg.
    destruct (cleanup_session_cases env w sid Hwf)
      as [[Hnone _]|(sr' & s & w' & Hreg' & Hs & H & Hr & Hf & Hso & Hc & _)];
      [rewrite Hnone in Hreg; discriminate|].
    rewrite Hreg in Hreg'. injection Hreg' as <-.
    assert (Hgone : _sessions w' !! sid = None)
      by (rewrite Hr; apply lookup_delete_eq).
    assert (Hagain : cleanup_session env w' sid = Some (w', false))
      by (unfold cleanup_session; rewrite Hgone; reflexivity).
    exists s, w'. split; [exact Hs|]. split; [exact H|].
    split; [exact Hgone|].
    split; [intros sid0 Hne; rewrite Hr; apply lookup_delete_ne; auto|].
    split; [intros p; rewrite Hf; apply rmtree_lookup|].
    split; [exact Hso|]. split; [exact Hc|]. split; [exact Hagain|].
    unfold delete_session. rewrite Hagain. reflexivity.
Qed.

Lemma cleanup_session_forgets_witness :
  exists s w',
    session_objs one_session_world !! 0%nat = Some s
    /\ cleanup_session env one_session_world "sid-a" = Some (w', true)
    /\ get_session w' "sid-a" = None.
Proof.
  assert (Hreg : get_session one_session_world "sid-a" = Some 0%nat)
    by (vm_compute; reflexivity).
  destruct (proj2 (cleanup_session_forgets env one_session_world "sid-a"
                     one_session_world_wf) 0%nat Hreg)
    as (s & w' & Hs & H & Hg & _).
  exists s, w'. auto.
Defined.

(** Cleaning up old sessions.  The sessions removed are exactly the
    registered sessions whose age test holds, each once; the number
    returned is their count; they are no longer registered and every
    other session still is; no file is created. *)
Theorem cleanup_old_sessions_spec (env : Env) (w : World)
    (expired : Z -> bool) :
  well_formed w ->
  exists w' (removed : list string),
    cleanup_old_sessions env w expired = Some (w', Z.of_nat (length removed))
    /\ NoDup removed
    /\ (forall sid,
          sid ∈ removed
          <-> exists sr s, get_session w sid = Some sr
                           /\ session_objs w !! sr = Some s
                           /\ expired (created_at s) = true)
    /\ (forall sid,
          get_session w' sid
          = if decide (sid ∈ removed) then None else get_session w sid)
    /\ session_objs w' = session_objs w
    /\ (forall p x, files w' !! p = Some x -> files w !! p = Some x)
    /\ well_formed w'.
Proof.
  intros Hwf. unfold cleanup_old_sessions, get_session.
  destruct (old_sessions_of_registry w expired Hwf) as (l & Hl & Hnd & Hin).
  rewrite Hl. cbn.
  destruct (cleanup_all_spec env l w 0 Hwf Hnd) as (w' & H & Hwf' & Hs & Hr & Hf).
  { intros sid Hsid. apply Hin in Hsid as (sr & _ & Hsr & _). eauto. }
  exists w', l. rewrite H. split; [reflexivity|]. split; [exact Hnd|].
  split; [intros sid; rewrite list_elem_of_In; apply Hin|].
  auto.
Qed.

Lemma cleanup_old_sessions_spec_witness :
  exists w' (removed : list string),
    cleanup_old_sessions env one_session_world (fun created => created <? 10)
      = Some (w', Z.of_nat (length removed))
    /\ NoDup removed.
Proof.
  destruct (cleanup_old_sessions_spec env one_session_world
              (fun created => created <? 10) one_session_world_wf)
    as (w' & removed & H & Hnd & _).
  exists w', removed. auto.
Defined.

End SessionClaims.

Section ApiClaims.
Import Str Backend Sessions Api SpecSide BackendSide UploadSide Deployment.

(** The upload endpoint.  An unknown session is answered with 404 and a
    rejected file with 400, and neither changes anything.  An accepted
    file is answered with the id, title and stored path of the new
    artifact: the session's catalog then denotes what it denoted with the
    new artifact at the end and the count one higher, the id is among the
    session's uploads, the bytes are stored under the recorded path, and
    the session's catalog.json holds the serialisation of the updated
    catalog. *)
Theorem upload_image_outcome (env : Env) (w : World) (sid : string)
    (file : UploadFile) (title_arg : option string)
    (description_arg tags_arg hex8 : string) :
  well_formed w ->
  (get_session w sid = None ->
   upload_image env w sid file title_arg description_arg tags_arg hex8
   = Some (w, inl (mkHTTPException 404 (Text "Session not found"))))
  /\ (forall session why,
        get_session w sid = Some session ->
        validate_file env file (content file) = inl (ImageValidationError why) ->
        upload_image env w sid file title_arg description_arg tags_arg hex8
        = Some (w, inl (mkHTTPException 400 (Validation why))))
  /\ (forall session,
        get_session w sid = Some session ->
        validate_file env file (content file) = inr tt ->
        exists w' s n ds,
          session_objs w !! session = Some s
          /\ catalog_data w (catalog s) = Some (n, ds)
          /\ upload_image env w sid file title_arg description_arg tags_arg hex8
             = Some (w', inr (mkImageUploadResponse (upload_id hex8)
                                (upload_title env file title_arg hex8)
                                (upload_path env s file hex8)))
          /\ session_objs w' !! session = Some (add_upload s hex8)
          /\ catalog_data w' (catalog s)
             = Some (n + 1,
                     ds ++ [upload_artifact env s file title_arg description_arg
                              (Some (parse_tags tags_arg)) hex8])
          /\ catalog_saved env w' session
          /\ files w'
             = <[path_resolve env (catalog_path s) :=
                   TextFile
                     (model_dump_json env
                        (n + 1,
                         ds ++ [upload_artifact env s file title_arg
                                  description_arg (Some (parse_tags tags_arg))
                                  hex8]))]>
                 (<[upload_path env s file hex8 := BytesFile (content file)]>
                    (files w))
          /\ well_formed w').
Proof.
  intros Hwf. unfold upload_image, get_session_or_404.
  split; [intros ->; reflexivity|]. split.
  - intros session why -> Hv. unfold process_upload. rewrite Hv. reflexivity.
  - intros session Hreg Hv. rewrite Hreg.
    destruct (proj2 Hwf sid session Hreg) as (s & Hs & [[n ds] Hd]).
    destruct (process_upload_data env w session s n ds file title_arg
                description_arg (Some (parse_tags tags_arg)) hex8 Hs Hd Hv)
      as (w1 & a & Hp & _ & (t & Ha) & _ & Hd1 & K & Hc & Hses & Hf & Hr & Hb).
    destruct (process_upload_wf env w sid session file title_arg description_arg
                (Some (parse_tags tags_arg)) hex8 Hwf Hreg)
      as (w1' & res' & Hp' & Hwf1).
    rewrite Hp in Hp'. injection Hp' as <- _.
    rewrite Hp. cbn.
    assert (Hs1 : session_objs w1 !! session = Some (add_upload s hex8))
      by (rewrite Hses; apply lookup_insert_eq).
    rewrite Hs1. cbn. unfold update_catalog, _save_session_catalog.
    cbn [catalog add_upload]. rewrite Hd1. cbn. rewrite Ha. cbn.
    eexists _, s, n, ds. split; [exact Hs|]. split; [exact Hd|].
    split; [reflexivity|].
    match goal with
    | |- context [with_files w1 ?m] => set (w2 := with_files w1 m)
    end.
    assert (Hd2 : forall c, catalog_data w2 c = catalog_data w1 c)
      by (intros c; apply catalog_data_frame; reflexivity).
    split; [exact Hs1|]. split; [rewrite Hd2; exact Hd1|].
    split.
    { exists (add_upload s hex8), (n + 1,
         ds ++ [upload_artifact env s file title_arg description_arg
                  (Some (parse_tags tags_arg)) hex8]).
      split; [exact Hs1|]. split; [rewrite Hd2; exact Hd1|].
      cbn. apply lookup_insert_eq. }
    split; [cbn; rewrite Hf; reflexivity|].
    apply (well_formed_step w1);
      [exact Hwf1|reflexivity|intros c Hsome; rewrite Hd2; exact Hsome
      |intros ? ? Hx; exact Hx|intros sr0 s0 Hs0; exists s0; auto].
Qed.

Lemma upload_image_outcome_witness :
  exists w' s n ds,
    session_objs one_session_world !! 0%nat = Some s
    /\ catalog_data one_session_world (catalog s) = Some (n, ds)
    /\ upload_image env one_session_world "sid-a" png_file None "" "a, b"
         "deadbeef"
       = Some (w', inr (mkImageUploadResponse (upload_id "deadbeef")
                          (upload_title env png_file None "deadbeef")
                          (upload_path env s png_file "deadbeef")))
    /\ catalog_saved env w' 0%nat.
Proof.
  assert (Hreg : get_session one_session_world "sid-a" = Some 0%nat)
    by (vm_compute; reflexivity).
  assert (Hv : validate_file env png_file (content png_file) = inr tt)
    by (vm_compute; reflexivity).
  destruct (proj2 (proj2 (upload_image_outcome env one_session_world "sid-a"
                            png_file None "" "a, b" "deadbeef"
                            one_session_world_wf)) 0%nat Hreg Hv)
    as (w' & s & n & ds & Hs & Hd & H & _ & _ & Hsaved & _).
  exists w', s, n, ds. auto.
Defined.

(** The delete endpoint.  An unknown session is answered with 404.  For a
    registered session the answer is 404, with nothing changed, when the
    id is not among the session's uploads or no artifact of its catalog
    carries it; otherwise the first artifact with that id leaves the
    catalog, the count goes down by one, the first occurrence of the id
    leaves the uploads, the stored file is deleted, and the session's
    catalog.json holds the serialisation of the updated catalog. *)
Theorem delete_image_outcome (env : Env) (w : World) (sid aid : string) :
  well_formed w ->
  (get_session w sid = None ->
   delete_image env w sid aid
   = Some (w, inl (mkHTTPException 404 (Text "Session not found"))))
  /\ (forall session,
        get_session w sid = Some session ->
        exists s n ds,
          session_objs w !! session = Some s
          /\ catalog_data w (catalog s) = Some (n, ds)
          /\ ((delete_image env w sid aid
               = Some (w, inl (mkHTTPException 404
                                 (Text "Image not found or not user-uploaded")))
               /\ (str_in aid (uploaded_images s) = false
                   \/ forall d, In d ds -> artifact_id d <> aid))
              \/ exists w' i d,
                   delete_image env w sid aid = Some (w', inr "deleted")
                   /\ str_in aid (uploaded_images s) = true
                   /\ ds !! i = Some d
                   /\ artifact_id d = aid
                   /\ (forall j d', (j < i)%nat -> ds !! j = Some d' ->
                                    artifact_id d' <> aid)
                   /\ catalog_data w' (catalog s) = Some (n - 1, base.delete i ds)
                   /\ session_objs w' !! session
                      = Some (mkSession (session_id s) (created_at s)
                                (session_dir s) (catalog s)
                                (remove_first aid (uploaded_images s)))
                   /\ catalog_saved env w' session
                   /\ files w'
                      = <[path_resolve env (catalog_path s) :=
                            TextFile (model_dump_json env
                                        (n - 1, base.delete i ds))]>
                          (base.delete (path_resolve env (save_path d))
                             (files w))
                   /\ well_formed w')).
Proof.
  intros Hwf. unfold delete_image, get_session_or_404.
  split; [intros ->; reflexivity|].
  intros session Hreg. rewrite Hreg.
  destruct (proj2 Hwf sid session Hreg) as (s & Hs & [[n ds] Hd]).
  exists s, n, ds. split; [exact Hs|]. split; [exact Hd|].
  destruct (catalog_data_inv _ _ _ Hd) as (cat & ds' & Hc & Hds & E).
  injection E as -> <-.
  destruct (remove_artifact_cases env w session s (artifact_count cat) ds aid
              Hs Hd)
    as [H|(w1 & cat' & i & r & obj & H & Hin & Hc' & Hr & Ho & Hid & Hfirst & Ha
           & Ht & Hcat & Hd1 & Hses & Hf & Hreg1 & Hb)].
  - left. rewrite H. cbn. split; [reflexivity|].
    destruct (remove_artifact_refused env w w session s cat aid Hs Hc H)
      as [Hno|Hno]; [left; exact Hno|right].
    intros d Hind. apply list_elem_of_In, list_elem_of_lookup in Hind as [j Hj].
    destruct (proj2 (mapM_lookup _ _ _ Hds j) d Hj) as (r & Hrj & Hrd).
    destruct (artifact_data_fields _ _ _ Hrd) as (obj & Hobj & Hidd & _).
    rewrite Hidd. apply (Hno r obj); [|exact Hobj].
    apply list_elem_of_In, list_elem_of_lookup. eauto.
  - right. rewrite Hc in Hc'. injection Hc' as <-.
    destruct (remove_artifact_wf env w sid session aid Hwf Hreg)
      as (w1' & removed' & H' & Hwf1).
    rewrite H in H'. injection H' as <- _.
    destruct (proj1 (mapM_lookup _ _ _ Hds i) r Hr) as (d & Hdi & Hrd).
    destruct (artifact_data_fields _ _ _ Hrd) as (obj' & Hobj' & Hidd & Hpath).
    rewrite Ho in Hobj'. injection Hobj' as <-.
    rewrite H. cbn.
    assert (Hs1 : session_objs w1 !! session
                  = Some (mkSession (session_id s) (created_at s) (session_dir s)
                            (catalog s) (remove_first aid (uploaded_images s))))
      by (rewrite Hses; apply lookup_insert_eq).
    rewrite Hs1. cbn. unfold update_catalog, _save_session_catalog.
    cbn [catalog]. rewrite Hd1. cbn.
    match goal with
    | |- context [with_files w1 ?m] => set (w2 := with_files w1 m)
    end.
    assert (Hd2 : forall c, catalog_data w2 c = catalog_data w1 c)
      by (intros c; apply catalog_data_frame; reflexivity).
    exists w2, i, d. split; [reflexivity|]. split; [exact Hin|].
    split; [exact Hdi|]. split; [rewrite Hidd; exact Hid|].
    split.
    { intros j d' Hj Hdj.
      destruct (proj2 (mapM_lookup _ _ _ Hds j) d' Hdj) as (r' & Hrj & Hrd').
      destruct (artifact_data_fields _ _ _ Hrd') as (o' & Ho' & Hid' & _).
      rewrite Hid'. exact (Hfirst j r' o' Hj Hrj Ho'). }
    split; [rewrite Hd2; exact Hd1|]. split; [exact Hs1|].
    split.
    { eexists _, _. split; [exact Hs1|]. split; [rewrite Hd2; exact Hd1|].
      cbn. apply lookup_insert_eq. }
    split; [cbn; rewrite Hf, Hpath; reflexivity|].
    apply (well_formed_step w1);
      [exact Hwf1|reflexivity|intros c Hsome; rewrite Hd2; exact Hsome
      |intros ? ? Hx; exact Hx|intros sr0 s0 Hs0; exists s0; auto].
Qed.

Lemma delete_image_outcome_witness :
  exists s n ds,
    session_objs one_session_world !! 0%nat = Some s
    /\ catalog_data one_session_world (catalog s) = Some (n, ds).
Proof.
  assert (Hreg : get_session one_session_world "sid-a" = Some 0%nat)
    by (vm_compute; reflexivity).
  destruct (proj2 (delete_image_outcome env one_session_world "sid-a"
                     "user_upload_deadbeef" one_session_world_wf) 0%nat Hreg)
    as (s & n & ds & Hs & Hd & _).
  exists s, n, ds. auto.
Defined.

End ApiClaims.

(* ===================================================================== *)
(** * The tags of an upload form *)
(* ===================================================================== *)

Section TagFacts.
Import Str Text Api ApiSide.

Lemma split_pieces_clean_prefix (c : ascii) (a s : string) :
  contains (String c EmptyString) a = false ->
  split_pieces c (a +:+ s)
  = (a +:+ (split_pieces c s).1, (split_pieces c s).2).
Proof.
  induction a as [|d a IH]; intros Ha.
  - change (EmptyString +:+ s) with s. destruct (split_pieces c s). reflexivity.
  - apply no_char_cons in Ha as [Hd Ha]. rewrite append_cons.
    cbn [split_pieces]. rewrite (IH Ha).
    unfold eqb_char. apply Ascii.eqb_neq in Hd. rewrite Hd.
    rewrite append_cons. reflexivity.
Qed.

Lemma append_empty_r (a : string) : a +:+ EmptyString = a.
Proof. induction a as [|c a IH]; [reflexivity|]. rewrite append_cons, IH. reflexivity. Qed.

Lemma split_char_clean (c : ascii) (a : string) :
  contains (String c EmptyString) a = false -> split_char c a = [a].
Proof.
  intros Ha. unfold split_char.
  rewrite <- (append_empty_r a), (split_pieces_clean_prefix c a EmptyString Ha).
  cbn. rewrite !append_empty_r. reflexivity.
Qed.

Lemma split_char_sep (c : ascii) (a rest : string) :
  contains (String c EmptyString) a = false ->
  split_char c (a +:+ String c rest) = a :: split_char c rest.
Proof.
  intros Ha. unfold split_char. rewrite (split_pieces_clean_prefix c a _ Ha).
  cbn [split_pieces]. destruct (split_pieces c rest) as [p r].
  unfold eqb_char. rewrite Ascii.eqb_refl. cbn. rewrite append_empty_r.
  reflexivity.
Qed.

(** No piece of a split holds the separator. *)
Lemma split_pieces_no_sep (c : ascii) (s : string) :
  contains (String c EmptyString) (split_pieces c s).1 = false
  /\ forall p, In p (split_pieces c s).2 ->
               contains (String c EmptyString) p = false.
Proof.
  induction s as [|d s [IH1 IH2]]; [split; [reflexivity|intros p []]|].
  cbn [split_pieces]. destruct (split_pieces c s) as [p0 r]. cbn [fst snd] in *.
  unfold eqb_char. destruct (Ascii.eqb d c) eqn:E; cbn [fst snd].
  - split; [reflexivity|]. intros p [<-|Hp]; auto.
  - split; [|exact IH2]. apply Ascii.eqb_neq in E.
    apply no_char_cons_inv; assumption.
Qed.

Lemma split_char_no_sep (c : ascii) (s p : string) :
  In p (split_char c s) -> contains (String c EmptyString) p = false.
Proof.
  unfold split_char. pose proof (split_pieces_no_sep c s) as [H1 H2].
  destruct (split_pieces c s) as [p0 r]. cbn [fst snd] in *.
  intros [<-|Hp]; auto.
Qed.

Lemma no_char_lstrip (c : ascii) (s : string) :
  contains (String c EmptyString) s = false ->
  contains (String c EmptyString) (lstrip s) = false.
Proof.
  induction s as [|d s IH]; intros H; [exact H|].
  cbn [lstrip]. destruct (is_space d); [|exact H].
  apply no_char_cons in H as [_ H]. exact (IH H).
Qed.

Lemma no_char_rstrip (c : ascii) (s : string) :
  contains (String c EmptyString) s = false ->
  contains (String c EmptyString) (rstrip s) = false.
Proof.
  induction s as [|d s IH]; intros H; [exact H|].
  apply no_char_cons in H as [Hd H]. specialize (IH H).
  cbn [rstrip]. destruct (rstrip s) as [|e r].
  - destruct (is_space d); [reflexivity|].
    apply no_char_cons_inv; [exact Hd|reflexivity].
  - apply no_char_cons_inv; assumption.
Qed.

Lemma no_char_strip (c : ascii) (s : string) :
  contains (String c EmptyString) s = false ->
  contains (String c EmptyString) (strip s) = false.
Proof. intros H. unfold strip. apply no_char_rstrip, no_char_lstrip, H. Qed.

Lemma is_empty_false (s : string) : is_empty s = false <-> s <> EmptyString.
Proof. destruct s; cbn; split; congruence. Qed.

(** The emptiness test in front changes nothing: the empty field splits
    into one empty piece, which is dropped. *)
Lemma parse_tags_pieces (tags : string) :
  parse_tags tags
  = map strip
      (List.filter (fun t => negb (is_empty (strip t))) (split_char "," tags)).
Proof. unfold parse_tags. destruct tags; reflexivity. Qed.

Lemma strip_space_front (t : string) : strip (" " +:+ t) = strip t.
Proof. reflexivity. Qed.

(** The pieces of a joined list, for a separator made of a comma and a
    comma-free padding. *)
Lemma split_char_join (pad : string) (t : string) (l : list string) :
  contains "," pad = false ->
  (forall x, In x (t :: l) -> contains "," x = false) ->
  split_char "," (join ("," +:+ pad) (t :: l))
  = t :: map (fun x => pad +:+ x) l.
Proof.
  intros Hpad. revert t. induction l as [|u l IH]; intros t Hall.
  - cbn [join map]. apply split_char_clean. apply Hall. left. reflexivity.
  - change (join ("," +:+ pad) (t :: u :: l))
      with (t +:+ ("," +:+ pad) +:+ join ("," +:+ pad) (u :: l)).
    change (("," +:+ pad) +:+ join ("," +:+ pad) (u :: l))
      with (String "," (pad +:+ join ("," +:+ pad) (u :: l))).
    rewrite split_char_sep by (apply Hall; left; reflexivity).
    f_equal. unfold split_char.
    rewrite (split_pieces_clean_prefix "," pad _ Hpad).
    fold (split_char "," (join ("," +:+ pad) (u :: l))) in *.
    specialize (IH u (fun x Hx => Hall x (or_intror Hx))).
    unfold split_char in IH.
    destruct (split_pieces "," (join ("," +:+ pad) (u :: l))) as [p r].
    cbn [fst snd]. injection IH as -> ->. reflexivity.
Qed.

Lemma parse_padded (pad : string) (l : list string) :
  (forall x, strip (pad +:+ x) = strip x) ->
  Forall clean_tag l ->
  map strip
    (List.filter (fun t => negb (is_empty (strip t)))
       (map (fun x => pad +:+ x) l)) = l.
Proof.
  intros Hpad. induction 1 as [|t l (Hne & Hst & _) _ IH]; [reflexivity|].
  cbn [map List.filter]. rewrite Hpad, Hst.
  apply is_empty_false in Hne. rewrite Hne. cbn [negb map].
  rewrite Hpad, Hst, IH. reflexivity.
Qed.

End TagFacts.

Section TagClaims.
Import Str Text Api ApiSide.

(** The tags taken from the form field are clean: none is empty, none
    has white space at either end, none holds a comma.  Conversely a list
    of clean tags survives the round trip through the field, whether it
    is joined with commas or with a comma and a space. *)
Theorem parse_tags_round_trip (tags : string) (l : list string) :
  Forall clean_tag (parse_tags tags)
  /\ (Forall clean_tag l ->
      parse_tags (join "," l) = l /\ parse_tags (join ", " l) = l).
Proof.
  split.
  - rewrite parse_tags_pieces. apply List.Forall_forall. intros t Ht.
    apply in_map_iff in Ht as (p & <- & Hp).
    apply filter_In in Hp as [Hp Hne].
    apply negb_true_iff, is_empty_false in Hne.
    split; [exact Hne|]. split; [apply strip_idem|].
    apply no_char_strip. exact (split_char_no_sep _ _ _ Hp).
  - intros Hl. rewrite !parse_tags_pieces.
    destruct l as [|t l]; [split; reflexivity|].
    assert (Hall : forall x, In x (t :: l) -> contains "," x = false).
    { intros x Hx. rewrite List.Forall_forall in Hl.
      destruct (Hl x Hx) as (_ & _ & H). exact H. }
    change (join "," (t :: l)) with (join ("," +:+ EmptyString) (t :: l)).
    change (join ", " (t :: l)) with (join ("," +:+ " ") (t :: l)).
    rewrite !split_char_join by (reflexivity || exact Hall).
    apply Forall_cons in Hl as [(Hne & Hst & Hc) Hl].
    cbn [List.filter]. rewrite Hst.
    apply is_empty_false in Hne. rewrite Hne. cbn [negb map]. rewrite Hst.
    split; f_equal.
    + apply (parse_padded EmptyString); [reflexivity|exact Hl].
    + apply (parse_padded " "); [apply strip_space_front|exact Hl].
Qed.

Lemma parse_tags_round_trip_witness :
  parse_tags "kpi, q3 report" = ["kpi"; "q3 report"].
Proof.
  assert (H : Forall clean_tag ["kpi"; "q3 report"]).
  { repeat constructor; try discriminate; vm_compute; reflexivity. }
  exact (proj2 (proj2 (parse_tags_round_trip EmptyString ["kpi"; "q3 report"]) H)).
Defined.

End TagClaims.

(* ===================================================================== *)
(** * Splitting, and the frontmatter of a prompt file *)
(* ===================================================================== *)

Section SplitFacts.
Import Str Text.

Lemma take_app_le (k : nat) (a b : string) :
  (k <= String.length a)%nat -> take k (a +:+ b) = take k a.
Proof.
  revert k. induction a as [|c a IH]; intros k Hk.
  - cbn in Hk. replace k with 0%nat by lia. destruct b; reflexivity.
  - destruct k as [|k]; [reflexivity|]. rewrite append_cons. cbn [take].
    rewrite IH by (cbn in Hk; lia). reflexivity.
Qed.

Lemma take_take (k m : nat) (s : string) :
  (k <= m)%nat -> take k (take m s) = take k s.
Proof.
  revert k m. induction s as [|c s IH]; intros k m Hk.
  - destruct k, m; reflexivity.
  - destruct k as [|k]; [destruct m; reflexivity|].
    destruct m as [|m]; [lia|]. cbn [take]. rewrite IH by lia. reflexivity.
Qed.

Lemma starts_with_take_all (p y : string) :
  starts_with p y = starts_with p (take (String.length p) y).
Proof.
  revert y. induction p as [|a p IH]; intros y; [reflexivity|].
  destruct y as [|b y]; [reflexivity|]. cbn [String.length take starts_with].
  rewrite IH. reflexivity.
Qed.

(** Whether [p] is a prefix depends on the first [length p] characters
    only. *)
Lemma starts_with_take (p x y : string) :
  starts_with p (x +:+ y)
  = starts_with p (x +:+ take (String.length p - String.length x) y).
Proof.
  revert p. induction x as [|c x IH]; intros p.
  - change (EmptyString +:+ ?z) with z. rewrite Nat.sub_0_r.
    apply starts_with_take_all.
  - rewrite !append_cons. destruct p as [|a p]; [reflexivity|].
    cbn [starts_with String.length Nat.sub]. rewrite IH. reflexivity.
Qed.

Lemma contains_cons_false (p : string) (d : ascii) (s : string) :
  contains p (String d s) = false ->
  starts_with p (String d s) = false /\ contains p s = false.
Proof.
  unfold contains.
  change (search ?m (String ?x ?r)) with
    (if m (String x r) then Some 0%nat else S <$> search m r).
  destruct (starts_with p (String d s)); [discriminate|].
  destruct (search (starts_with p) s); [discriminate|]. auto.
Qed.

Lemma split_from_skip (sep : string) (n : nat) (x rest : string) :
  split_from sep n (String.length x) (x +:+ rest) = split_from sep n 0 rest.
Proof.
  induction x as [|c x IH]; [reflexivity|].
  rewrite append_cons. cbn [String.length split_from]. exact IH.
Qed.

Lemma split_from_step (sep : string) (n : nat) (c : ascii) (t : string) :
  split_from sep (S n) 0 (String c t)
  = if starts_with sep (String c t) then
      (EmptyString,
       (split_from sep n (String.length sep - 1) t).1
         :: (split_from sep n (String.length sep - 1) t).2)
    else (String c (split_from sep (S n) 0 t).1, (split_from sep (S n) 0 t).2).
Proof.
  cbn [split_from]. destruct (starts_with sep (String c t)).
  - destruct (split_from sep n (String.length sep - 1) t). reflexivity.
  - destruct (split_from sep (S n) 0 t). reflexivity.
Qed.

(** With no split left the text is one piece. *)
Lemma split_from_done (sep s : string) : split_from sep 0 0 s = (s, []).
Proof.
  induction s as [|c s IH]; [reflexivity|]. cbn [split_from]. rewrite IH.
  reflexivity.
Qed.

(** A text without the separator is one piece. *)
Lemma split_from_clean (sep : string) (n : nat) (s : string) :
  contains sep s = false -> split_from sep n 0 s = (s, []).
Proof.
  destruct n as [|n]; [intros _; apply split_from_done|].
  induction s as [|c s IH]; intros H; [reflexivity|].
  apply contains_cons_false in H as [H1 H2].
  rewrite split_from_step, H1, (IH H2). reflexivity.
Qed.

(** The first split is at the first occurrence of the separator. *)
Lemma split_from_first (c0 : ascii) (sep' : string) (n : nat) (a rest : string) :
  contains (String c0 sep') (a +:+ take (String.length sep') (String c0 sep'))
    = false ->
  split_from (String c0 sep') (S n) 0 (a +:+ String c0 sep' +:+ rest)
  = (a, (split_from (String c0 sep') n 0 rest).1
          :: (split_from (String c0 sep') n 0 rest).2).
Proof.
  set (sep := String c0 sep').
  induction a as [|d a IH]; intros H.
  - change (EmptyString +:+ sep +:+ rest) with (String c0 (sep' +:+ rest)).
    rewrite split_from_step.
    change (String c0 (sep' +:+ rest)) with (sep +:+ rest).
    rewrite starts_with_app.
    change (String.length sep - 1)%nat with (String.length sep' - 0)%nat.
    rewrite Nat.sub_0_r.
    change (sep +:+ rest) with (String c0 (sep' +:+ rest)).
    rewrite split_from_skip. reflexivity.
  - rewrite append_cons in H. apply contains_cons_false in H as [H1 H2].
    rewrite append_cons, split_from_step.
    assert (Hno : starts_with sep (String d (a +:+ sep +:+ rest)) = false).
    { rewrite <- H1. rewrite <- !append_cons.
      rewrite (starts_with_take sep (String d a) (sep +:+ rest)).
      rewrite (starts_with_take sep (String d a)
                 (take (String.length sep') sep)).
      f_equal. f_equal.
      rewrite take_app_le by lia.
      rewrite take_take; [reflexivity|]. cbn [String.length sep]. lia. }
    rewrite Hno, (IH H2). reflexivity.
Qed.

End SplitFacts.

Section PromptClaims.
Import Str Text Prompts.

(** The frontmatter of a prompt file.  A file that does not begin with
    three dashes is returned as it is, not even stripped.  A file that
    begins with a frontmatter block closed by the next three dashes is
    returned without the block, stripped, and further runs of dashes in
    the body stay.  A file whose opening dashes are never closed is
    returned as it is. *)
Theorem load_prompt_frontmatter (markdown : gmap string string)
    (prompt_name content : string) :
  markdown !! (prompt_name +:+ ".md") = Some content ->
  (starts_with "---" content = false ->
   load_prompt markdown prompt_name = Some content)
  /\ (forall fm body,
        content = "---" +:+ fm +:+ "---" +:+ body ->
        contains "---" (fm +:+ "--") = false ->
        load_prompt markdown prompt_name = Some (strip body))
  /\ (forall rest,
        content = "---" +:+ rest ->
        contains "---" rest = false ->
        load_prompt markdown prompt_name = Some content).
Proof.
  intros Hfile. unfold load_prompt. rewrite Hfile.
  split; [intros ->; reflexivity|]. split.
  - intros fm body -> Hfm. rewrite starts_with_app. unfold split_max.
    change ("---" +:+ fm +:+ "---" +:+ body)
      with (String "-" ("--" +:+ fm +:+ "---" +:+ body)).
    rewrite split_from_step.
    change (String "-" ("--" +:+ fm +:+ "---" +:+ body))
      with ("---" +:+ fm +:+ "---" +:+ body).
    rewrite starts_with_app.
    change (String.length "---" - 1)%nat with (String.length "--").
    rewrite split_from_skip.
    rewrite (split_from_first "-" "--" 0 fm body Hfm), split_from_done.
    reflexivity.
  - intros rest -> Hrest. rewrite starts_with_app. unfold split_max.
    change ("---" +:+ rest) with (String "-" ("--" +:+ rest)).
    rewrite split_from_step.
    change (String "-" ("--" +:+ rest)) with ("---" +:+ rest).
    rewrite starts_with_app.
    change (String.length "---" - 1)%nat with (String.length "--").
    rewrite split_from_skip, (split_from_clean "---" 1 rest Hrest).
    reflexivity.
Qed.

Lemma load_prompt_frontmatter_witness :
  load_prompt {[ "slide_planner.md" :=
                   "---" +:+ (nl +:+ "name: planner" +:+ nl) +:+ "---"
                     +:+ (nl +:+ "You plan slides." +:+ nl +:+ "---" +:+ nl
                            +:+ "Be brief." +:+ nl) ]}
    "slide_planner"
  = Some (strip (nl +:+ "You plan slides." +:+ nl +:+ "---" +:+ nl
                   +:+ "Be brief." +:+ nl)).
Proof.
  apply (proj1 (proj2 (load_prompt_frontmatter _ "slide_planner" _
                         (lookup_singleton_eq _ _)))
           (nl +:+ "name: planner" +:+ nl)).
  - reflexivity.
  - vm_compute. reflexivity.
Defined.

End PromptClaims.

(* ===================================================================== *)
(** * The JSON text taken from the planner's reply *)
(* ===================================================================== *)

Section JsonFacts.
Import Str Text PlanParse.

Lemma no_char_no_string (c : ascii) (p x : string) :
  contains (String c EmptyString) x = false ->
  contains (String c p) x = false.
Proof.
  induction x as [|d x IH]; intros H; [reflexivity|].
  apply no_char_cons in H as [Hd H]. specialize (IH H).
  unfold contains in *.
  change (search ?m (String ?y ?r)) with
    (if m (String y r) then Some 0%nat else S <$> search m r).
  assert (Hm : starts_with (String c p) (String d x) = false).
  { cbn [starts_with]. unfold eqb_char.
    apply not_eq_sym, Ascii.eqb_neq in Hd. rewrite Hd. reflexivity. }
  rewrite Hm. destruct (search (starts_with (String c p)) x);
    [discriminate|reflexivity].
Qed.

Lemma find_0 (s needle : string) :
  find s needle 0
  = match search (starts_with needle) s with
    | Some i => Z.of_nat i
    | None => -1
    end.
Proof. unfold find. destruct s; reflexivity. Qed.

Lemma search_last_Some (m : string -> bool) (s : string) (j : nat) :
  search_last m s = Some j ->
  m (drop j s) = true /\ (j <= String.length s)%nat.
Proof.
  revert j. induction s as [|c s IH]; intros j H; cbn [search_last] in H.
  - destruct (m EmptyString) eqn:E; [|discriminate].
    injection H as <-. split; [exact E|reflexivity].
  - destruct (search_last m s) as [k|] eqn:K.
    + injection H as <-. destruct (IH k eq_refl) as [H1 H2].
      split; [exact H1|cbn; lia].
    + destruct (m (String c s)) eqn:E; [|discriminate].
      injection H as <-. split; [exact E|cbn; lia].
Qed.

Lemma search_last_end (c : ascii) (x : string) :
  search_last (starts_with (String c EmptyString)) (x +:+ String c EmptyString)
  = Some (String.length x).
Proof.
  induction x as [|d x IH].
  - change (EmptyString +:+ String c EmptyString) with (String c EmptyString).
    cbn [search_last starts_with String.length]. unfold eqb_char.
    rewrite Ascii.eqb_refl. reflexivity.
  - rewrite append_cons. cbn [search_last String.length]. rewrite IH.
    reflexivity.
Qed.

Lemma slice_index_id (n i : nat) :
  (i <= n)%nat -> slice_index n (Z.of_nat i) = i.
Proof.
  intros H. unfold slice_index.
  destruct (Z.of_nat i <? 0) eqn:E; [apply Z.ltb_lt in E; lia|]. lia.
Qed.

Lemma take_snoc (k : nat) (u : string) (c : ascii) (v : string) :
  drop k u = String c v -> take (S k) u = take k u +:+ String c EmptyString.
Proof.
  revert u. induction k as [|k IH]; intros u H.
  - cbn in H. subst u. reflexivity.
  - destruct u as [|d u]; [discriminate|]. cbn [drop] in H.
    change (take (S (S k)) (String d u)) with (String d (take (S k) u)).
    rewrite (IH u H). reflexivity.
Qed.

(** From the first opening brace to the last closing brace. *)
Lemma brace_slice_shape (t : string) (i j : nat) :
  starts_with "{" (drop i t) = true ->
  starts_with "}" (drop j t) = true ->
  slice t i (S j) = EmptyString
  \/ exists mid, slice t i (S j) = "{" +:+ mid +:+ "}".
Proof.
  intros Hi Hj. unfold slice.
  destruct (Nat.le_gt_cases (S j) i) as [Hle|Hgt].
  { left. replace (S j - i)%nat with 0%nat by lia. reflexivity. }
  right.
  apply starts_with_inv in Hi as [u Hu]. apply starts_with_inv in Hj as [v Hv].
  change ("{" +:+ u) with (String "{" u) in Hu.
  change ("}" +:+ v) with (String "}" v) in Hv.
  assert (Hne : i <> j).
  { intros ->. rewrite Hu in Hv. discriminate. }
  rewrite Hu. replace (S j - i)%nat with (S (S (j - i - 1))) by lia.
  change (take (S (S (j - i - 1))) (String "{" u))
    with (String "{" (take (S (j - i - 1)) u)).
  assert (Hd : drop (j - i - 1) u = String "}" v).
  { replace u with (drop 1 (drop i t)) by (rewrite Hu; reflexivity).
    rewrite !drop_drop. replace (i + (1 + (j - i - 1)))%nat with j by lia.
    exact Hv. }
  rewrite (take_snoc _ _ _ _ Hd). exists (take (j - i - 1) u). reflexivity.
Qed.

(** The last step of [json_str], on the text left after the fences are
    dealt with. *)
Lemma json_braces (t js : string) :
  (if (find t "{" 0 =? -1) || (rfind t "}" + 1 =? 0) then
     inl (ValueError "No JSON object found in response")
   else inr (py_slice t (find t "{" 0) (rfind t "}" + 1))) = inr js ->
  js = EmptyString \/ exists mid, js = "{" +:+ mid +:+ "}".
Proof.
  rewrite find_0. unfold rfind.
  destruct (search (starts_with "{") t) as [i|] eqn:Ei;
    [|cbn; discriminate].
  destruct (search_last (starts_with "}") t) as [j|] eqn:Ej;
    [|rewrite orb_true_r; discriminate].
  destruct (search_Some _ _ _ Ei) as (Hi & Hil & _).
  destruct (search_last_Some _ _ _ Ej) as (Hj & Hjl).
  assert (Hjlt : (j < String.length t)%nat).
  { destruct (Nat.eq_dec j (String.length t)) as [->|]; [|lia].
    assert (Hnil : drop (String.length t) t = EmptyString).
    { clear. induction t as [|c t IH]; [reflexivity|exact IH]. }
    rewrite Hnil in Hj. discriminate. }
  destruct (Z.of_nat i =? -1) eqn:E1; [apply Z.eqb_eq in E1; lia|].
  destruct (Z.of_nat j + 1 =? 0) eqn:E2; [apply Z.eqb_eq in E2; lia|].
  cbn [orb]. intros H. injection H as <-.
  unfold py_slice. rewrite slice_index_id by exact Hil.
  replace (Z.of_nat j + 1) with (Z.of_nat (S j)) by lia.
  rewrite slice_index_id by lia.
  apply brace_slice_shape; assumption.
Qed.

Lemma no_backtick_no_fence (t : string) :
  contains "`" t = false ->
  contains "```json" t = false /\ contains "```" t = false.
Proof.
  intros H. split; apply (no_char_no_string "`"); exact H.
Qed.

End JsonFacts.

Section JsonClaims.
Import Str Text PlanParse.

(** What [_parse_slide_plan] hands to the JSON decoder.  The text is
    empty or runs from an opening brace to a closing brace.  A reply that
    is one object, with no code fence, is handed over stripped and
    otherwise unchanged.  When the reply holds a json fence, with no
    backtick before it or inside it, only the inside of the fence counts:
    the text around the fence is ignored. *)
Theorem json_str_spec (response : string) :
  (forall js, json_str response = inr js ->
     js = EmptyString \/ exists mid, js = "{" +:+ mid +:+ "}")
  /\ (forall mid,
        strip response = "{" +:+ mid +:+ "}" ->
        contains "```" (strip response) = false ->
        json_str response = inr (strip response))
  /\ (forall pre body post,
        strip response = pre +:+ "```json" +:+ body +:+ "```" +:+ post ->
        contains "`" pre = false ->
        contains "`" body = false ->
        json_str response = json_str body).
Proof.
  split; [|split].
  - intros js. unfold json_str. cbv zeta.
    match goal with
    | |- context [find ?t "{" 0] => generalize t
    end.
    intros t. apply json_braces.
  - intros mid Hdoc Hno. unfold json_str. cbv zeta.
    assert (Hj : contains "```json" (strip response) = false).
    { destruct (contains "```json" (strip response)) eqn:E; [|reflexivity].
      apply contains_spec in E as (a & b & E).
      assert (Hc : contains "```" (strip response) = true).
      { apply contains_spec. exists a, ("json" +:+ b). rewrite E.
        reflexivity. }
      rewrite Hc in Hno. discriminate. }
    rewrite Hj, Hno, find_0. unfold rfind. rewrite Hdoc.
    rewrite search_head by reflexivity.
    change ("{" +:+ mid +:+ "}") with (("{" +:+ mid) +:+ "}").
    rewrite (search_last_end "}" ("{" +:+ mid)).
    cbn [Z.eqb orb Z.of_nat].
    destruct (Z.of_nat (String.length ("{" +:+ mid)) + 1 =? 0) eqn:E;
      [apply Z.eqb_eq in E; lia|].
    f_equal. unfold py_slice.
    replace (Z.of_nat (String.length ("{" +:+ mid)) + 1)
      with (Z.of_nat (String.length (("{" +:+ mid) +:+ "}")))
      by (rewrite app_length; cbn; lia).
    rewrite (slice_index_id _ 0) by lia. rewrite slice_index_id by lia.
    unfold slice. rewrite Nat.sub_0_r. apply take_all.
  - intros pre body post Hdoc Hpre Hbody.
    destruct (fenced_block_found "json" pre body post Hpre Hbody)
      as (Hc & Hf1 & Hf2 & Hs).
    cbn zeta in Hc, Hf1, Hf2, Hs.
    change ("```" +:+ "json") with "```json" in Hc, Hf1, Hf2, Hs.
    rewrite <- Hdoc in Hc, Hf1, Hf2, Hs.
    assert (Hlen : (String.length pre + (3 + String.length "json")
                    + String.length body <= String.length (strip response))%nat).
    { rewrite Hdoc, !app_length. cbn. lia. }
    destruct (no_backtick_no_fence (strip body) (no_char_strip "`" body Hbody))
      as [Hb1 Hb2].
    unfold json_str. cbv zeta.
    rewrite Hc, Hf1, Hb1, Hb2.
    replace (Z.to_nat (Z.of_nat (String.length pre) + 7))
      with (String.length pre + (3 + String.length "json"))%nat by (cbn; lia).
    rewrite Hf2.
    assert (Hslice : py_slice (strip response)
                       (Z.of_nat (String.length pre) + 7)
                       (Z.of_nat (String.length pre + (3 + String.length "json")
                                  + String.length body)) = body).
    { unfold py_slice.
      replace (Z.of_nat (String.length pre) + 7)
        with (Z.of_nat (String.length pre + (3 + String.length "json")))
        by (cbn; lia).
      rewrite !slice_index_id by lia. exact Hs. }
    rewrite Hslice. reflexivity.
Qed.

Lemma json_str_spec_witness :
  json_str ("Here is the plan:" +:+ nl +:+ "```json" +:+ nl
              +:+ "{ }" +:+ nl +:+ "```" +:+ nl +:+ "Done." +:+ nl)
  = json_str (nl +:+ "{ }" +:+ nl).
Proof.
  apply (proj2 (proj2 (json_str_spec _)) ("Here is the plan:" +:+ nl)
           (nl +:+ "{ }" +:+ nl) (nl +:+ "Done.")); vm_compute; reflexivity.
Defined.

End JsonClaims.

(* ===================================================================== *)
(** * An upload and its removal *)
(* ===================================================================== *)

Section RoundTripFacts.
Import Str Backend Sessions SpecSide BackendSide UploadSide.

Lemma str_in_snoc (x : string) (l : list string) : str_in x (l ++ [x]) = true.
Proof.
  unfold str_in. rewrite existsb_app. cbn. rewrite String.eqb_refl.
  rewrite orb_true_r. reflexivity.
Qed.

Lemma remove_first_snoc (x : string) (l : list string) :
  str_in x l = false -> remove_first x (l ++ [x]) = l.
Proof.
  unfold str_in. induction l as [|y l IH]; intros H.
  - cbn. rewrite String.eqb_refl. reflexivity.
  - cbn in H. apply orb_false_iff in H as [Hy Hl].
    cbn [app remove_first]. rewrite String.eqb_sym, Hy, (IH Hl). reflexivity.
Qed.

Lemma session_eta (s : Session) :
  mkSession (session_id s) (created_at s) (session_dir s) (catalog s)
    (uploaded_images s) = s.
Proof. destruct s. reflexivity. Qed.

Lemma catalog_eta (cat : ArtifactCatalog) :
  mkArtifactCatalog (artifact_count cat) (artifacts cat) = cat.
Proof. destruct cat. reflexivity. Qed.

End RoundTripFacts.

Section RoundTripClaims.
Import Str Backend Sessions SpecSide BackendSide UploadSide Deployment.

(** An upload followed by the removal of the uploaded artifact restores
    the session: the removal succeeds, the session's catalog object and
    what it denotes, and the session object with its uploads, are what
    they were before the upload, and the stored file is gone.  This needs
    the new id to be new (no artifact of the catalog and no earlier
    upload carries it: the removal takes the first artifact with the id)
    and the recorded path to resolve to itself. *)
Theorem upload_then_remove_restores (env : Env) (w : World) (session : ref)
    (s : Session) (n : Z) (ds : list (Artifact (list string)))
    (file : UploadFile) (title_arg : option string) (description_arg : string)
    (tags_arg : option (list string)) (hex8 : string) :
  session_objs w !! session = Some s ->
  catalog_data w (catalog s) = Some (n, ds) ->
  validate_file env file (content file) = inr tt ->
  (forall d, In d ds -> artifact_id d <> upload_id hex8) ->
  str_in (upload_id hex8) (uploaded_images s) = false ->
  path_resolve env (upload_path env s file hex8) = upload_path env s file hex8 ->
  exists w1 a w2,
    process_upload env w session file title_arg description_arg tags_arg hex8
      = Some (w1, inr a)
    /\ remove_artifact env w1 session (upload_id hex8) = Some (w2, true)
    /\ catalog_objs w2 !! catalog s = catalog_objs w !! catalog s
    /\ catalog_data w2 (catalog s) = Some (n, ds)
    /\ session_objs w2 !! session = Some s
    /\ files w2 = base.delete (upload_path env s file hex8) (files w)
    /\ objects_kept w w2.
Proof.
  intros Hs Hd Hv Hfresh Hnot Hres.
  destruct (catalog_data_inv _ _ _ Hd) as (cat & ds' & Hc & Hds & E).
  injection E as -> <-.
  destruct (process_upload_accepted env w session s cat file title_arg
              description_arg tags_arg hex8 Hs Hc Hv)
    as (w1' & Hp' & Ha1 & _ & Hcat1 & _).
  destruct (process_upload_data env w session s (artifact_count cat) ds file
              title_arg description_arg tags_arg hex8 Hs Hd Hv)
    as (w1 & a & Hp & Hanew & (t & Hobj) & Hnew & Hd1 & K & Hcs & Hses & Hf & Hr
        & Hb).
  rewrite Hp in Hp'. injection Hp' as <- ->.
  assert (Hs1 : session_objs w1 !! session = Some (add_upload s hex8))
    by (rewrite Hses; apply lookup_insert_eq).
  set (new := upload_artifact env s file title_arg description_arg tags_arg hex8)
    in *.
  assert (Hc1 : catalog_objs w1 !! catalog s
                = Some (mkArtifactCatalog (artifact_count cat + 1)
                          (artifacts cat ++ [fresh (dom (artifact_objs w))])))
    by (rewrite Hcat1; apply lookup_insert_eq).
  destruct (remove_artifact_cases env w1 session (add_upload s hex8)
              (artifact_count cat + 1) (ds ++ [new]) (upload_id hex8) Hs1 Hd1)
    as [H|(w2 & cat1 & i & r & obj & H & _ & Hc1' & Hri & Ho & Hid & Hfirst & Ha2
           & Ht2 & Hcat2 & Hd2 & Hses2 & Hf2 & _)].
  { exfalso.
    destruct (remove_artifact_refused env w1 w1 session (add_upload s hex8) _
                (upload_id hex8) Hs1 Hc1 H) as [Hno|Hno].
    - cbn [uploaded_images add_upload] in Hno. rewrite str_in_snoc in Hno.
      discriminate.
    - apply (Hno (fresh (dom (artifact_objs w))) _
               ltac:(cbn; apply in_or_app; right; left; reflexivity) Hobj).
      reflexivity. }
  cbn [catalog add_upload] in *.
  rewrite Hc1 in Hc1'. injection Hc1' as <-. cbn [artifacts] in *.
  destruct (catalog_data_inv _ _ _ Hd1) as (cat1 & ds1 & Hc1'' & Hds1 & E1).
  rewrite Hc1 in Hc1''. injection Hc1'' as <-. injection E1 as <-.
  cbn [artifacts] in Hds1.
  assert (Hi : i = length (artifacts cat)).
  { assert (Hlen : length ds = length (artifacts cat)).
    { apply mapM_Some in Hds. symmetry. exact (Forall2_length _ _ _ Hds). }
    apply lookup_lt_Some in Hri as Hlt. rewrite length_app in Hlt. cbn in Hlt.
    destruct (Nat.lt_ge_cases i (length (artifacts cat))) as [Hin|Hge]; [|lia].
    exfalso.
    destruct (proj1 (mapM_lookup _ _ _ Hds1 i) r Hri) as (d & Hdi & Hrd).
    rewrite lookup_app_l in Hdi by lia.
    destruct (artifact_data_fields _ _ _ Hrd) as (obj' & Hobj' & Hidd & _).
    rewrite Ho in Hobj'. injection Hobj' as <-.
    apply (Hfresh d); [|rewrite Hidd; exact Hid].
    apply list_elem_of_In. exact (list_elem_of_lookup_2 _ _ _ Hdi). }
  subst i.
  assert (Hr_eq : r = fresh (dom (artifact_objs w))).
  { rewrite list_lookup_middle in Hri by reflexivity. injection Hri as <-.
    reflexivity. }
  subst r. rewrite Hobj in Ho. injection Ho as <-.
  assert (Hdel : base.delete (length (artifacts cat))
                   (artifacts cat ++ [fresh (dom (artifact_objs w))])
                 = artifacts cat).
  { rewrite delete_middle. apply app_nil_r. }
  assert (Hdel' : base.delete (length (artifacts cat)) (ds ++ [new]) = ds).
  { replace (length (artifacts cat)) with (length ds).
    - rewrite delete_middle. apply app_nil_r.
    - apply mapM_Some in Hds. symmetry. exact (Forall2_length _ _ _ Hds). }
  exists w1, (fresh (dom (artifact_objs w))), w2.
  split; [exact Hp|]. split; [exact H|].
  split.
  { rewrite Hcat2, lookup_insert_eq, Hdel, Hc.
    replace (artifact_count cat + 1 - 1) with (artifact_count cat) by lia.
    rewrite catalog_eta. reflexivity. }
  split.
  { rewrite Hd2, Hdel'.
    replace (artifact_count cat + 1 - 1) with (artifact_count cat) by lia.
    reflexivity. }
  split.
  { rewrite Hses2, lookup_insert_eq.
    cbn [session_id created_at session_dir catalog uploaded_images add_upload].
    rewrite (remove_first_snoc _ _ Hnot), session_eta. reflexivity. }
  split.
  { rewrite Hf2, Hf. cbn [save_path set_tags new upload_artifact].
    rewrite Hres. apply delete_insert_eq. }
  destruct K as [KA KT]. split.
  - intros a0 o0 H0. rewrite Ha2. auto.
  - intros t0 l0 H0. rewrite Ht2. auto.
Qed.

Lemma upload_then_remove_restores_witness :
  exists w1 a w2,
    process_upload env one_session_world 0%nat png_file None "" None "deadbeef"
      = Some (w1, inr a)
    /\ remove_artifact env w1 0%nat (upload_id "deadbeef") = Some (w2, true)
    /\ session_objs w2 !! 0%nat = Some session_a.
Proof.
  assert (Hs : session_objs one_session_world !! 0%nat = Some session_a)
    by (vm_compute; reflexivity).
  assert (Hd : catalog_data one_session_world (catalog session_a)
               = Some (1, [kpi_chart])) by (vm_compute; reflexivity).
  assert (Hv : validate_file env png_file (content png_file) = inr tt)
    by (vm_compute; reflexivity).
  assert (Hfresh : forall d, In d [kpi_chart] ->
                     artifact_id d <> upload_id "deadbeef").
  { intros d [<-|[]]. vm_compute. discriminate. }
  assert (Hnot : str_in (upload_id "deadbeef") (uploaded_images session_a) = false)
    by (vm_compute; reflexivity).
  assert (Hres : path_resolve env (upload_path env session_a png_file "deadbeef")
                 = upload_path env session_a png_file "deadbeef")
    by (vm_compute; reflexivity).
  destruct (upload_then_remove_restores env one_session_world 0%nat session_a 1
              [kpi_chart] png_file None "" None "deadbeef" Hs Hd Hv Hfresh Hnot
              Hres)
    as (w1 & a & w2 & Hp & Hrm & _ & _ & Hs2 & _).
  exists w1, a, w2. auto.
Defined.

End RoundTripClaims.

(* ===================================================================== *)
(** * Resolving the artifacts of a slide *)
(* ===================================================================== *)

Section ResolveFacts.
Import Str Backend Resolve.

Lemma foldl_snoc {A B : Type} (f : A -> B -> A) (a : A) (l : list B) (b : B) :
  foldl f a (l ++ [b]) = f (foldl f a l) b.
Proof. revert a. induction l as [|x l IH]; intros a; [reflexivity|]. cbn. apply IH. Qed.

Lemma artifact_map_lookup (artifacts : list (Artifact (list string)))
    (k : string) :
  artifact_map artifacts !! k = last_with_id k artifacts.
Proof.
  unfold artifact_map, last_with_id.
  induction artifacts as [|a l IH] using rev_ind; [apply lookup_empty|].
  rewrite foldl_snoc, rev_app_distr. cbn [rev app List.find].
  destruct (String.eqb (artifact_id a) k) eqn:E.
  - apply String.eqb_eq in E. subst k. apply lookup_insert_eq.
  - apply String.eqb_neq in E. rewrite lookup_insert_ne by exact E. exact IH.
Qed.

End ResolveFacts.

Section ResolveClaims.
Import Str Backend Resolve.

(** The artifacts resolved for a slide.  Without a catalog nothing is
    resolved.  With one, an id has an entry exactly when it is not empty,
    some content block names it and some artifact of the catalog carries
    it; the entry is built from the last artifact of the catalog with
    that id.  A block whose id is unknown is passed over in silence. *)
Theorem resolve_artifacts_spec (resolve : string -> string)
    (content_blocks : list ContentBlock)
    (artifacts : list (Artifact (list string))) (k : string) (v : Resolved) :
  _resolve_artifacts resolve content_blocks None = ∅
  /\ (_resolve_artifacts resolve content_blocks (Some artifacts) !! k = Some v
      <-> k <> EmptyString
          /\ (exists block, In block content_blocks
                            /\ block_artifact_id block = Some k)
          /\ exists artifact,
               last_with_id k artifacts = Some artifact
               /\ v = mkResolved (resolve (save_path artifact))
                        (html_table artifact) (title artifact)
                        (description artifact)).
Proof.
  split; [reflexivity|]. unfold _resolve_artifacts. cbv zeta.
  induction content_blocks as [|b l IH] using rev_ind.
  - cbn. rewrite lookup_empty. split; [discriminate|].
    intros (_ & (block & [] & _) & _).
  - rewrite foldl_snoc.
    assert (Hb : truthy (block_artifact_id b) = Some k
                 <-> k <> EmptyString /\ block_artifact_id b = Some k).
    { destruct (block_artifact_id b) as [[|c t]|]; cbn.
      - split; [discriminate|]. intros [Hne H]. injection H as <-. contradiction.
      - split; [intros H; injection H as <-; split; [discriminate|reflexivity]|].
        intros [_ H]. exact H.
      - split; [discriminate|]. intros [_ H]. discriminate. }
    assert (Hin : (exists block, In block (l ++ [b])
                                 /\ block_artifact_id block = Some k)
                  <-> (exists block, In block l
                                     /\ block_artifact_id block = Some k)
                      \/ block_artifact_id b = Some k).
    { split.
      - intros (block & Hi & Hk). apply in_app_or in Hi as [Hi|[<-|[]]]; eauto.
      - intros [(block & Hi & Hk)|Hk].
        + exists block. split; [apply in_or_app; left; exact Hi|exact Hk].
        + exists b. split; [apply in_or_app; right; left; reflexivity|exact Hk]. }
    rewrite Hin. clear Hin.
    destruct (truthy (block_artifact_id b)) as [k0|] eqn:Et.
    + rewrite artifact_map_lookup.
      destruct (last_with_id k0 artifacts) as [a0|] eqn:Ea.
      * destruct (decide (k0 = k)) as [->|Hne].
        -- rewrite lookup_insert_eq. destruct (proj1 Hb eq_refl) as [Hk1 Hk2].
           split.
           ++ intros H. injection H as <-. split; [exact Hk1|].
              split; [right; exact Hk2|]. exists a0. auto.
           ++ intros (_ & _ & a & Ha & ->). rewrite Ea in Ha.
              injection Ha as <-. reflexivity.
        -- rewrite lookup_insert_ne by exact Hne. rewrite IH. split.
           ++ intros (H1 & H2 & H3). split; [exact H1|]. split; [left; exact H2|].
              exact H3.
           ++ intros (H1 & [H2|H2] & H3); [auto|].
              exfalso. apply Hne.
              assert (Hk : Some k0 = Some k) by (apply Hb; auto).
              injection Hk as ->. reflexivity.
      * rewrite IH. split.
        -- intros (H1 & H2 & H3). split; [exact H1|]. split; [left; exact H2|].
           exact H3.
        -- intros (H1 & [H2|H2] & H3); [auto|].
           exfalso. destruct H3 as (a & Ha & _).
           assert (Hk : Some k0 = Some k) by (apply Hb; auto).
           injection Hk as ->. rewrite Ea in Ha. discriminate.
    + rewrite IH. split.
      * intros (H1 & H2 & H3). split; [exact H1|]. split; [left; exact H2|].
        exact H3.
      * intros (H1 & [H2|H2] & H3); [auto|].
        exfalso. assert (Hk : None = Some k) by (apply Hb; auto). discriminate.
Qed.

End ResolveClaims.

(* ===================================================================== *)
(** * Configuration lookups *)
(* ===================================================================== *)

Section ConfigFacts.
Import Str Text Config.

Lemma split_char_dotted (k rest : string) :
  contains "." k = false ->
  split_char "." (k +:+ "." +:+ rest) = k :: split_char "." rest.
Proof. intros H. apply (split_char_sep "." k rest H). Qed.

End ConfigFacts.

Section ConfigClaims.
Import Str Text Config.

(** Looking up a configuration value.  The result is never null unless
    the default is.  Without a file, or with a file whose document is
    falsy, every key gives its default.  For a key without a dot, a
    missing entry and an explicit null both give the default, and any
    other value is returned.  A dotted key descends one mapping per
    component, and gives the default when it meets a value that is not a
    mapping on the way. *)
Theorem get_config_spec (key : string) (default : Yaml) :
  (forall config_file,
      default <> YNone -> get_config config_file key default <> YNone)
  /\ get_config None key default = default
  /\ (forall y, truthy y = false -> get_config (Some y) key default = default)
  /\ (forall m,
        contains "." key = false ->
        get_config (Some (YDict m)) key default
        = match m !! key with
          | None | Some YNone => default
          | Some value => value
          end)
  /\ (forall m k rest,
        key = k +:+ "." +:+ rest ->
        contains "." k = false ->
        get_config (Some (YDict m)) key default
        = match m !! k with
          | Some (YDict m') => get_config (Some (YDict m')) rest default
          | _ => default
          end).
Proof.
  assert (Hnonempty : exists k keys, split_char "." key = k :: keys).
  { unfold split_char. destruct (split_pieces "." key). eauto. }
  destruct Hnonempty as (k0 & keys0 & Hk0).
  assert (Hdefault : get_config None key default = default).
  { unfold get_config, load_config. cbv zeta. rewrite Hk0. cbn [follow].
    rewrite lookup_empty. cbn [from_option id]. destruct keys0; reflexivity. }
  split; [|split; [exact Hdefault|split; [|split]]].
  - intros config_file Hd. unfold get_config. cbv zeta.
    destruct (follow (load_config config_file) (split_char "." key)) as [v|];
      [|exact Hd].
    destruct v; try discriminate. exact Hd.
  - intros y Hy. unfold get_config, load_config. rewrite Hy.
    exact Hdefault.
  - intros m Hkey. unfold get_config, load_config. cbv zeta.
    cbn [truthy]. rewrite (split_char_clean "." key Hkey). cbn [follow].
    destruct (m !! key) as [v|]; reflexivity.
  - intros m k rest -> Hk. unfold get_config, load_config. cbv zeta.
    cbn [truthy]. rewrite (split_char_dotted k rest Hk). cbn [follow].
    destruct (m !! k) as [v|]; cbn [from_option id].
    + destruct v; try reflexivity.
      all: unfold split_char; destruct (split_pieces "." rest); reflexivity.
    + unfold split_char. destruct (split_pieces "." rest). reflexivity.
Qed.

End ConfigClaims.
(* ===================================================================== *)
(** * A batch of slides *)
(* ===================================================================== *)

Section BatchClaims.
Import Str Designer Orchestrator Batch Generators Runs.

Lemma design_runs_outcomes {St : Type} (env : Env St)
    (slides : list SlideSpec) (st : St) :
  map run_outcome (design_runs (agent env) (prepare env) slides st)
  = map snd (design_outcomes env slides st).
Proof.
  revert st. induction slides as [|slide rest IH]; intros st; [reflexivity|].
  cbn [design_runs design_outcomes map snd]. f_equal. apply IH.
Qed.

(** Designing a batch.  The batch makes the design calls that the
    orchestrator's loop makes, in the same order, but where the
    orchestrator records a failure and goes on, the batch stops at the
    first exception.  When no run raises, the outcome is the list of all
    results, one per slide, each for its slide and consistent with the
    checklist, and the prompts sent are those of all the runs.  When a
    run raises and the runs before it returned, the outcome is its
    exception, the agent is left in the state of that run, and the
    prompts sent are those of the runs up to it: no call is made for the
    slides after it. *)
Theorem design_slides_batch_spec {St : Type} (env : Env St)
    (slides : list SlideSpec) (st : St) :
  batch_outcome (design_slides_batch (agent env) (prepare env) slides st)
  = collect (map snd (design_outcomes env slides st))
  /\ map run_outcome (design_runs (agent env) (prepare env) slides st)
     = map snd (design_outcomes env slides st)
  /\ (forall results,
        batch_outcome (design_slides_batch (agent env) (prepare env) slides st)
        = inr results ->
        Forall2 (fun slide r =>
                   result_slide_id r = slide_id slide
                   /\ validation_errors r = _validate_html (html_content r) slide)
          slides results
        /\ forallb returned (design_runs (agent env) (prepare env) slides st)
           = true
        /\ batch_calls (design_slides_batch (agent env) (prepare env) slides st)
           = concat (map run_calls
                       (design_runs (agent env) (prepare env) slides st)))
  /\ (forall before run after e,
        design_runs (agent env) (prepare env) slides st
        = before ++ run :: after ->
        forallb returned before = true ->
        run_outcome run = inl e ->
        design_slides_batch (agent env) (prepare env) slides st
        = mkBatchRun (run_state run)
            (concat (map run_calls (before ++ [run]))) (inl e))
  /\ (forall e,
        batch_outcome (design_slides_batch (agent env) (prepare env) slides st)
        = inl e ->
        exists before run after,
          design_runs (agent env) (prepare env) slides st
          = before ++ run :: after
          /\ forallb returned before = true
          /\ run_outcome run = inl e).
Proof.
  split; [|split; [apply design_runs_outcomes|]].
  { revert st. induction slides as [|slide rest IH]; intros st; [reflexivity|].
    cbn [design_slides_batch design_outcomes map snd collect].
    unfold designer_max_retries.
    destruct (run_outcome _) as [e|r]; [reflexivity|].
    cbn [batch_outcome]. rewrite IH. reflexivity. }
  revert st. induction slides as [|slide rest IH]; intros st.
  - split; [|split].
    + intros results H. injection H as <-. repeat split. constructor.
    + intros before run after e H. destruct before; discriminate.
    + intros e H. discriminate.
  - cbn [design_slides_batch design_runs].
    remember (design_slide (agent env) (prepare env) (init_max_retries None)
                slide st) as run0 eqn:Erun0.
    destruct (IH (run_state run0)) as (IH1 & IH2 & IH3).
    destruct (run_outcome run0) as [e|r] eqn:Er.
    + split; [intros results H; discriminate|]. split.
      * intros before run after e' Hruns Hret Hrun.
        destruct before as [|b before].
        -- injection Hruns as Hr _. subst run. rewrite Er in Hrun.
           injection Hrun as <-.
           cbn [app map concat]. rewrite app_nil_r. reflexivity.
        -- injection Hruns as Hr _. subst b. cbn [forallb] in Hret.
           unfold returned in Hret at 1. rewrite Er in Hret. discriminate.
      * intros e' H. injection H as <-.
        exists [], run0,
          (design_runs (agent env) (prepare env) rest (run_state run0)).
        split; [reflexivity|]. split; [reflexivity|exact Er].
    + cbn [batch_outcome batch_calls]. split; [|split].
      * intros results H.
        destruct (batch_outcome (design_slides_batch (agent env) (prepare env)
                                   rest _)) as [e|rs] eqn:Eb; [discriminate|].
        injection H as <-. destruct (IH1 rs eq_refl) as (H1 & H2 & H3).
        split; [|split].
        -- constructor; [|exact H1].
           rewrite Erun0 in Er. unfold design_slide in Er.
           destruct (prepare env slide) as [e|user_message]; [discriminate|].
           destruct (design_loop_result (agent env) slide user_message
                       (py_range 1 (init_max_retries None + 1)) st [] [] None r
                       I Er) as (Ha & Hb & _).
           auto.
        -- cbn [forallb]. unfold returned at 1. rewrite Er, H2. reflexivity.
        -- cbn [map concat]. rewrite H3. reflexivity.
      * intros before run after e Hruns Hret Hrun.
        destruct before as [|b before].
        -- injection Hruns as Hr _. subst run. rewrite Er in Hrun. discriminate.
        -- injection Hruns as Hr Hruns. subst b. cbn [forallb] in Hret.
           apply andb_true_iff in Hret as [_ Hret].
           rewrite (IH2 before run after e Hruns Hret Hrun).
           cbn [batch_state batch_calls batch_outcome app map concat].
           reflexivity.
      * intros e H.
        destruct (batch_outcome (design_slides_batch (agent env) (prepare env)
                                   rest _)) as [e'|rs] eqn:Eb; [|discriminate].
        injection H as <-.
        destruct (IH3 e' eq_refl) as (before & run & after & Hruns & Hret & Hrun).
        exists (run0 :: before), run, after.
        split; [rewrite Hruns; reflexivity|]. split; [|exact Hrun].
        cbn [forallb]. unfold returned at 1. rewrite Er, Hret. reflexivity.
Qed.

(** Three slides, the design of the second raising: the agent is called
    once for each of the first two slides and not for the third. *)
Lemma design_slides_batch_spec_witness :
  design_slides_batch (agent flaky_env) (prepare flaky_env)
    [example_slide; second_slide; mkSlideSpec "s03" 3 "Third" []] 0%nat
  = mkBatchRun 2%nat ["Design this slide"; "Design this slide"]
      (inl (GeneratorError "rate limit exceeded")).
Proof.
  rewrite (proj1 (proj2 (proj2 (proj2
             (design_slides_batch_spec flaky_env
                [example_slide; second_slide; mkSlideSpec "s03" 3 "Third" []]
                0%nat))))
             [design_slide (agent flaky_env) (prepare flaky_env)
                (init_max_retries None) example_slide 0%nat]
             (design_slide (agent flaky_env) (prepare flaky_env)
                (init_max_retries None) second_slide 1%nat)
             [design_slide (agent flaky_env) (prepare flaky_env)
                (init_max_retries None) (mkSlideSpec "s03" 3 "Third" []) 2%nat]
             (GeneratorError "rate limit exceeded"));
    vm_compute; reflexivity.
Defined.

End BatchClaims.
